(** * Aurora backend: attendance aggregation and upsert logic

    A shallow embedding of the two attendance route modules,
    [src/routes/staffAttendanceRoutes.js] and
    [src/routes/studentAttendanceRoutes.js], together with the properties
    of the attendance subsystem that the specification states.

    Modelling conventions.
    - Values that come back from the store or from [JSON.parse] are
      JavaScript values; the fragment reachable from JSON is the inductive
      [JsVal].  A thrown exception is the left summand of [Throws].
    - The tables are lists of rows in insertion order.  Store failures
      (network, permissions) are not modelled: a select returns the rows.
      [.single()] follows PostgREST: it yields the row when exactly one row
      matches and an error (data [null], code PGRST116) otherwise.  A
      column gives back the value that was written to it: a [staffStatus]
      written as the string [JSON.stringify(..)] is read as a string, the
      case the two readers of the staff route test with
      [typeof staffStatus === "string"]; one written as an array (seed
      data, staff deletion) is read as an array.
    - [JSON.parse], [JSON.stringify], [Date] parsing and the local time zone
      belong to the JavaScript runtime, not to the repository: they are the
      fields of the class [JsRuntime].  General theorems hold for every
      runtime; [node_utc] is a concrete one on which the examples run.
    - A summary holds a rate as the exact rational
      [presentDays / totalDays * 100] and records the number of decimals the
      call site asks for.  What the response shows goes through binary64
      and [toFixed]: [percentage] is the rate as the binary64 number that
      the division and the multiplication produce, less than 10^-13 away
      from the exact one, and [percent_text] is its text. *)

From Stdlib Require Import ZArith QArith Qround Qabs Qpower Lqa.
From Stdlib Require Import List String Ascii Bool Arith Lia.
From Stdlib Require Import DecimalString Permutation.
Import ListNotations.

Set Warnings "-register-all,-abstract-large-number".

Local Open Scope string_scope.
Local Open Scope Z_scope.

(** ** JavaScript values and exceptions

    The values of JSON.  A number is kept as an integer: the routes only
    test numbers for truthiness and compare them with strings. *)

Inductive JsVal : Type :=
| JNull
| JBool (b : bool)
| JNum (z : Z)
| JStr (s : string)
| JArr (elems : list JsVal)
| JObj (fields : list (string * JsVal)).

Inductive Exn : Type :=
| TypeError (message : string)
| PostgrestError (code : string).

(** A computation that either throws or returns. *)
Definition Throws (A : Type) : Type := (Exn + A)%type.

Definition ret {A : Type} (a : A) : Throws A := inr a.
Definition throw {A : Type} (e : Exn) : Throws A := inl e.
Definition bind {A B : Type} (m : Throws A) (k : A -> Throws B) : Throws B :=
  match m with
  | inl e => inl e
  | inr a => k a
  end.

Notation "x <- m ;; k" := (bind m (fun x => k))
  (at level 61, m at next level, right associativity).

(** [ToBoolean]: [null], [false], [0] and the empty string are falsy. *)
Definition truthy (v : JsVal) : bool :=
  match v with
  | JNull => false
  | JBool b => b
  | JNum z => negb (z =? 0)
  | JStr s => negb (String.eqb s "")
  | JArr _ => true
  | JObj _ => true
  end.

(** Truthiness of a request field: a missing field is [undefined]. *)
Definition field_truthy (f : option string) : bool :=
  match f with
  | None => false
  | Some s => negb (String.eqb s "")
  end.

Fixpoint lookup_field (k : string) (fields : list (string * JsVal)) : option JsVal :=
  match fields with
  | [] => None
  | (k', v) :: rest => if String.eqb k' k then Some v else lookup_field k rest
  end.

(** [o.k = v] on an object: overwrite in place, or add the property last. *)
Fixpoint set_field (k : string) (v : JsVal) (fields : list (string * JsVal))
  : list (string * JsVal) :=
  match fields with
  | [] => [(k, v)]
  | (k', v') :: rest =>
      if String.eqb k' k then (k, v) :: rest else (k', v') :: set_field k v rest
  end.

(** [v.k]: reading a property of [null] throws; on the other values of the
    JSON fragment only objects have own properties named by the keys used
    here ([id], [status]); everything else reads [undefined] ([None]). *)
Definition get_prop (v : JsVal) (k : string) : Throws (option JsVal) :=
  match v with
  | JNull => throw (TypeError "Cannot read properties of null")
  | JObj fields => ret (lookup_field k fields)
  | _ => ret None
  end.

(** [x === s] for a string [s]; [None] is [undefined]. *)
Definition strict_eq_str (x : option JsVal) (s : string) : bool :=
  match x with
  | Some (JStr t) => String.eqb t s
  | _ => false
  end.

(** The callbacks [(s) => s.id === staffId]. *)
Definition id_is (staffId : string) (s : JsVal) : Throws bool :=
  x <- get_prop s "id" ;; ret (strict_eq_str x staffId).

(** [Array.prototype.filter], [find] and [findIndex] with a callback that
    may throw; the array is visited from index 0 and a throw stops the
    visit. *)
Fixpoint js_filter (p : JsVal -> Throws bool) (l : list JsVal) : Throws (list JsVal) :=
  match l with
  | [] => ret []
  | x :: rest =>
      b <- p x ;;
      r <- js_filter p rest ;;
      ret (if b then x :: r else r)
  end.

Fixpoint js_find (p : JsVal -> Throws bool) (l : list JsVal) : Throws (option JsVal) :=
  match l with
  | [] => ret None
  | x :: rest => b <- p x ;; if b then ret (Some x) else js_find p rest
  end.

(** [None] stands for the result [-1]. *)
Fixpoint js_findIndex (p : JsVal -> Throws bool) (l : list JsVal) : Throws (option nat) :=
  match l with
  | [] => ret None
  | x :: rest =>
      b <- p x ;;
      if b then ret (Some 0%nat)
      else i <- js_findIndex p rest ;; ret (option_map S i)
  end.

(** Calling an array method on a value: only arrays have it. *)
Definition as_array (method : string) (v : JsVal) : Throws (list JsVal) :=
  match v with
  | JArr l => ret l
  | JNull => throw (TypeError "Cannot read properties of null")
  | _ => throw (TypeError (method ++ " is not a function"))
  end.

(** [arr[i].k = v] for an index inside the array. *)
Definition set_status (status : JsVal) (entry : JsVal) : JsVal :=
  match entry with
  | JObj fields => JObj (set_field "status" status fields)
  | other => other
  end.

Fixpoint update_nth {A : Type} (i : nat) (f : A -> A) (l : list A) : list A :=
  match l, i with
  | [], _ => []
  | x :: rest, O => f x :: rest
  | x :: rest, S j => x :: update_nth j f rest
  end.

(** The object literal [{ id: staffId, status }]. *)
Definition mk_entry (staffId status : string) : JsVal :=
  JObj [("id", JStr staffId); ("status", JStr status)].

(** ** JSON text

    A concrete [JSON.stringify] and [JSON.parse] for the examples.
    [stringify] prints the compact form that JavaScript prints.  [parse]
    accepts JSON text with insignificant white space, the literals, integer
    numbers, strings with their escapes, arrays and objects; a repeated key
    keeps its first position and its last value, as in JavaScript.  Numbers
    with a fraction or an exponent and escaped surrogate halves are outside
    this fragment; the examples do not use them. *)

Module JsonText.

Definition dquote : ascii := ascii_of_nat 34.
Definition backslash : ascii := ascii_of_nat 92.

Definition str1 (c : ascii) : string := String c EmptyString.

Definition hex_digit (n : nat) : ascii :=
  nth n (list_ascii_of_string "0123456789abcdef") "0"%char.

Definition escape_char (c : ascii) : string :=
  let n := nat_of_ascii c in
  if (n =? 34)%nat then String backslash (str1 dquote)
  else if (n =? 92)%nat then String backslash (str1 backslash)
  else if (n =? 8)%nat then String backslash "b"
  else if (n =? 12)%nat then String backslash "f"
  else if (n =? 10)%nat then String backslash "n"
  else if (n =? 13)%nat then String backslash "r"
  else if (n =? 9)%nat then String backslash "t"
  else if (n <? 32)%nat then
    String backslash ("u00" ++ String (hex_digit (n / 16)) (str1 (hex_digit (n mod 16))))
  else str1 c.

Fixpoint escape (s : string) : string :=
  match s with
  | EmptyString => EmptyString
  | String c rest => escape_char c ++ escape rest
  end.

Definition quote (s : string) : string :=
  String dquote (escape s ++ str1 dquote).

Definition number_to_string (z : Z) : string :=
  NilZero.string_of_int (Z.to_int z).

Fixpoint stringify (v : JsVal) : string :=
  match v with
  | JNull => "null"
  | JBool true => "true"
  | JBool false => "false"
  | JNum z => number_to_string z
  | JStr s => quote s
  | JArr elems =>
      let fix items (l : list JsVal) : string :=
        match l with
        | [] => ""
        | [x] => stringify x
        | x :: rest => stringify x ++ "," ++ items rest
        end in
      "[" ++ items elems ++ "]"
  | JObj fields =>
      let fix members (l : list (string * JsVal)) : string :=
        match l with
        | [] => ""
        | [(k, x)] => quote k ++ ":" ++ stringify x
        | (k, x) :: rest => quote k ++ ":" ++ stringify x ++ "," ++ members rest
        end in
      "{" ++ members fields ++ "}"
  end.

Definition is_ws (c : ascii) : bool :=
  let n := nat_of_ascii c in
  ((n =? 32) || (n =? 9) || (n =? 10) || (n =? 13))%nat.

Fixpoint skip_ws (s : string) : string :=
  match s with
  | String c rest => if is_ws c then skip_ws rest else s
  | EmptyString => s
  end.

Definition hex_value (c : ascii) : option nat :=
  let n := nat_of_ascii c in
  if ((48 <=? n) && (n <=? 57))%nat then Some (n - 48)%nat
  else if ((97 <=? n) && (n <=? 102))%nat then Some (n - 87)%nat
  else if ((65 <=? n) && (n <=? 70))%nat then Some (n - 55)%nat
  else None.

(** UTF-8 bytes of a code point of the basic plane that is not a surrogate. *)
Definition utf8_of_code (n : nat) : option string :=
  if (n <? 128)%nat then Some (str1 (ascii_of_nat n))
  else if (n <? 2048)%nat then
    Some (String (ascii_of_nat (192 + n / 64)) (str1 (ascii_of_nat (128 + n mod 64))))
  else if ((55296 <=? n) && (n <=? 57343))%nat then None
  else
    Some (String (ascii_of_nat (224 + n / 4096))
            (String (ascii_of_nat (128 + (n / 64) mod 64))
               (str1 (ascii_of_nat (128 + n mod 64))))).

Definition simple_escape (c : ascii) : option ascii :=
  let n := nat_of_ascii c in
  if ((n =? 34) || (n =? 92) || (n =? 47))%nat then Some c
  else if (n =? 98)%nat then Some (ascii_of_nat 8)
  else if (n =? 102)%nat then Some (ascii_of_nat 12)
  else if (n =? 110)%nat then Some (ascii_of_nat 10)
  else if (n =? 114)%nat then Some (ascii_of_nat 13)
  else if (n =? 116)%nat then Some (ascii_of_nat 9)
  else None.

Definition prepend (pre : string) (r : option (string * string)) : option (string * string) :=
  match r with
  | Some (body, rest) => Some (pre ++ body, rest)
  | None => None
  end.

(** The characters after an opening quote, up to the closing one. *)
Fixpoint parse_string_body (s : string) : option (string * string) :=
  match s with
  | EmptyString => None
  | String c rest =>
      if Ascii.eqb c dquote then Some (EmptyString, rest)
      else if Ascii.eqb c backslash then
        match rest with
        | String e rest' =>
            match simple_escape e with
            | Some ch => prepend (str1 ch) (parse_string_body rest')
            | None =>
                if Ascii.eqb e "u"%char then
                  match rest' with
                  | String h1 (String h2 (String h3 (String h4 rest''))) =>
                      match hex_value h1, hex_value h2, hex_value h3, hex_value h4 with
                      | Some a, Some b, Some c', Some d =>
                          match utf8_of_code (((a * 16 + b) * 16 + c') * 16 + d) with
                          | Some bytes => prepend bytes (parse_string_body rest'')
                          | None => None
                          end
                      | _, _, _, _ => None
                      end
                  | _ => None
                  end
                else None
            end
        | EmptyString => None
        end
      else if (nat_of_ascii c <? 32)%nat then None
      else prepend (str1 c) (parse_string_body rest)
  end.

Definition is_digit (c : ascii) : bool :=
  let n := nat_of_ascii c in ((48 <=? n) && (n <=? 57))%nat.

Fixpoint parse_digits (acc : Z) (s : string) : Z * string :=
  match s with
  | String c rest =>
      if is_digit c then parse_digits (acc * 10 + Z.of_nat (nat_of_ascii c - 48)) rest
      else (acc, s)
  | EmptyString => (acc, s)
  end.

Definition starts_fraction (s : string) : bool :=
  match s with
  | String c _ => Ascii.eqb c "."%char || Ascii.eqb c "e"%char || Ascii.eqb c "E"%char
  | EmptyString => false
  end.

(** [0] or a digit string without a leading zero. *)
Definition parse_nat_literal (s : string) : option (Z * string) :=
  match s with
  | String c rest =>
      if Ascii.eqb c "0"%char then
        match rest with
        | String c' _ => if is_digit c' then None else Some (0, rest)
        | EmptyString => Some (0, rest)
        end
      else if is_digit c then Some (parse_digits 0 s)
      else None
  | EmptyString => None
  end.

Definition parse_number (s : string) : option (JsVal * string) :=
  let signed :=
    match s with
    | String c rest =>
        if Ascii.eqb c "-"%char
        then option_map (fun '(n, r) => (- n, r)) (parse_nat_literal rest)
        else parse_nat_literal s
    | EmptyString => None
    end in
  match signed with
  | Some (n, r) => if starts_fraction r then None else Some (JNum n, r)
  | None => None
  end.

Fixpoint strip_prefix (p s : string) : option string :=
  match p, s with
  | EmptyString, _ => Some s
  | String a p', String b s' => if Ascii.eqb a b then strip_prefix p' s' else None
  | String _ _, EmptyString => None
  end.

Definition parse_literal (s : string) : option (JsVal * string) :=
  match strip_prefix "null" s with
  | Some r => Some (JNull, r)
  | None =>
      match strip_prefix "true" s with
      | Some r => Some (JBool true, r)
      | None =>
          match strip_prefix "false" s with
          | Some r => Some (JBool false, r)
          | None => parse_number s
          end
      end
  end.

(** Recursive descent; every call consumes fuel, and a text of [n]
    characters needs at most [n + 1] nested calls. *)
Fixpoint parse_value (fuel : nat) (s : string) : option (JsVal * string) :=
  match fuel with
  | O => None
  | S f =>
      match skip_ws s with
      | EmptyString => None
      | String c rest =>
          if Ascii.eqb c dquote then
            option_map (fun '(str, r) => (JStr str, r)) (parse_string_body rest)
          else if Ascii.eqb c "["%char then
            match skip_ws rest with
            | String c' rest' =>
                if Ascii.eqb c' "]"%char then Some (JArr [], rest')
                else option_map (fun '(l, r) => (JArr l, r)) (parse_elems f (skip_ws rest))
            | EmptyString => None
            end
          else if Ascii.eqb c "{"%char then
            match skip_ws rest with
            | String c' rest' =>
                if Ascii.eqb c' "}"%char then Some (JObj [], rest')
                else option_map (fun '(l, r) => (JObj l, r)) (parse_members f [] (skip_ws rest))
            | EmptyString => None
            end
          else parse_literal (String c rest)
      end
  end
with parse_elems (fuel : nat) (s : string) : option (list JsVal * string) :=
  match fuel with
  | O => None
  | S f =>
      match parse_value f s with
      | Some (v, r) =>
          match skip_ws r with
          | String c rest =>
              if Ascii.eqb c ","%char then
                option_map (fun '(l, r') => (v :: l, r')) (parse_elems f rest)
              else if Ascii.eqb c "]"%char then Some ([v], rest)
              else None
          | EmptyString => None
          end
      | None => None
      end
  end
with parse_members (fuel : nat) (acc : list (string * JsVal)) (s : string)
  : option (list (string * JsVal) * string) :=
  match fuel with
  | O => None
  | S f =>
      match skip_ws s with
      | String q rest =>
          if Ascii.eqb q dquote then
            match parse_string_body rest with
            | Some (k, r) =>
                match skip_ws r with
                | String colon r1 =>
                    if Ascii.eqb colon ":"%char then
                      match parse_value f r1 with
                      | Some (v, r2) =>
                          let acc' := set_field k v acc in
                          match skip_ws r2 with
                          | String c r3 =>
                              if Ascii.eqb c ","%char then parse_members f acc' r3
                              else if Ascii.eqb c "}"%char then Some (acc', r3)
                              else None
                          | EmptyString => None
                          end
                      | None => None
                      end
                    else None
                | EmptyString => None
                end
            | None => None
            end
          else None
      | EmptyString => None
      end
  end.

(** [None] is the [SyntaxError] that [JSON.parse] throws. *)
Definition parse (s : string) : option JsVal :=
  match parse_value (2 * String.length s + 2) s with
  | Some (v, rest) =>
      match skip_ws rest with
      | EmptyString => Some v
      | String _ _ => None
      end
  | None => None
  end.

End JsonText.

(** ** Dates

    A [Date] is its time value: milliseconds since the epoch, [None] for
    an invalid date.  The local time zone is a fixed offset from UTC (no
    daylight saving change inside the week looked at), so that
    [setDate(getDate() - 7)] moves the time value back by seven days. *)

Module JsDate.

Definition msPerDay : Z := 86400000.

(** [Day(t)] and [WeekDay(t)] of ECMAScript: 0 is Sunday, 6 is Saturday. *)
Definition Day (t : Z) : Z := t / msPerDay.
Definition WeekDay (t : Z) : Z := (Day t + 4) mod 7.

(** [getDay()]: the week day of the local time. *)
Definition getDay (tza : Z) (t : Z) : Z := WeekDay (t + tza).

(** [d.setDate(d.getDate() - 7)] applied to the time value [t]. *)
Definition minus_7_days (t : Z) : Z := t - 7 * msPerDay.

Definition is_leap (y : Z) : bool :=
  ((y mod 4 =? 0) && negb (y mod 100 =? 0)) || (y mod 400 =? 0).

Definition days_in_month (y m : Z) : Z :=
  if m =? 2 then (if is_leap y then 29 else 28)
  else if (m =? 4) || (m =? 6) || (m =? 9) || (m =? 11) then 30
  else 31.

(** Days from 1970-01-01 to the civil date [y]-[m]-[d]. *)
Definition days_from_civil (y m d : Z) : Z :=
  let y' := if m <=? 2 then y - 1 else y in
  let era := y' / 400 in
  let yoe := y' - era * 400 in
  let mp := (m + 9) mod 12 in
  let doy := (153 * mp + 2) / 5 + d - 1 in
  let doe := yoe * 365 + yoe / 4 - yoe / 100 + doy in
  era * 146097 + doe - 719468.

Definition digit (c : ascii) : option Z :=
  let n := nat_of_ascii c in
  if ((48 <=? n) && (n <=? 57))%nat then Some (Z.of_nat (n - 48)) else None.

Fixpoint digits (acc : Z) (l : list ascii) : option Z :=
  match l with
  | [] => Some acc
  | c :: rest =>
      match digit c with
      | Some d => digits (acc * 10 + d) rest
      | None => None
      end
  end.

(** The date-only form [YYYY-MM-DD] of the ECMAScript date time string
    format, which denotes midnight UTC of that day. *)
Definition parse_iso_date (s : string) : option Z :=
  match list_ascii_of_string s with
  | [y1; y2; y3; y4; h1; m1; m2; h2; d1; d2] =>
      if Ascii.eqb h1 "-"%char && Ascii.eqb h2 "-"%char then
        match digits 0 [y1; y2; y3; y4], digits 0 [m1; m2], digits 0 [d1; d2] with
        | Some y, Some m, Some d =>
            if (1 <=? m) && (m <=? 12) && (1 <=? d) && (d <=? days_in_month y m)
            then Some (days_from_civil y m d * msPerDay)
            else None
        | _, _, _ => None
        end
      else None
  | _ => None
  end.

End JsDate.

(** ** The runtime *)

Class JsRuntime : Type := {
  (** [JSON.parse]; [None] when it throws a [SyntaxError]. *)
  JSON_parse : string -> option JsVal;
  (** [JSON.stringify]. *)
  JSON_stringify : JsVal -> string;
  (** The time value of [new Date(s)]; [None] for an invalid date. *)
  Date_parse : string -> option Z;
  (** Offset of local time from UTC, in milliseconds. *)
  LocalTZA : Z
}.

(** Node.js with the time zone set to UTC. *)
#[export] Instance node_utc : JsRuntime := {
  JSON_parse := JsonText.parse;
  JSON_stringify := JsonText.stringify;
  Date_parse := JsDate.parse_iso_date;
  LocalTZA := 0
}.

(** ** Tables and responses *)

Module StaffAttendance.
Record Row : Type := mk { id : Z; date : string; staffStatus : JsVal }.
End StaffAttendance.

Module Staff.
Record Row : Type := mk { staffId : string; name : string }.
End Staff.

Module Student.
Record Row : Type := mk { admissionNumber : string; name : string }.
End Student.

Module StudentAttendance.
Record Row : Type :=
  mk { id : Z; admissionNumber : string; date : string; status : string }.
End StudentAttendance.

Record Db : Type := mkDb {
  StaffAttendances : list StaffAttendance.Row;
  Staffs : list Staff.Row;
  Students : list Student.Row;
  StudentAttendances : list StudentAttendance.Row
}.

Definition emptyDb : Db := mkDb [] [] [] [].

(** What [.single()] hands back: the row when exactly one row matches. *)
Definition single {A : Type} (rows : list A) : option A :=
  match rows with
  | [r] => Some r
  | _ => None
  end.

(** The key the store gives to an inserted row. *)
Definition fresh_id (ids : list Z) : Z := 1 + fold_right Z.max 0 ids.

(** The three shapes of [res.status(..).json(..)] in the routes. *)
Inductive Response (B : Type) : Type :=
| Body (status : Z) (body : B)
| Message (status : Z) (message : string)
| Failure (status : Z) (message : string) (error : Exn).

Arguments Body {B} status body.
Arguments Message {B} status message.
Arguments Failure {B} status message error.

(** [totalDays > 0 ? (presentDays / totalDays) * 100 : 0] *)
Definition rate (presentDays totalDays : Z) : Q :=
  if 0 <? totalDays
  then (inject_Z presentDays / inject_Z totalDays * 100)%Q
  else 0%Q.

Definition count {A : Type} (p : A -> bool) (l : list A) : Z :=
  Z.of_nat (List.length (filter p l)).

(** ** src/routes/staffAttendanceRoutes.js *)

Module StaffAttendanceRoutes.

Record FilteredDay : Type := mkDay { date : string; staffStatus : list JsVal }.

Record Summary : Type := mkSummary {
  staffDetails : option Staff.Row;
  totalDays : Z;
  daysPresent : Z;
  daysAbsent : Z;
  weeklyAttendanceRate : Q;
  overallAttendanceRate : Q;
  decimals : Z;
  attendance : list FilteredDay
}.

Section Routes.
Context {rt : JsRuntime}.

(** The block that both readers run on a row:
    [if (typeof staffStatus === "string") try JSON.parse catch -> []]. *)
Definition parse_if_string (v : JsVal) : JsVal :=
  match v with
  | JStr s =>
      match JSON_parse s with
      | Some parsed => parsed
      | None => JArr []
      end
  | other => other
  end.

(** One turn of the [forEach] of [calculateWeeklyAttendanceRate]; the
    accumulator is [(totalDays, presentDays)]. *)
Definition weekly_step (oneWeekAgo : Z) (staffId : string)
  (acc : Z * Z) (record : StaffAttendance.Row) : Throws (Z * Z) :=
  let '(totalDays, presentDays) := acc in
  let staffStatus := parse_if_string (StaffAttendance.staffStatus record) in
  match Date_parse (StaffAttendance.date record) with
  | None => ret acc
  | Some recordDate =>
      let dayOfWeek := JsDate.getDay LocalTZA recordDate in
      if (oneWeekAgo <=? recordDate) && (1 <=? dayOfWeek) && (dayOfWeek <=? 5) then
        staffEntry <-
          match staffStatus with
          | JArr l => js_find (id_is staffId) l
          | _ => ret None
          end ;;
        match staffEntry with
        | Some entry =>
            if truthy entry then
              st <- get_prop entry "status" ;;
              ret (totalDays + 1,
                   if strict_eq_str st "present" then presentDays + 1 else presentDays)
            else ret acc
        | None => ret acc
        end
      else ret acc
  end.

Fixpoint forEach {S A : Type} (f : S -> A -> Throws S) (s : S) (l : list A) : Throws S :=
  match l with
  | [] => ret s
  | x :: rest => s' <- f s x ;; forEach f s' rest
  end.

Definition calculateWeeklyAttendanceRate
  (attendanceRecords : list StaffAttendance.Row) (staffId : string) (now : Z) : Throws Q :=
  let oneWeekAgo := JsDate.minus_7_days now in
  acc <- forEach (weekly_step oneWeekAgo staffId) (0, 0) attendanceRecords ;;
  ret (rate (snd acc) (fst acc)).

(** The callback of [attendanceData.map]. *)
Definition filter_record (staffId : string) (record : StaffAttendance.Row)
  : Throws FilteredDay :=
  let staffStatus := parse_if_string (StaffAttendance.staffStatus record) in
  l <- as_array "staffStatus.filter" staffStatus ;;
  filtered <- js_filter (id_is staffId) l ;;
  ret (mkDay (StaffAttendance.date record) filtered).

Fixpoint js_map {A B : Type} (f : A -> Throws B) (l : list A) : Throws (list B) :=
  match l with
  | [] => ret []
  | x :: rest => y <- f x ;; ys <- js_map f rest ;; ret (y :: ys)
  end.

(** [r.staffStatus[0]?.status === "present"]; every element of a filtered
    day passed [s.id === staffId], so a first element is not [null]. *)
Definition first_is_present (r : FilteredDay) : bool :=
  match staffStatus r with
  | [] => false
  | JNull :: _ => false
  | entry :: _ =>
      match get_prop entry "status" with
      | inr st => strict_eq_str st "present"
      | inl _ => false
      end
  end.

(** Lines 76 to 99 of the handler: the figures of the summary. *)
Definition summarise (attendanceData : list StaffAttendance.Row)
  (staffId : string) (now : Z) : Throws Summary :=
  filteredAttendance <- js_map (filter_record staffId) attendanceData ;;
  let totalDays := Z.of_nat (List.length filteredAttendance) in
  let daysPresent := count first_is_present filteredAttendance in
  let daysAbsent := totalDays - daysPresent in
  weeklyAttendanceRate <- calculateWeeklyAttendanceRate attendanceData staffId now ;;
  let overallAttendanceRate := rate daysPresent totalDays in
  ret (mkSummary None totalDays daysPresent daysAbsent
         weeklyAttendanceRate overallAttendanceRate 2 filteredAttendance).

(** [router.get("/:staffId")] *)
Definition getStaffAttendance (db : Db) (staffId : string)
  (expand : option string) (now : Z) : Response Summary :=
  let attendanceData := StaffAttendances db in
  match attendanceData with
  | [] => Message 404 "No attendance data found for this staff ID."
  | _ :: _ =>
      match summarise attendanceData staffId now with
      | inl e => Failure 500 "Error fetching attendance data" e
      | inr s =>
          if strict_eq_str (option_map JStr expand) "staff" then
            match single (filter (fun r => String.eqb (Staff.staffId r) staffId) (Staffs db)) with
            | None => Failure 500 "Error fetching attendance data" (PostgrestError "PGRST116")
            | Some details =>
                Body 200 (mkSummary (Some details) (totalDays s) (daysPresent s)
                            (daysAbsent s) (weeklyAttendanceRate s)
                            (overallAttendanceRate s) 0 (attendance s))
            end
          else Body 200 s
      end
  end.

Definition insert_day (date : string) (v : JsVal) (rows : list StaffAttendance.Row)
  : list StaffAttendance.Row :=
  (rows ++ [StaffAttendance.mk (fresh_id (map StaffAttendance.id rows)) date v])%list.

(** [.update({ staffStatus }).eq("id", id)] *)
Definition update_day (id : Z) (v : JsVal) (rows : list StaffAttendance.Row)
  : list StaffAttendance.Row :=
  map (fun r =>
         if StaffAttendance.id r =? id
         then StaffAttendance.mk (StaffAttendance.id r) (StaffAttendance.date r) v
         else r) rows.

Definition with_StaffAttendances (db : Db) (rows : list StaffAttendance.Row) : Db :=
  mkDb rows (Staffs db) (Students db) (StudentAttendances db).

(** Lines 227 to 234: the merge into the array of the existing row.  The
    row's value is used as it came from the store. *)
Definition merge_status (existing : JsVal) (staffId status : string) : Throws (list JsVal) :=
  let updatedStatuses := if truthy existing then existing else JArr [] in
  l <- as_array "updatedStatuses.findIndex" updatedStatuses ;;
  index <- js_findIndex (id_is staffId) l ;;
  match index with
  | Some i => ret (update_nth i (set_status (JStr status)) l)
  | None => ret (l ++ [mk_entry staffId status])%list
  end.

(** [router.post("/:staffId")]; [date] and [status] are the fields of the
    request body, [None] when the body lacks them. *)
Definition postStaffAttendance (db : Db) (staffId : string)
  (date status : option string) : Response unit * Db :=
  match date, status with
  | Some d, Some st =>
      if field_truthy date && field_truthy status then
        let rows := StaffAttendances db in
        match single (filter (fun r => String.eqb (StaffAttendance.date r) d) rows) with
        | None =>
            (Message 201 "New attendance record created successfully.",
             with_StaffAttendances db
               (insert_day d (JStr (JSON_stringify (JArr [mk_entry staffId st]))) rows))
        | Some existingRecord =>
            match merge_status (StaffAttendance.staffStatus existingRecord) staffId st with
            | inl e => (Failure 500 "Error updating attendance status" e, db)
            | inr updatedStatuses =>
                (Message 200 "Attendance status updated successfully.",
                 with_StaffAttendances db
                   (update_day (StaffAttendance.id existingRecord)
                      (JStr (JSON_stringify (JArr updatedStatuses))) rows))
            end
        end
      else (Message 400 "Date and status are required.", db)
  | _, _ => (Message 400 "Date and status are required.", db)
  end.

End Routes.
End StaffAttendanceRoutes.

(** ** src/routes/studentAttendanceRoutes.js *)

Module StudentAttendanceRoutes.

Record Rates : Type := mkRates {
  totalDays : Z;
  presentDays : Z;
  absentDays : Z;
  weeklyAttendanceRate : Q;
  overallAttendanceRate : Q;
  decimals : Z
}.

Section Routes.
Context {rt : JsRuntime}.

Definition status_is (s : string) (r : StudentAttendance.Row) : bool :=
  String.eqb (StudentAttendance.status r) s.

(** [new Date(r.date) >= oneWeekAgo]; an invalid date compares false. *)
Definition since (oneWeekAgo : Z) (r : StudentAttendance.Row) : bool :=
  match Date_parse (StudentAttendance.date r) with
  | Some t => oneWeekAgo <=? t
  | None => false
  end.

Definition calculateRates (records : list StudentAttendance.Row) (now : Z) : Rates :=
  let totalDays := Z.of_nat (List.length records) in
  let presentDays := count (status_is "present") records in
  let absentDays := count (status_is "absent") records in
  let oneWeekAgo := JsDate.minus_7_days now in
  let weeklyRecords := filter (since oneWeekAgo) records in
  let weeklyPresent := count (status_is "present") weeklyRecords in
  let weeklyRate := rate weeklyPresent (Z.of_nat (List.length weeklyRecords)) in
  let overallRate := rate presentDays totalDays in
  mkRates totalDays presentDays absentDays weeklyRate overallRate 0.

Definition same_pair (admissionNumber date : string) (r : StudentAttendance.Row) : bool :=
  String.eqb (StudentAttendance.admissionNumber r) admissionNumber
  && String.eqb (StudentAttendance.date r) date.

Definition with_StudentAttendances (db : Db) (rows : list StudentAttendance.Row) : Db :=
  mkDb (StaffAttendances db) (Staffs db) (Students db) rows.

(** [router.post("/")]; the body of the 201 answer is the message and the
    inserted rows. *)
Definition postStudentAttendance (db : Db)
  (admissionNumber date status : option string)
  : Response (string * list StudentAttendance.Row) * Db :=
  match admissionNumber, date, status with
  | Some a, Some d, Some st =>
      if field_truthy admissionNumber && field_truthy date && field_truthy status then
        match single (filter (fun s => String.eqb (Student.admissionNumber s) a) (Students db)) with
        | None => (Message 404 "Student not found", db)
        | Some student =>
            let rows := StudentAttendances db in
            match single (filter (same_pair a d) rows) with
            | Some existing =>
                (Message 400 "Attendance already marked for this student on this date", db)
            | None =>
                let row :=
                  StudentAttendance.mk (fresh_id (map StudentAttendance.id rows)) a d st in
                (Body 201 ("Attendance recorded successfully", [row]),
                 with_StudentAttendances db (rows ++ [row])%list)
            end
        end
      else (Message 400 "All fields are required", db)
  | _, _, _ => (Message 400 "All fields are required", db)
  end.

End Routes.
End StudentAttendanceRoutes.

(** ** Specification-side readings of a day record *)

Section Readings.
Context {rt : JsRuntime}.

(** The statuses of a day record as the readers see them: the array, or
    the array a string parses to; anything else holds no entry. *)
Definition statuses (record : StaffAttendance.Row) : list JsVal :=
  match StaffAttendanceRoutes.parse_if_string (StaffAttendance.staffStatus record) with
  | JArr l => l
  | _ => []
  end.

Definition entry_id_is (staffId : string) (e : JsVal) : bool :=
  match e with
  | JObj fields => strict_eq_str (lookup_field "id" fields) staffId
  | _ => false
  end.

Definition entry_status_is (status : string) (e : JsVal) : bool :=
  match e with
  | JObj fields => strict_eq_str (lookup_field "status" fields) status
  | _ => false
  end.

(** The entries of a day record for one staff member. *)
Definition entries_for (staffId : string) (record : StaffAttendance.Row) : list JsVal :=
  filter (entry_id_is staffId) (statuses record).

Definition has_entry (staffId : string) (record : StaffAttendance.Row) : bool :=
  existsb (entry_id_is staffId) (statuses record).

(** The first entry of the day for the staff member says [present]. *)
Definition marked_present (staffId : string) (record : StaffAttendance.Row) : bool :=
  match find (entry_id_is staffId) (statuses record) with
  | Some e => entry_status_is "present" e
  | None => false
  end.

Definition non_null (e : JsVal) : bool :=
  match e with
  | JNull => false
  | _ => true
  end.

(** A day record the summary can read: its statuses are an array, given
    as such or as a string that is not JSON (read as the empty array) or
    is the JSON of an array, and no element of the array is [null]. *)
Definition readable (record : StaffAttendance.Row) : bool :=
  match StaffAttendanceRoutes.parse_if_string (StaffAttendance.staffStatus record) with
  | JArr l => forallb non_null l
  | _ => false
  end.

(** The weekly window of the staff rate: a valid date, not before
    [now - 7 days], on Monday to Friday. *)
Definition in_staff_week (now : Z) (record : StaffAttendance.Row) : bool :=
  match Date_parse (StaffAttendance.date record) with
  | Some t =>
      (JsDate.minus_7_days now <=? t)
      && (1 <=? JsDate.getDay LocalTZA t) && (JsDate.getDay LocalTZA t <=? 5)
  | None => false
  end.

(** A day of the weekly window with an entry for the staff member, and
    such a day marked present. *)
Definition week_recorded (now : Z) (staffId : string) (r : StaffAttendance.Row) : bool :=
  in_staff_week now r && has_entry staffId r.

Definition week_present (now : Z) (staffId : string) (r : StaffAttendance.Row) : bool :=
  in_staff_week now r && marked_present staffId r.

(** The weekly window of the student rate: a valid date, not before
    [now - 7 days]. *)
Definition in_student_week (now : Z) (r : StudentAttendance.Row) : bool :=
  match Date_parse (StudentAttendance.date r) with
  | Some t => now - 7 * 86400000 <=? t
  | None => false
  end.

End Readings.

(** The number of records of a student that carry a given status. *)
Fixpoint days_with_status (st : string) (records : list StudentAttendance.Row) : Z :=
  match records with
  | [] => 0
  | r :: rest =>
      (if String.eqb (StudentAttendance.status r) st then 1 else 0)
      + days_with_status st rest
  end.

Definition binary_status (r : StudentAttendance.Row) : Prop :=
  StudentAttendance.status r = "present" \/ StudentAttendance.status r = "absent".

Definition pairs_unique (rows : list StudentAttendance.Row) : Prop :=
  forall a d,
    (List.length (filter (StudentAttendanceRoutes.same_pair a d) rows) <= 1)%nat.

(** The merge of lines 227 to 234 on an array without [null]: overwrite
    the status of the first entry of the staff member, or add an entry. *)
Fixpoint merged (staffId status : string) (l : list JsVal) : list JsVal :=
  match l with
  | [] => [mk_entry staffId status]
  | e :: rest =>
      if entry_id_is staffId e
      then set_status (JStr status) e :: rest
      else e :: merged staffId status rest
  end.

Definition dates_unique (rows : list StaffAttendance.Row) : Prop :=
  forall d,
    (List.length (filter (fun r => String.eqb (StaffAttendance.date r) d) rows) <= 1)%nat.

(** ** Fixtures for the examples: March 2024, run on [node_utc] *)

Definition mon_04 : string := "2024-03-04".
Definition tue_05 : string := "2024-03-05".
Definition sat_09 : string := "2024-03-09".
Definition wed_13 : string := "2024-03-13".

(** 2024-03-10T00:00:00Z, a Sunday. *)
Definition now_sun_10 : Z := 1710028800000.

Definition mark_staff (staffId date status : string) (db : Db) : Db :=
  snd (StaffAttendanceRoutes.postStaffAttendance (rt := node_utc) db staffId
         (Some date) (Some status)).

(** S1 marked on Monday, S2 alone marked on Tuesday. *)
Definition db_two_days : Db :=
  mark_staff "S2" tue_05 "absent" (mark_staff "S1" mon_04 "present" emptyDb).

Definition db_with_status (v : JsVal) : Db :=
  mkDb [StaffAttendance.mk 1 mon_04 v] [] [] [].

Definition student_row (date status : string) : StudentAttendance.Row :=
  StudentAttendance.mk 1 "ADM1" date status.

Definition staff_row (date : string) (staffId status : string) : StaffAttendance.Row :=
  StaffAttendance.mk 1 date (JArr [mk_entry staffId status]).

Definition db_one_student : Db :=
  mkDb [] [] [Student.mk "ADM1" "Ada"] [].

Definition mark_again (staffId date status : string) (db : Db) : Response unit * Db :=
  StaffAttendanceRoutes.postStaffAttendance (rt := node_utc) db staffId
    (Some date) (Some status).

(** ** src/routes/staffAttendanceRoutes.js: the list of all days *)

(** The property names of the elements of an array or of the characters
    of a string: 0, 1, 2, ... in decimal. *)
Definition index_key (n : nat) : string := NilZero.string_of_uint (Nat.to_uint n).

Fixpoint indexed {A : Type} (n : nat) (l : list A) : list (string * A) :=
  match l with
  | [] => []
  | x :: rest => (index_key n, x) :: indexed (S n) rest
  end.

Fixpoint chars (s : string) : list JsVal :=
  match s with
  | EmptyString => []
  | String c rest => JStr (String c EmptyString) :: chars rest
  end.

(** The own enumerable properties that [{ ...v }] copies: those of an
    object, the elements of an array, the characters of a string (one
    property per character of the model's string); nothing for [null], a
    boolean or a number. *)
Definition spread (v : JsVal) : list (string * JsVal) :=
  match v with
  | JObj fields => fields
  | JArr l => indexed 0 l
  | JStr s => indexed 0 (chars s)
  | _ => []
  end.

(** A row of Staffs as the JavaScript object the store hands back. *)
Definition staff_to_js (s : Staff.Row) : JsVal :=
  JObj [("staffId", JStr (Staff.staffId s)); ("name", JStr (Staff.name s))].

(** [allStaff.find((s) => s.staffId === entry.id)]: the callback reads
    [entry.id] once per staff row it visits. *)
Fixpoint find_staff (allStaff : list Staff.Row) (entry : JsVal) : Throws (option Staff.Row) :=
  match allStaff with
  | [] => ret None
  | s :: rest =>
      x <- get_prop entry "id" ;;
      if strict_eq_str x (Staff.staffId s) then ret (Some s) else find_staff rest entry
  end.

(** [staff || null] *)
Definition details_or_null (staff : option Staff.Row) : JsVal :=
  match staff with
  | Some s => staff_to_js s
  | None => JNull
  end.

(** The callback of [staffStatus.map]:
    [{ ...entry, staffDetails: staff || null }]. *)
Definition detail_entry (allStaff : list Staff.Row) (entry : JsVal) : Throws JsVal :=
  staff <- find_staff allStaff entry ;;
  ret (JObj (set_field "staffDetails" (details_or_null staff) (spread entry))).

Section AllStaffAttendance.
Context {rt : JsRuntime}.

(** The callback of [attendanceData.map]:
    [{ ...record, staffStatus: detailedStatus }]. *)
Definition detail_record (allStaff : list Staff.Row) (record : StaffAttendance.Row)
  : Throws StaffAttendance.Row :=
  let staffStatus :=
    StaffAttendanceRoutes.parse_if_string (StaffAttendance.staffStatus record) in
  l <- as_array "staffStatus.map" staffStatus ;;
  detailedStatus <- StaffAttendanceRoutes.js_map (detail_entry allStaff) l ;;
  ret (StaffAttendance.mk (StaffAttendance.id record) (StaffAttendance.date record)
         (JArr detailedStatus)).

(** [router.get("/")] of the staff attendance route; the body is the value
    of the property [attendance]. *)
Definition getAllStaffAttendance (db : Db) (expand : option string)
  : Response (list StaffAttendance.Row) :=
  let attendanceData := StaffAttendances db in
  match attendanceData with
  | [] => Message 404 "No attendance data found."
  | _ :: _ =>
      if strict_eq_str (option_map JStr expand) "staff" then
        match StaffAttendanceRoutes.js_map (detail_record (Staffs db)) attendanceData with
        | inl e => Failure 500 "Error fetching attendance data" e
        | inr result => Body 200 result
        end
      else Body 200 attendanceData
  end.

End AllStaffAttendance.

(** ** src/routes/studentAttendanceRoutes.js: the two readers *)

Section StudentReaders.
Context {rt : JsRuntime}.

Definition records_of (admissionNumber : string) (rows : list StudentAttendance.Row)
  : list StudentAttendance.Row :=
  filter (fun r => String.eqb (StudentAttendance.admissionNumber r) admissionNumber) rows.

(** [router.get("/")]: one summary per student of the directory; the body
    is the value of [studentsAttendance], a pair standing for
    [{ studentDetails: student, ...rates }]. *)
Definition getAllStudentAttendance (db : Db) (now : Z)
  : Response (list (Student.Row * StudentAttendanceRoutes.Rates)) :=
  let attendanceRecords := StudentAttendances db in
  Body 200
    (map (fun student =>
            let studentRecords :=
              records_of (Student.admissionNumber student) attendanceRecords in
            (student, StudentAttendanceRoutes.calculateRates studentRecords now))
       (Students db)).

(** [router.get("/:admissionNumber")]; the body stands for
    [{ studentDetails, ...rates, attendanceRecords }]. *)
Definition getStudentAttendance (db : Db) (admissionNumber : string) (now : Z)
  : Response (Student.Row * StudentAttendanceRoutes.Rates * list StudentAttendance.Row) :=
  let attendanceRecords := records_of admissionNumber (StudentAttendances db) in
  match attendanceRecords with
  | [] => Message 404 "No attendance data found for this student."
  | _ :: _ =>
      match single (filter (fun s => String.eqb (Student.admissionNumber s) admissionNumber)
                      (Students db)) with
      | None => Failure 500 "Error fetching attendance data" (PostgrestError "PGRST116")
      | Some studentDetails =>
          Body 200 (studentDetails,
                    StudentAttendanceRoutes.calculateRates attendanceRecords now,
                    attendanceRecords)
      end
  end.

End StudentReaders.

(** ** Deleting a staff member (the staff routes, in
       src/routes/classPopulationRoutes.js, lines 165 to 225) *)

(** The callback [(entry) => entry.staffId !== staffId]. *)
Definition keeps_entry (staffId : string) (entry : JsVal) : Throws bool :=
  x <- get_prop entry "staffId" ;; ret (negb (strict_eq_str x staffId)).

(** One turn of the loop over the attendance records that were fetched;
    the state is the table, which an update changes at once. *)
Definition prune_step (staffId : string) (table : list StaffAttendance.Row)
  (record : StaffAttendance.Row) : Throws (list StaffAttendance.Row) :=
  match StaffAttendance.staffStatus record with
  | JArr l =>
      updatedStatus <- js_filter (keeps_entry staffId) l ;;
      if Nat.eqb (List.length updatedStatus) (List.length l) then ret table
      else ret (StaffAttendanceRoutes.update_day (StaffAttendance.id record)
                  (JArr updatedStatus) table)
  | _ => ret table
  end.

(** A loop whose turns write to the store: when a turn throws, what the
    earlier turns wrote stays written. *)
Fixpoint for_of {S A : Type} (f : S -> A -> Throws S) (s : S) (l : list A)
  : option Exn * S :=
  match l with
  | [] => (None, s)
  | x :: rest =>
      match f s x with
      | inl e => (Some e, s)
      | inr s' => for_of f s' rest
      end
  end.

(** [router.delete("/:staffId")]; the body of the 200 answer is the message
    and [totalStaff]. *)
Definition deleteStaff (db : Db) (staffId : string) : Response (string * Z) * Db :=
  let is_member := fun r => String.eqb (Staff.staffId r) staffId in
  match single (filter is_member (Staffs db)) with
  | None => (Message 404 "Staff member not found.", db)
  | Some staffMember =>
      let attendanceRecords := StaffAttendances db in
      match for_of (prune_step staffId) attendanceRecords attendanceRecords with
      | (Some e, table) =>
          (Failure 500 "Error deleting staff member" e,
           StaffAttendanceRoutes.with_StaffAttendances db table)
      | (None, table) =>
          let staffs := filter (fun r => negb (is_member r)) (Staffs db) in
          (Body 200 ("Staff member deleted successfully.", Z.of_nat (List.length staffs)),
           mkDb table staffs (Students db) (StudentAttendances db))
      end
  end.

(** ** Deleting a student (the student routes, src/unnamed/part_001, lines
       425 to 450) *)

Section StudentDirectory.

(** The rows of the table Results; the route only reads their
    admission number. *)
Variable ResultRow : Type.
Variable result_admissionNumber : ResultRow -> string.

(** [router.delete("/:admissionNumber")] on the tables and on Results.  The
    second delete names the table StudentAttendance; the database has the
    tables that src/seedDatabase.js lists, among them StudentAttendances,
    and none of that name, so the store answers with an error, which the
    route does not look at, and no table changes. *)
Definition deleteStudent (db : Db) (results : list ResultRow) (admissionNumber : string)
  : Response unit * Db * list ResultRow :=
  let results' :=
    filter (fun r => negb (String.eqb (result_admissionNumber r) admissionNumber))
      results in
  let is_student := fun s => String.eqb (Student.admissionNumber s) admissionNumber in
  let data := filter is_student (Students db) in
  let db' :=
    mkDb (StaffAttendances db) (Staffs db)
      (filter (fun s => negb (is_student s)) (Students db)) (StudentAttendances db) in
  match data with
  | [] => (Message 404 "Student not found", db', results')
  | _ :: _ => (Message 200 "Student deleted successfully", db', results')
  end.

End StudentDirectory.

(** ** src/middleware/authMiddleware.js *)

(** [s.split(" ")] *)
Fixpoint split_space (s : string) : list string :=
  match s with
  | EmptyString => [EmptyString]
  | String c rest =>
      if Ascii.eqb c " "%char then EmptyString :: split_space rest
      else
        match split_space rest with
        | seg :: segs => String c seg :: segs
        | [] => [String c EmptyString]
        end
  end.

(** [s.startsWith(p)] *)
Fixpoint startsWith (p s : string) : bool :=
  match p, s with
  | EmptyString, _ => true
  | String a p', String b s' => Ascii.eqb a b && startsWith p' s'
  | String _ _, EmptyString => false
  end.

Section Auth.

(** [jwt.verify(token, JWT_SECRET)]: the decoded payload, [None] when it
    throws. *)
Variable jwt_verify : string -> option JsVal.

(** The middleware on the value of the Authorization header ([None] when
    the request has none): the 401 answer, or the payload it attaches to
    the request before it calls [next]. *)
Definition authMiddleware (authHeader : option string) : Response unit + JsVal :=
  match authHeader with
  | None => inl (Message 401 "Authorization token missing or invalid")
  | Some h =>
      if negb (field_truthy authHeader) || negb (startsWith "Bearer " h) then
        inl (Message 401 "Authorization token missing or invalid")
      else
        match nth_error (split_space h) 1 with
        | Some token =>
            match jwt_verify token with
            | Some decoded => inr decoded
            | None => inl (Message 401 "Invalid or expired token")
            end
        | None => inl (Message 401 "Invalid or expired token")
        end
  end.

End Auth.

(** ** Specification-side readings for the other routes *)

(** The staff row that the expanded list attaches to an entry: the first
    row of Staffs whose staffId is the id of the entry. *)
Definition staff_of_entry (allStaff : list Staff.Row) (e : JsVal) : option Staff.Row :=
  find (fun s => entry_id_is (Staff.staffId s) e) allStaff.

(** An entry the expanded list can process: reading [entry.id] throws on
    [null], and it is read once per staff row. *)
Definition entry_ok (allStaff : list Staff.Row) (e : JsVal) : bool :=
  match allStaff with
  | [] => true
  | _ :: _ => non_null e
  end.

(** [e'] is [e] with its staff details attached: every other property is
    the one of [e]. *)
Definition detailed (allStaff : list Staff.Row) (e e' : JsVal) : Prop :=
  exists fields,
    e' = JObj fields
    /\ lookup_field "staffDetails" fields
       = Some (details_or_null (staff_of_entry allStaff e))
    /\ forall k, k <> "staffDetails" ->
                 lookup_field k fields = lookup_field k (spread e).

Section OtherReadings.
Context {rt : JsRuntime}.

(** A day record the expanded list can process. *)
Definition expandable (allStaff : list Staff.Row) (record : StaffAttendance.Row) : bool :=
  match StaffAttendanceRoutes.parse_if_string (StaffAttendance.staffStatus record) with
  | JArr l => forallb (entry_ok allStaff) l
  | _ => false
  end.

End OtherReadings.

(** The tables that the staff attendance routes do not write. *)
Definition same_other_tables (db db' : Db) : Prop :=
  Staffs db' = Staffs db
  /\ Students db' = Students db
  /\ StudentAttendances db' = StudentAttendances db.

(** The tables that the student attendance routes do not write. *)
Definition same_tables_but_student_attendance (db db' : Db) : Prop :=
  StaffAttendances db' = StaffAttendances db
  /\ Staffs db' = Staffs db
  /\ Students db' = Students db.

(** A request to mark a staff member, and one to mark a student. *)
Record StaffMark : Type := mkStaffMark {
  mark_staffId : string;
  mark_date : option string;
  mark_status : option string
}.

Record StudentMark : Type := mkStudentMark {
  mark_admissionNumber : option string;
  mark_day : option string;
  mark_value : option string
}.

Section Requests.
Context {rt : JsRuntime}.

(** The store after a sequence of requests, served one after the other. *)
Definition serve_staff_marks (db : Db) (requests : list StaffMark) : Db :=
  fold_left
    (fun db q =>
       snd (StaffAttendanceRoutes.postStaffAttendance db
              (mark_staffId q) (mark_date q) (mark_status q)))
    requests db.

Definition serve_student_marks (db : Db) (requests : list StudentMark) : Db :=
  fold_left
    (fun db q =>
       snd (StudentAttendanceRoutes.postStudentAttendance db
              (mark_admissionNumber q) (mark_day q) (mark_value q)))
    requests db.

End Requests.

(** A day record as marking stores it, and Staffs with one member. *)
Definition db_array_day : Db :=
  mkDb [StaffAttendance.mk 1 mon_04 (JArr [mk_entry "S1" "present"])]
       [Staff.mk "S1" "Sam"] [] [].

Definition db_two_days_staffed : Db :=
  mkDb (StaffAttendances db_two_days) [Staff.mk "S1" "Sam"; Staff.mk "S2" "Sue"] [] [].

(** A row of StudentAttendances whose student is in the directory. *)
Definition listed (students : list Student.Row) (r : StudentAttendance.Row) : bool :=
  existsb (fun s => String.eqb (StudentAttendance.admissionNumber r)
                      (Student.admissionNumber s)) students.

(** The sum of one figure over the summaries of all students. *)
Definition sum_over (f : StudentAttendanceRoutes.Rates -> Z)
  (body : list (Student.Row * StudentAttendanceRoutes.Rates)) : Z :=
  fold_right (fun x acc => f (snd x) + acc) 0 body.

(** Two students, and two rows of the first. *)
Definition db_school : Db :=
  mkDb [] [] [Student.mk "ADM1" "Ada"; Student.mk "ADM2" "Bob"]
       [StudentAttendance.mk 1 "ADM1" mon_04 "present";
        StudentAttendance.mk 2 "ADM1" tue_05 "absent"].

(** An entry that names a staff member under the key [staffId], the key
    the deletion of a staff member looks at. *)
Definition staffId_keyed (staffId : string) (e : JsVal) : bool :=
  match e with
  | JObj fields => strict_eq_str (lookup_field "staffId" fields) staffId
  | _ => false
  end.

(** A day record in which the deletion of the staff member finds nothing
    to remove and nothing to stumble on: its statuses are not an array, or
    an array without [null] and without an entry keyed to the staff
    member. *)
Definition free_of (staffId : string) (record : StaffAttendance.Row) : bool :=
  match StaffAttendance.staffStatus record with
  | JArr l => forallb (fun e => non_null e && negb (staffId_keyed staffId e)) l
  | _ => true
  end.

(** A day record whose array, if it holds one, has no [null]. *)
Definition prunable (record : StaffAttendance.Row) : bool :=
  match StaffAttendance.staffStatus record with
  | JArr l => forallb non_null l
  | _ => true
  end.

(** The day record without the entries keyed to the staff member. *)
Definition pruned (staffId : string) (record : StaffAttendance.Row) : StaffAttendance.Row :=
  match StaffAttendance.staffStatus record with
  | JArr l =>
      StaffAttendance.mk (StaffAttendance.id record) (StaffAttendance.date record)
        (JArr (filter (fun e => negb (staffId_keyed staffId e)) l))
  | _ => record
  end.

Definition stored_as_text (record : StaffAttendance.Row) : bool :=
  match StaffAttendance.staffStatus record with
  | JStr _ => true
  | _ => false
  end.

(** A day record whose entries are keyed by [staffId], as the deletion
    expects them. *)
Definition db_keyed_day : Db :=
  mkDb [StaffAttendance.mk 1 mon_04
          (JArr [JObj [("staffId", JStr "S1"); ("status", JStr "present")];
                 JObj [("staffId", JStr "S2"); ("status", JStr "absent")]])]
       [Staff.mk "S1" "Sam"; Staff.mk "S2" "Sue"] [] [].

Fixpoint no_space (s : string) : bool :=
  match s with
  | EmptyString => true
  | String c rest => negb (Ascii.eqb c " "%char) && no_space rest
  end.

(** A verifier for the examples: it accepts the token [good]. *)
Definition verify_good (token : string) : option JsVal :=
  if String.eqb token "good" then Some (JObj [("role", JStr "staff")]) else None.

(** Requests for the examples. *)
Definition two_staff_marks : list StaffMark :=
  [mkStaffMark "S1" (Some mon_04) (Some "present");
   mkStaffMark "S2" (Some mon_04) (Some "absent")].

Definition two_student_marks : list StudentMark :=
  [mkStudentMark (Some "ADM1") (Some mon_04) (Some "present");
   mkStudentMark (Some "ADM1") (Some mon_04) (Some "absent")].

(** The table of two days with its member S1 in Staffs. *)
Definition db_marked_staffed : Db :=
  mkDb (StaffAttendances db_two_days) [Staff.mk "S1" "Sam"] [] [].

(** ** The rates as binary64 numbers and as text

    [(presentDays / totalDays) * 100] is evaluated in binary64, and the
    two routes hand the result to [toFixed].  A finite binary64 number is
    kept as the rational it denotes; [round64] is the rounding of IEEE 754
    (to nearest, ties to even) that division and multiplication apply to
    their exact result.  The counts are lengths of arrays, integers below
    2^32, which binary64 holds exactly. *)

Module JsNumber.

(** The integer part of the binary logarithm of a positive rational: the
    difference of the logarithms of numerator and denominator, or one
    less. *)
Definition ilog2 (q : Q) : Z :=
  let k := Z.log2 (Qnum q) - Z.log2 (Zpos (Qden q)) in
  if Qle_bool (2 ^ k) q then k else k - 1.

(** The exponent of the last of the 53 bits of the significand; the least
    one, that of the subnormal numbers, is -1074. *)
Definition ulp_exponent (q : Q) : Z := Z.max (ilog2 (Qabs q) - 52) (-1074).

(** The nearest integer, the even one of two. *)
Definition nearest_even (q : Q) : Z :=
  let f := Qfloor q in
  match (q - inject_Z f ?= 1 # 2)%Q with
  | Lt => f
  | Gt => f + 1
  | Eq => if Z.even f then f else f + 1
  end.

(** The binary64 number nearest to [q], for [q] below 2^1024 in absolute
    value (larger results are infinite; a rate is at most 100). *)
Definition round64 (q : Q) : Q :=
  if Qeq_bool q 0 then 0%Q
  else
    let e := ulp_exponent q in
    (inject_Z (nearest_even (q / 2 ^ e)) * 2 ^ e)%Q.

(** [Number.prototype.toFixed], for a number below 10^21 in absolute
    value.  "Let n be an integer for which n / 10^f - x is as close to
    zero as possible.  If there are two such n, pick the larger n." *)
Definition toFixed_integer (x : Q) (fractionDigits : nat) : Z :=
  Qfloor (x * 10 ^ Z.of_nat fractionDigits + (1 # 2))%Q.

Fixpoint zeros (n : nat) : string :=
  match n with
  | O => ""
  | S n' => String "0" (zeros n')
  end.

Definition digits (n : Z) : string := NilZero.string_of_uint (N.to_uint (Z.to_N n)).

(** The digits of [n], filled with zeros on the left up to
    [fractionDigits + 1] of them, with a point before the last
    [fractionDigits]. *)
Definition fixed_text (n : Z) (fractionDigits : nat) : string :=
  match fractionDigits with
  | O => digits n
  | S _ =>
      let m := digits n in
      let k := String.length m in
      let m := if Nat.leb k fractionDigits
               then zeros (fractionDigits + 1 - k) ++ m else m in
      let k := String.length m in
      String.substring 0 (k - fractionDigits) m ++ "."
      ++ String.substring (k - fractionDigits) fractionDigits m
  end.

(** "If x < 0, then set s to "-" and x to -x." *)
Definition toFixed (x : Q) (fractionDigits : nat) : string :=
  if Qle_bool 0 x
  then fixed_text (toFixed_integer x fractionDigits) fractionDigits
  else "-" ++ fixed_text (toFixed_integer (- x) fractionDigits) fractionDigits.

End JsNumber.

(** [totalDays > 0 ? (presentDays / totalDays) * 100 : 0], the binary64
    number: the quotient is rounded, and so is its product with 100. *)
Definition percentage (presentDays totalDays : Z) : Q :=
  if 0 <? totalDays
  then JsNumber.round64
         (JsNumber.round64 (inject_Z presentDays / inject_Z totalDays) * 100)%Q
  else 0%Q.

(** [`${x.toFixed(fractionDigits)}%`] *)
Definition percent_text (x : Q) (fractionDigits : nat) : string :=
  JsNumber.toFixed x fractionDigits ++ "%".

(** The member overallAttendanceRate of the object that [calculateRates]
    returns: [`${overallRate.toFixed(0)}%`]. *)
Definition student_overall_text (r : StudentAttendanceRoutes.Rates) : string :=
  percent_text
    (percentage (StudentAttendanceRoutes.presentDays r)
                (StudentAttendanceRoutes.totalDays r))
    (Z.to_nat (StudentAttendanceRoutes.decimals r)).

(** The member overallAttendanceRate of the body of the staff summary:
    [`${overallAttendanceRate.toFixed(2)}%`], and with [expand=staff]
    [`${overallAttendanceRate.toFixed(0)}%`]. *)
Definition staff_overall_text (s : StaffAttendanceRoutes.Summary) : string :=
  percent_text
    (percentage (StaffAttendanceRoutes.daysPresent s)
                (StaffAttendanceRoutes.totalDays s))
    (Z.to_nat (StaffAttendanceRoutes.decimals s)).

(** The text shows, with [fractionDigits] decimals and a percent sign, a
    number that is [100 * presentDays / totalDays] within rounding: it
    differs from the exact quotient by at most half a unit of its last
    decimal and the 10^-13 that the two binary64 roundings can add. *)
Definition within_rounding (text : string) (fractionDigits : nat)
  (presentDays totalDays : Z) : Prop :=
  exists n : Z,
    0 <= n
    /\ text = JsNumber.fixed_text n fractionDigits ++ "%"
    /\ (Qabs (inject_Z n / 10 ^ Z.of_nat fractionDigits
              - 100 * inject_Z presentDays / inject_Z totalDays)
        <= (1 # 2) / 10 ^ Z.of_nat fractionDigits + (1 # 10000000000000))%Q.

(** 201 records of one student, the first of them marked present. *)
Definition one_present_of_201 : list StudentAttendance.Row :=
  student_row mon_04 "present" :: repeat (student_row mon_04 "absent") 200.

(** 40 records of one student, the first 23 of them marked present. *)
Definition present_23_of_40 : list StudentAttendance.Row :=
  (repeat (student_row mon_04 "present") 23
   ++ repeat (student_row mon_04 "absent") 17)%list.

(** ** Request fields and rates *)

Lemma field_truthy_some (s : string) : s <> "" -> field_truthy (Some s) = true.
Proof.
  intros H. simpl. destruct (String.eqb s "") eqn:E; [| reflexivity].
  apply String.eqb_eq in E. contradiction.
Qed.

Lemma rate_no_days (p : Z) : rate p 0 = 0%Q.
Proof. reflexivity. Qed.

Lemma rate_formula (p t : Z) :
  0 < t -> (rate p t == 100 * inject_Z p / inject_Z t)%Q.
Proof.
  intros Ht. unfold rate.
  destruct (0 <? t) eqn:E; [| apply Z.ltb_ge in E; lia].
  field. intros H.
  unfold Qeq, inject_Z in H. simpl in H. lia.
Qed.

Lemma rate_zero_iff (p t : Z) :
  0 < t -> (rate p t == 0)%Q <-> p = 0.
Proof.
  intros Ht. unfold rate.
  destruct (0 <? t) eqn:E; [| apply Z.ltb_ge in E; lia].
  destruct t as [| t' | t']; try lia.
  unfold Qeq, Qdiv, Qmult, Qinv, inject_Z; simpl.
  split; intros H; [lia | subst; lia].
Qed.

Lemma count_nonneg {A : Type} (p : A -> bool) (l : list A) : 0 <= count p l.
Proof. unfold count. lia. Qed.

Lemma count_le_length {A : Type} (p : A -> bool) (l : list A) :
  count p l <= Z.of_nat (List.length l).
Proof.
  unfold count. apply Nat2Z.inj_le. apply filter_length_le.
Qed.

Lemma count_app {A : Type} (p : A -> bool) (l1 l2 : list A) :
  count p (l1 ++ l2) = count p l1 + count p l2.
Proof.
  unfold count. rewrite filter_app, length_app. lia.
Qed.

Lemma count_cons {A : Type} (p : A -> bool) (x : A) (l : list A) :
  count p (x :: l) = (if p x then 1 else 0) + count p l.
Proof.
  unfold count. simpl. destruct (p x); simpl List.length; lia.
Qed.

Lemma count_zero_iff {A : Type} (p : A -> bool) (l : list A) :
  count p l = 0 <-> forall x, In x l -> p x = false.
Proof.
  induction l as [| x l IH].
  - split; [intros _ y [] | reflexivity].
  - rewrite count_cons. pose proof (count_nonneg p l) as Hn.
    split.
    + intros H y [<- | Hy].
      * destruct (p x); [lia | reflexivity].
      * apply IH; [destruct (p x); lia | exact Hy].
    + intros H. rewrite (H x (or_introl eq_refl)).
      apply IH. intros y Hy. apply H. right. exact Hy.
Qed.

Lemma count_map {A B : Type} (g : A -> B) (p : B -> bool) (l : list A) :
  count p (map g l) = count (fun x => p (g x)) l.
Proof.
  induction l as [| x l IH]; [reflexivity |].
  simpl map. rewrite !count_cons, IH. reflexivity.
Qed.

Lemma count_ext {A : Type} (p q : A -> bool) (l : list A) :
  (forall x, In x l -> p x = q x) -> count p l = count q l.
Proof.
  intros H. unfold count. rewrite (filter_ext_in p q l H). reflexivity.
Qed.

(** ** The staff summary on readable records *)

Section StaffReader.
Context {rt : JsRuntime}.

Import StaffAttendanceRoutes.

Lemma bind_inr {A B : Type} (m : Throws A) (k : A -> Throws B) (b : B) :
  bind m k = inr b <-> exists a, m = inr a /\ k a = inr b.
Proof.
  destruct m as [e | a]; simpl; split.
  - discriminate.
  - intros (a & H & _). discriminate.
  - intros H. exists a. split; [reflexivity | exact H].
  - intros (a' & H & Hk). injection H as ->. exact Hk.
Qed.

Lemma id_is_non_null (staffId : string) (e : JsVal) :
  non_null e = true -> id_is staffId e = inr (entry_id_is staffId e).
Proof. destruct e; simpl; try reflexivity; discriminate. Qed.

Lemma id_is_returns (staffId : string) (e : JsVal) (b : bool) :
  id_is staffId e = inr b -> non_null e = true /\ b = entry_id_is staffId e.
Proof.
  destruct e; simpl; intros H; try discriminate;
    injection H as <-; split; reflexivity.
Qed.

Lemma js_filter_returns (staffId : string) (l r : list JsVal) :
  js_filter (id_is staffId) l = inr r <->
  forallb non_null l = true /\ r = filter (entry_id_is staffId) l.
Proof.
  revert r. induction l as [| x l IH]; intros r; simpl.
  - split; [intros H; injection H as <-; auto | intros (_ & ->); reflexivity].
  - rewrite bind_inr. split.
    + intros (b & Hb & H). apply id_is_returns in Hb as (Hx & ->).
      apply bind_inr in H as (r' & Hr' & H). apply IH in Hr' as (Hl & ->).
      injection H as <-. rewrite Hx, Hl. auto.
    + intros (H & ->). apply andb_true_iff in H as (Hx & Hl).
      exists (entry_id_is staffId x). split; [apply id_is_non_null; exact Hx |].
      apply bind_inr. exists (filter (entry_id_is staffId) l).
      split; [apply IH; auto | reflexivity].
Qed.

Lemma js_find_non_null (staffId : string) (l : list JsVal) :
  forallb non_null l = true ->
  js_find (id_is staffId) l = inr (find (entry_id_is staffId) l).
Proof.
  induction l as [| x l IH]; simpl; [reflexivity |].
  intros H. apply andb_true_iff in H as (Hx & Hl).
  rewrite (id_is_non_null _ _ Hx). simpl.
  destruct (entry_id_is staffId x); [reflexivity | apply IH; exact Hl].
Qed.

Lemma readable_statuses (record : StaffAttendance.Row) :
  readable record = true ->
  parse_if_string (StaffAttendance.staffStatus record) = JArr (statuses record)
  /\ forallb non_null (statuses record) = true.
Proof.
  unfold readable, statuses.
  destruct (parse_if_string (StaffAttendance.staffStatus record));
    try discriminate. auto.
Qed.

Lemma filter_record_returns (staffId : string) (record : StaffAttendance.Row)
  (day : FilteredDay) :
  filter_record staffId record = inr day <->
  readable record = true
  /\ day = mkDay (StaffAttendance.date record) (entries_for staffId record).
Proof.
  unfold filter_record, readable, entries_for, statuses.
  destruct (parse_if_string (StaffAttendance.staffStatus record)) as [| | | | l |];
    simpl; try (split; [discriminate | intros (H & _); discriminate]).
  rewrite bind_inr. split.
  - intros (r & Hr & H). apply js_filter_returns in Hr as (Hl & ->).
    injection H as <-. auto.
  - intros (Hl & ->). exists (filter (entry_id_is staffId) l).
    split; [apply js_filter_returns; auto | reflexivity].
Qed.

Lemma js_map_filter_record (staffId : string) (rows : list StaffAttendance.Row)
  (days : list FilteredDay) :
  js_map (filter_record staffId) rows = inr days <->
  forallb readable rows = true
  /\ days = map (fun r => mkDay (StaffAttendance.date r) (entries_for staffId r)) rows.
Proof.
  revert days. induction rows as [| x rows IH]; intros days; simpl.
  - split; [intros H; injection H as <-; auto | intros (_ & ->); reflexivity].
  - rewrite bind_inr. split.
    + intros (d & Hd & H). apply filter_record_returns in Hd as (Hx & ->).
      apply bind_inr in H as (ds & Hds & H). apply IH in Hds as (Hl & ->).
      injection H as <-. rewrite Hx, Hl. auto.
    + intros (H & ->). apply andb_true_iff in H as (Hx & Hl).
      eexists. split; [apply filter_record_returns; split; [exact Hx | reflexivity] |].
      apply bind_inr. eexists.
      split; [apply IH; split; [exact Hl | reflexivity] | reflexivity].
Qed.

Lemma entry_id_is_object (staffId : string) (e : JsVal) :
  entry_id_is staffId e = true -> exists fields, e = JObj fields.
Proof. destruct e; simpl; try discriminate. eauto. Qed.

Lemma head_filter_find {A : Type} (p : A -> bool) (l : list A) :
  hd_error (filter p l) = find p l.
Proof.
  induction l as [| x l IH]; simpl; [reflexivity |].
  destruct (p x); [reflexivity | exact IH].
Qed.

Lemma first_is_present_entries (staffId d : string) (record : StaffAttendance.Row) :
  first_is_present (mkDay d (entries_for staffId record)) = marked_present staffId record.
Proof.
  unfold first_is_present, marked_present, entries_for. simpl.
  rewrite <- head_filter_find.
  destruct (filter (entry_id_is staffId) (statuses record)) as [| e l] eqn:E;
    simpl; [reflexivity |].
  assert (He : entry_id_is staffId e = true).
  { assert (Hin : In e (filter (entry_id_is staffId) (statuses record)))
      by (rewrite E; left; reflexivity).
    apply filter_In in Hin as (_ & Hin). exact Hin. }
  apply entry_id_is_object in He as (fields & ->). reflexivity.
Qed.

End StaffReader.

(** ** The weekly staff rate *)

Section StaffWeekly.
Context {rt : JsRuntime}.

Import StaffAttendanceRoutes.

Lemma forEach_app {S A : Type} (f : S -> A -> Throws S) (s : S) (l1 l2 : list A) :
  forEach f s (l1 ++ l2) = (s' <- forEach f s l1 ;; forEach f s' l2).
Proof.
  revert s. induction l1 as [| x l1 IH]; intros s; simpl; [reflexivity |].
  destruct (f s x) as [e | s']; simpl; [reflexivity | apply IH].
Qed.

Lemma weekly_step_outside (now : Z) (staffId : string) (acc : Z * Z)
  (r : StaffAttendance.Row) :
  in_staff_week now r = false ->
  weekly_step (JsDate.minus_7_days now) staffId acc r = ret acc.
Proof.
  unfold in_staff_week, weekly_step. destruct acc as [t p].
  destruct (Date_parse (StaffAttendance.date r)) as [d |]; [| reflexivity].
  intros ->. reflexivity.
Qed.

Lemma find_existsb {A : Type} (p : A -> bool) (l : list A) :
  existsb p l = match find p l with Some _ => true | None => false end.
Proof.
  induction l as [| x l IH]; simpl; [reflexivity |].
  destruct (p x); [reflexivity | exact IH].
Qed.

Lemma weekly_step_readable (now : Z) (staffId : string) (t p : Z)
  (r : StaffAttendance.Row) :
  readable r = true ->
  weekly_step (JsDate.minus_7_days now) staffId (t, p) r =
  ret (t + (if week_recorded now staffId r then 1 else 0),
       p + (if week_present now staffId r then 1 else 0)).
Proof.
  intros Hr. destruct (in_staff_week now r) eqn:Hw.
  - unfold week_recorded, week_present. rewrite Hw. simpl andb.
    unfold weekly_step. unfold in_staff_week in Hw.
    destruct (Date_parse (StaffAttendance.date r)) as [d |]; [| discriminate].
    rewrite Hw.
    apply readable_statuses in Hr as (-> & Hnn).
    rewrite (js_find_non_null staffId _ Hnn). simpl.
    unfold has_entry, marked_present. rewrite find_existsb.
    destruct (find (entry_id_is staffId) (statuses r)) as [e |] eqn:Hf.
    + apply find_some in Hf as (_ & He).
      apply entry_id_is_object in He as (fields & ->). simpl.
      destruct (strict_eq_str (lookup_field "status" fields) "present");
        unfold ret; f_equal; f_equal; lia.
    + unfold ret. f_equal. f_equal; lia.
  - rewrite (weekly_step_outside _ _ _ _ Hw).
    unfold week_recorded, week_present. rewrite Hw. simpl.
    unfold ret. f_equal. f_equal; lia.
Qed.

Lemma forEach_weekly_readable (now : Z) (staffId : string)
  (rows : list StaffAttendance.Row) (t p : Z) :
  forallb readable rows = true ->
  forEach (weekly_step (JsDate.minus_7_days now) staffId) (t, p) rows =
  ret (t + count (week_recorded now staffId) rows,
       p + count (week_present now staffId) rows).
Proof.
  revert t p. induction rows as [| r rows IH]; intros t p H; cbn [forEach].
  - unfold ret, count. simpl. f_equal. f_equal; lia.
  - cbn [forallb] in H. apply andb_true_iff in H as (Hr & Hrows).
    rewrite (weekly_step_readable _ _ _ _ _ Hr). cbn [bind ret].
    rewrite (IH _ _ Hrows), !count_cons. unfold ret. f_equal. f_equal; lia.
Qed.

Lemma weekly_rate_readable (now : Z) (staffId : string)
  (rows : list StaffAttendance.Row) :
  forallb readable rows = true ->
  calculateWeeklyAttendanceRate rows staffId now =
  ret (rate (count (week_present now staffId) rows)
            (count (week_recorded now staffId) rows)).
Proof.
  intros H. unfold calculateWeeklyAttendanceRate.
  rewrite (forEach_weekly_readable _ _ _ _ _ H). reflexivity.
Qed.

Lemma forEach_weekly_outside (now : Z) (staffId : string)
  (rows : list StaffAttendance.Row) (acc : Z * Z) :
  (forall r, In r rows -> in_staff_week now r = false) ->
  forEach (weekly_step (JsDate.minus_7_days now) staffId) acc rows = ret acc.
Proof.
  induction rows as [| r rows IH]; intros H; cbn [forEach]; [reflexivity |].
  rewrite (weekly_step_outside _ _ _ _ (H r (or_introl eq_refl))). cbn [bind ret].
  apply IH. intros r' Hr'. apply H. right. exact Hr'.
Qed.

(** The figures of the summary, for records it can read. *)
Lemma summarise_readable (rows : list StaffAttendance.Row) (staffId : string) (now : Z) :
  forallb readable rows = true ->
  summarise rows staffId now =
  ret (mkSummary None
         (Z.of_nat (List.length rows))
         (count (marked_present staffId) rows)
         (Z.of_nat (List.length rows) - count (marked_present staffId) rows)
         (rate (count (week_present now staffId) rows)
               (count (week_recorded now staffId) rows))
         (rate (count (marked_present staffId) rows) (Z.of_nat (List.length rows)))
         2
         (map (fun r => mkDay (StaffAttendance.date r) (entries_for staffId r)) rows)).
Proof.
  intros H. unfold summarise.
  assert (Hm := proj2 (js_map_filter_record staffId rows _) (conj H eq_refl)).
  rewrite Hm. simpl bind.
  rewrite (weekly_rate_readable _ _ _ H). simpl bind.
  rewrite length_map, count_map.
  rewrite (count_ext _ (marked_present staffId) rows)
    by (intros r _; apply first_is_present_entries).
  reflexivity.
Qed.

(** No record: every figure of the summary is 0. *)
Lemma summarise_no_records (staffId : string) (now : Z) :
  summarise [] staffId now = ret (mkSummary None 0 0 0 0%Q 0%Q 2 []).
Proof. reflexivity. Qed.

(** The summary is computed exactly for the readable record sets. *)
Lemma summarise_returns_iff (rows : list StaffAttendance.Row) (staffId : string) (now : Z) :
  (exists s, summarise rows staffId now = inr s) <-> forallb readable rows = true.
Proof.
  split.
  - intros (s & H). unfold summarise in H.
    apply bind_inr in H as (days & Hd & _).
    apply js_map_filter_record in Hd as (Hr & _). exact Hr.
  - intros H. eexists. apply summarise_readable. exact H.
Qed.

End StaffWeekly.

(** ** The staff summary query *)

Section StaffSummary.
Context {rt : JsRuntime}.

Import StaffAttendanceRoutes.

Lemma marked_present_needs_entry (staffId : string) (r : StaffAttendance.Row) :
  has_entry staffId r = false -> marked_present staffId r = false.
Proof.
  unfold has_entry, marked_present. rewrite find_existsb.
  destruct (find (entry_id_is staffId) (statuses r)); [discriminate | reflexivity].
Qed.

(** C10 (amended).  The staff summary query answers not-found exactly when
    the staff-attendance table is empty, whatever the staffId.  When the table
    is not empty, its records are readable and none of them has an entry
    for the staffId (and, with [expand=staff], the staff member is found),
    the query answers 200 with a summary whose totalDays is the number of
    day records in the table and whose daysPresent is 0.  With
    [expand=staff] and no single row of Staffs for the staffId it answers
    500 instead. *)
Theorem staff_summary_not_found_iff_table_empty :
  forall (db : Db) (staffId : string) (expand : option string) (now : Z),
    ((exists m, getStaffAttendance db staffId expand now = Message 404 m)
     <-> StaffAttendances db = [])
    /\ (StaffAttendances db <> [] ->
        forallb readable (StaffAttendances db) = true ->
        (forall r, In r (StaffAttendances db) -> has_entry staffId r = false) ->
        (expand <> Some "staff"
         \/ exists d,
             single (filter (fun r => String.eqb (Staff.staffId r) staffId) (Staffs db))
             = Some d) ->
        exists s,
          getStaffAttendance db staffId expand now = Body 200 s
          /\ totalDays s = Z.of_nat (List.length (StaffAttendances db))
          /\ daysPresent s = 0
          /\ daysAbsent s = Z.of_nat (List.length (StaffAttendances db)))
    /\ (StaffAttendances db <> [] ->
        forallb readable (StaffAttendances db) = true ->
        expand = Some "staff" ->
        single (filter (fun r => String.eqb (Staff.staffId r) staffId) (Staffs db))
        = None ->
        getStaffAttendance db staffId expand now
        = Failure 500 "Error fetching attendance data" (PostgrestError "PGRST116")).
Proof.
  intros db staffId expand now. split; [| split].
  - unfold getStaffAttendance.
    destruct (StaffAttendances db) as [| r rows] eqn:E.
    + split; [reflexivity | intros _; eexists; reflexivity].
    + split; [| discriminate].
      intros (m & H). exfalso.
      destruct (summarise (r :: rows) staffId now) as [e | s]; [discriminate |].
      destruct (strict_eq_str (option_map JStr expand) "staff"); [| discriminate].
      destruct (single _); discriminate.
  - intros Hne Hread Hnone Hexp. unfold getStaffAttendance.
    destruct (StaffAttendances db) as [| r rows] eqn:E; [congruence |].
    rewrite (summarise_readable _ staffId now Hread).
    assert (Hp : count (marked_present staffId) (r :: rows) = 0).
    { apply count_zero_iff. intros x Hx.
      apply marked_present_needs_entry, Hnone, Hx. }
    rewrite Hp. unfold ret.
    destruct (strict_eq_str (option_map JStr expand) "staff") eqn:Hs.
    + destruct Hexp as [Hexp | (d & Hd)].
      * exfalso. apply Hexp. destruct expand as [x |]; [| discriminate].
        simpl in Hs. apply String.eqb_eq in Hs. congruence.
      * rewrite Hd. eexists. split; [reflexivity |]. simpl.
        repeat split; lia.
    + eexists. split; [reflexivity |]. simpl. repeat split; lia.
  - intros Hne Hread -> Hnone. unfold getStaffAttendance.
    destruct (StaffAttendances db) as [| r rows] eqn:E; [congruence |].
    rewrite (summarise_readable _ staffId now Hread). unfold ret.
    change (strict_eq_str (option_map JStr (Some "staff")) "staff") with true.
    cbn iota. rewrite Hnone. reflexivity.
Qed.

End StaffSummary.

(** C10 (amended) at the table of two days, for a staff member without any
    entry and without a row in Staffs: a summary without [expand], 500
    with [expand=staff]. *)
Lemma staff_summary_not_found_iff_table_empty_witness :
  (exists s,
     StaffAttendanceRoutes.getStaffAttendance db_two_days "S3" None now_sun_10
     = Body 200 s
     /\ StaffAttendanceRoutes.totalDays s = 2
     /\ StaffAttendanceRoutes.daysPresent s = 0
     /\ StaffAttendanceRoutes.daysAbsent s = 2)
  /\ StaffAttendanceRoutes.getStaffAttendance db_two_days "S3" (Some "staff")
       now_sun_10
     = Failure 500 "Error fetching attendance data" (PostgrestError "PGRST116").
Proof.
  split.
  - apply (proj1 (proj2 (staff_summary_not_found_iff_table_empty
                           db_two_days "S3" None now_sun_10))).
    + discriminate.
    + vm_compute. reflexivity.
    + intros r Hr. vm_compute in Hr.
      destruct Hr as [<- | [<- | []]]; vm_compute; reflexivity.
    + left. discriminate.
  - apply (proj2 (proj2 (staff_summary_not_found_iff_table_empty
                           db_two_days "S3" (Some "staff") now_sun_10))).
    + discriminate.
    + vm_compute. reflexivity.
    + reflexivity.
    + reflexivity.
Defined.

(** C10 (counterexample).  The table of two days is not empty, its records
    are readable and none has an entry for S3, and no row of Staffs has the
    staffId S3: with [expand=staff] the query answers 500, not a summary,
    because the lookup of the staff member fails. *)
Lemma staff_summary_fails_without_staff_row :
  StaffAttendances db_two_days <> []
  /\ forallb readable (StaffAttendances db_two_days) = true
  /\ forallb (fun r => negb (has_entry "S3" r))
       (StaffAttendances db_two_days) = true
  /\ Staffs db_two_days = []
  /\ StaffAttendanceRoutes.getStaffAttendance db_two_days "S3"
       (Some "staff") now_sun_10
     = Failure 500 "Error fetching attendance data" (PostgrestError "PGRST116").
Proof.
  split; [discriminate |]. repeat split; vm_compute; reflexivity.
Qed.

(** C1. On the table in which S1 is marked on Monday and only S2 is
    marked on Tuesday, one day record has an entry for S1, yet the summary
    for S1 reports totalDays 2 and daysAbsent 1: the Tuesday record, which
    has no entry for S1, is counted as a day, and as a day of absence. *)
Theorem staff_summary_counts_day_without_entry :
  count (has_entry "S1") (StaffAttendances db_two_days) = 1
  /\ exists s,
       StaffAttendanceRoutes.getStaffAttendance db_two_days "S1" None now_sun_10
       = Body 200 s
       /\ StaffAttendanceRoutes.totalDays s = 2
       /\ StaffAttendanceRoutes.daysPresent s = 1
       /\ StaffAttendanceRoutes.daysAbsent s = 1
       /\ (StaffAttendanceRoutes.overallAttendanceRate s == 50)%Q
       /\ (StaffAttendanceRoutes.weeklyAttendanceRate s == 100)%Q.
Proof.
  split; [vm_compute; reflexivity |].
  eexists. split; [vm_compute; reflexivity |].
  repeat split; vm_compute; reflexivity.
Qed.

(** C9. A day record whose staffStatus is the JSON text of an object, or
    the JSON text [null], or the value [null], makes the summary throw: the
    handler calls [filter] on a value that is not an array and answers 500
    instead of computing the summary.  Text that is not JSON is read as the
    empty array and the summary is computed. *)
Theorem staff_summary_throws_on_status_that_is_not_an_array :
  StaffAttendanceRoutes.getStaffAttendance
    (db_with_status (JStr (JsonText.stringify (JObj [])))) "S1" None now_sun_10
  = Failure 500 "Error fetching attendance data"
      (TypeError "staffStatus.filter is not a function")
  /\ StaffAttendanceRoutes.getStaffAttendance
       (db_with_status (JStr "null")) "S1" None now_sun_10
     = Failure 500 "Error fetching attendance data"
         (TypeError "Cannot read properties of null")
  /\ StaffAttendanceRoutes.getStaffAttendance
       (db_with_status JNull) "S1" None now_sun_10
     = Failure 500 "Error fetching attendance data"
         (TypeError "Cannot read properties of null")
  /\ StaffAttendanceRoutes.calculateWeeklyAttendanceRate
       (StaffAttendances (db_with_status JNull)) "S1" now_sun_10 = ret 0%Q
  /\ exists s,
       StaffAttendanceRoutes.getStaffAttendance
         (db_with_status (JStr "{not json")) "S1" None now_sun_10 = Body 200 s
       /\ StaffAttendanceRoutes.totalDays s = 1
       /\ StaffAttendanceRoutes.attendance s
          = [StaffAttendanceRoutes.mkDay mon_04 []].
Proof.
  repeat split; try (vm_compute; reflexivity).
  eexists. split; [vm_compute; reflexivity |].
  split; vm_compute; reflexivity.
Qed.

(** ** Counting present and absent days *)

Section Counting.
Context {rt : JsRuntime}.

Import StudentAttendanceRoutes.

Lemma count_status_is (st : string) (records : list StudentAttendance.Row) :
  count (status_is st) records = days_with_status st records.
Proof.
  induction records as [| r records IH]; [reflexivity |].
  rewrite count_cons, IH. reflexivity.
Qed.

Lemma present_absent_le_total (records : list StudentAttendance.Row) :
  days_with_status "present" records + days_with_status "absent" records
  <= Z.of_nat (List.length records).
Proof.
  induction records as [| r records IH]; simpl days_with_status; [simpl; lia |].
  simpl List.length. rewrite Nat2Z.inj_succ.
  destruct (String.eqb (StudentAttendance.status r) "present") eqn:Ep;
    destruct (String.eqb (StudentAttendance.status r) "absent") eqn:Ea;
    try lia.
  apply String.eqb_eq in Ep, Ea. congruence.
Qed.

Lemma present_absent_binary (records : list StudentAttendance.Row) :
  Forall binary_status records ->
  days_with_status "present" records + days_with_status "absent" records
  = Z.of_nat (List.length records).
Proof.
  induction 1 as [| r records Hr _ IH]; [reflexivity |].
  simpl days_with_status. simpl List.length. rewrite Nat2Z.inj_succ.
  destruct Hr as [Hr | Hr]; rewrite Hr;
    change (String.eqb "present" "present") with true;
    change (String.eqb "absent" "absent") with true;
    change (String.eqb "present" "absent") with false;
    change (String.eqb "absent" "present") with false; lia.
Qed.

(** C3 (amended).  presentDays is the number of records whose status is
    present (for staff: the number of day records whose first entry for
    the staff member says present).  In the student variant absentDays is
    counted on its own, as the number of records whose status is absent, so
    that presentDays + absentDays is at most totalDays, with equality when
    every status is present or absent.  In the staff variant daysAbsent is
    totalDays - daysPresent. *)
Theorem absent_days_counted_for_students_subtracted_for_staff :
  forall (records : list StudentAttendance.Row) (now : Z)
         (rows : list StaffAttendance.Row) (staffId : string)
         (s : StaffAttendanceRoutes.Summary),
    StaffAttendanceRoutes.summarise rows staffId now = inr s ->
    let r := calculateRates records now in
    totalDays r = Z.of_nat (List.length records)
    /\ presentDays r = days_with_status "present" records
    /\ absentDays r = days_with_status "absent" records
    /\ presentDays r + absentDays r <= totalDays r
    /\ (Forall binary_status records -> absentDays r = totalDays r - presentDays r)
    /\ StaffAttendanceRoutes.totalDays s = Z.of_nat (List.length rows)
    /\ StaffAttendanceRoutes.daysPresent s = count (marked_present staffId) rows
    /\ StaffAttendanceRoutes.daysAbsent s
       = StaffAttendanceRoutes.totalDays s - StaffAttendanceRoutes.daysPresent s.
Proof.
  intros records now rows staffId s Hs r. subst r. simpl.
  rewrite !count_status_is.
  assert (Hread : forallb readable rows = true)
    by (apply (summarise_returns_iff rows staffId now); eauto).
  rewrite (summarise_readable _ staffId now Hread) in Hs.
  injection Hs as <-. simpl.
  pose proof (present_absent_le_total records) as Hle.
  repeat split; try reflexivity; try exact Hle.
  intros Hb. pose proof (present_absent_binary records Hb). lia.
Qed.

End Counting.

(** C3 (amended) at the table of two days and at one student record. *)
Lemma absent_days_counted_for_students_subtracted_for_staff_witness :
  exists s,
    StaffAttendanceRoutes.summarise (StaffAttendances db_two_days) "S1" now_sun_10
    = inr s
    /\ StaffAttendanceRoutes.daysAbsent s
       = StaffAttendanceRoutes.totalDays s - StaffAttendanceRoutes.daysPresent s
    /\ StudentAttendanceRoutes.absentDays
         (StudentAttendanceRoutes.calculateRates [student_row mon_04 "late"] now_sun_10)
       = days_with_status "absent" [student_row mon_04 "late"].
Proof.
  eexists. split; [vm_compute; reflexivity |].
  pose proof (absent_days_counted_for_students_subtracted_for_staff
                [student_row mon_04 "late"] now_sun_10
                (StaffAttendances db_two_days) "S1" _ eq_refl) as H.
  cbv zeta in H. destruct H as (_ & _ & Ha & _ & _ & _ & _ & Hd).
  split; [exact Hd | exact Ha].
Defined.

(** C3 (counterexample).  A student record with status late: totalDays 1,
    presentDays 0, and absentDays is 0, not totalDays - presentDays.  A
    staff day whose entry says late: daysAbsent is 1 although no entry
    says absent. *)
Lemma absent_days_variants_as_stated_fail :
  (let r := StudentAttendanceRoutes.calculateRates [student_row mon_04 "late"] now_sun_10 in
   StudentAttendanceRoutes.absentDays r
   <> StudentAttendanceRoutes.totalDays r - StudentAttendanceRoutes.presentDays r)
  /\ exists s,
       StaffAttendanceRoutes.summarise
         (StaffAttendances (mark_staff "S1" mon_04 "late" emptyDb)) "S1" now_sun_10
       = inr s
       /\ StaffAttendanceRoutes.daysAbsent s = 1
       /\ count (fun r => existsb (entry_status_is "absent") (entries_for "S1" r))
            (StaffAttendances (mark_staff "S1" mon_04 "late" emptyDb)) = 0.
Proof.
  split; [vm_compute; discriminate |].
  eexists. split; [vm_compute; reflexivity |].
  split; vm_compute; reflexivity.
Qed.

(** ** The overall rate

    First the rounding of binary64 and of [toFixed], then the overall rate
    of the two aggregators as the response shows it. *)

Section Binary64.
Import JsNumber.

Lemma pow2_pos (e : Z) : (0 < 2 ^ e)%Q.
Proof. apply Qpower_0_lt. reflexivity. Qed.

Lemma pow2_mono (a b : Z) : a <= b -> (2 ^ a <= 2 ^ b)%Q.
Proof. intros H. apply Qpower_le_compat_l; [exact H | discriminate]. Qed.

Lemma pow2_nat (a : Z) : 0 <= a -> (2 ^ a == inject_Z (2 ^ a))%Q.
Proof. intros H. rewrite Zpower_Qpower by exact H. reflexivity. Qed.

Lemma nearest_even_close (q : Q) :
  (Qabs (inject_Z (nearest_even q) - q) <= 1 # 2)%Q.
Proof.
  unfold nearest_even.
  pose proof (Qfloor_le q) as Hlo. pose proof (Qlt_floor q) as Hhi.
  rewrite inject_Z_plus in Hhi. change (inject_Z 1) with 1%Q in Hhi.
  destruct (Qcompare_spec (q - inject_Z (Qfloor q)) (1 # 2)) as [H | H | H].
  - destruct (Z.even (Qfloor q));
      [| rewrite inject_Z_plus; change (inject_Z 1) with 1%Q];
      apply Qabs_case; intros _; lra.
  - apply Qabs_case; intros _; lra.
  - rewrite inject_Z_plus. change (inject_Z 1) with 1%Q.
    apply Qabs_case; intros _; lra.
Qed.

Lemma nearest_even_nonneg (q : Q) : (0 <= q)%Q -> 0 <= nearest_even q.
Proof.
  intros H. apply Qfloor_resp_le in H. change (Qfloor 0) with 0 in H.
  unfold nearest_even.
  destruct (q - inject_Z (Qfloor q) ?= 1 # 2)%Q; [destruct (Z.even _) | |]; lia.
Qed.

(** The logarithm is the right one: [2 ^ ilog2 q <= q < 2 ^ (ilog2 q + 1)]. *)
Lemma ilog2_le (q : Q) : (0 < q)%Q -> (2 ^ ilog2 q <= q)%Q.
Proof.
  intros Hq. unfold ilog2.
  set (k := Z.log2 (Qnum q) - Z.log2 (Z.pos (Qden q))).
  destruct (Qle_bool (2 ^ k) q) eqn:E; [apply Qle_bool_iff, E |].
  clear E. subst k. destruct q as [n d]. cbn [Qnum Qden].
  assert (Hn : 0 < n) by (unfold Qlt in Hq; simpl in Hq; lia).
  pose proof (Z.log2_spec n Hn) as [Hn1 _].
  pose proof (Z.log2_spec (Z.pos d) (Pos2Z.is_pos d)) as [_ Hd2].
  pose proof (Z.log2_nonneg n) as Ha. pose proof (Z.log2_nonneg (Z.pos d)) as Hb.
  replace (Z.log2 n - Z.log2 (Z.pos d) - 1)
    with (Z.log2 n - (Z.log2 (Z.pos d) + 1)) by ring.
  rewrite Qpower_minus by (intros H; discriminate H).
  rewrite !pow2_nat by lia.
  rewrite <- Z.add_1_r in Hd2.
  set (A := 2 ^ Z.log2 n) in *. set (B := 2 ^ (Z.log2 (Z.pos d) + 1)) in *.
  assert (HB : 0 < B) by lia.
  rewrite (Qmake_Qdiv n d).
  apply Qle_shift_div_l; [change 0%Q with (inject_Z 0); rewrite <- Zlt_Qlt; lia |].
  unfold Qdiv. rewrite <- Qmult_assoc, (Qmult_comm (/ inject_Z B)), Qmult_assoc.
  apply Qle_shift_div_r; [change 0%Q with (inject_Z 0); rewrite <- Zlt_Qlt; lia |].
  rewrite <- !inject_Z_mult, <- Zle_Qle. nia.
Qed.

Lemma ilog2_lt (q : Q) : (0 < q)%Q -> (q < 2 ^ (ilog2 q + 1))%Q.
Proof.
  intros Hq. unfold ilog2.
  set (k := Z.log2 (Qnum q) - Z.log2 (Z.pos (Qden q))).
  destruct (Qle_bool (2 ^ k) q) eqn:E.
  - clear E. subst k. destruct q as [n d]. cbn [Qnum Qden].
    assert (Hn : 0 < n) by (unfold Qlt in Hq; simpl in Hq; lia).
    pose proof (Z.log2_spec n Hn) as [_ Hn2].
    pose proof (Z.log2_spec (Z.pos d) (Pos2Z.is_pos d)) as [Hd1 _].
    pose proof (Z.log2_nonneg n) as Ha. pose proof (Z.log2_nonneg (Z.pos d)) as Hb.
    replace (Z.log2 n - Z.log2 (Z.pos d) + 1)
      with ((Z.log2 n + 1) - Z.log2 (Z.pos d)) by ring.
    rewrite Qpower_minus by (intros H; discriminate H).
    rewrite !pow2_nat by lia.
    rewrite <- Z.add_1_r in Hn2.
    set (A := 2 ^ (Z.log2 n + 1)) in *. set (B := 2 ^ Z.log2 (Z.pos d)) in *.
    assert (HB : 0 < B) by lia.
    rewrite (Qmake_Qdiv n d).
    apply Qlt_shift_div_r; [change 0%Q with (inject_Z 0); rewrite <- Zlt_Qlt; lia |].
    unfold Qdiv. rewrite <- Qmult_assoc, (Qmult_comm (/ inject_Z B)), Qmult_assoc.
    apply Qlt_shift_div_l; [change 0%Q with (inject_Z 0); rewrite <- Zlt_Qlt; lia |].
    rewrite <- !inject_Z_mult, <- Zlt_Qlt. nia.
  - replace (k - 1 + 1) with k by ring.
    apply Qnot_le_lt. intros H. apply Qle_bool_iff in H. congruence.
Qed.

Lemma ulp_exponent_le (q : Q) (m : Z) :
  ~ (q == 0)%Q -> (Qabs q <= 2 ^ m)%Q -> -1022 <= m ->
  ulp_exponent q <= m - 52.
Proof.
  intros Hq Hm Hlow. unfold ulp_exponent.
  assert (Hpos : (0 < Qabs q)%Q).
  { destruct (Qlt_le_dec 0 (Qabs q)) as [H | H]; [exact H |].
    exfalso. apply Hq. apply Qabs_Qle_condition in H. lra. }
  pose proof (ilog2_le (Qabs q) Hpos) as H.
  assert (ilog2 (Qabs q) <= m).
  { apply (Qpower_le_compat_l_inv 2); [| reflexivity].
    eapply Qle_trans; eassumption. }
  lia.
Qed.

Lemma round64_zero (q : Q) : (q == 0)%Q -> round64 q = 0%Q.
Proof.
  intros H. unfold round64. apply Qeq_bool_iff in H. rewrite H. reflexivity.
Qed.

Lemma round64_nonneg (q : Q) : (0 <= q)%Q -> (0 <= round64 q)%Q.
Proof.
  intros H. unfold round64. destruct (Qeq_bool q 0); [lra |].
  pose proof (pow2_pos (ulp_exponent q)) as Hp.
  apply Qmult_le_0_compat; [| lra].
  change 0%Q with (inject_Z 0). rewrite <- Zle_Qle.
  apply nearest_even_nonneg. apply Qle_shift_div_l; [exact Hp | lra].
Qed.

(** Rounding moves a number by at most half a unit in the last place. *)
Lemma round64_close (q : Q) :
  (Qabs (round64 q - q) <= 2 ^ ulp_exponent q * (1 # 2))%Q.
Proof.
  unfold round64. pose proof (pow2_pos (ulp_exponent q)) as Hp.
  destruct (Qeq_bool q 0) eqn:E.
  - apply Qeq_bool_iff in E. apply Qabs_case; intros _; lra.
  - set (e := ulp_exponent q) in *.
    pose proof (nearest_even_close (q / 2 ^ e)) as H.
    set (n := inject_Z (nearest_even (q / 2 ^ e))) in *.
    assert (Hq : (q == q / 2 ^ e * 2 ^ e)%Q) by (field; lra).
    apply Qabs_Qle_condition in H. destruct H as [H1 H2].
    apply Qabs_Qle_condition.
    set (y := (q / 2 ^ e)%Q) in *.
    split; rewrite Hq at 1; nra.
Qed.

Lemma round64_close_below (q : Q) (m : Z) :
  (Qabs q <= 2 ^ m)%Q -> -1022 <= m ->
  (Qabs (round64 q - q) <= 2 ^ (m - 53))%Q.
Proof.
  intros Hm Hlow.
  destruct (Qeq_dec q 0) as [Hz | Hnz].
  - rewrite (round64_zero q Hz). pose proof (pow2_pos (m - 53)).
    apply Qabs_case; intros _; lra.
  - eapply Qle_trans; [apply round64_close |].
    pose proof (ulp_exponent_le q m Hnz Hm Hlow) as He.
    apply (pow2_mono _ (m - 52)) in He.
    replace (m - 52) with ((m - 53) + 1) in He by ring.
    rewrite Qpower_plus in He by discriminate.
    change (2 ^ 1)%Q with 2%Q in He. lra.
Qed.

Lemma toFixed_integer_close (x : Q) (f : nat) :
  (Qabs (inject_Z (toFixed_integer x f) / 10 ^ Z.of_nat f - x)
   <= (1 # 2) / 10 ^ Z.of_nat f)%Q.
Proof.
  unfold toFixed_integer.
  assert (Hp : (0 < 10 ^ Z.of_nat f)%Q) by (apply Qpower_0_lt; reflexivity).
  set (s := (10 ^ Z.of_nat f)%Q) in *.
  pose proof (Qfloor_le (x * s + (1 # 2))) as Hlo.
  pose proof (Qlt_floor (x * s + (1 # 2))) as Hhi.
  rewrite inject_Z_plus in Hhi. change (inject_Z 1) with 1%Q in Hhi.
  set (n := inject_Z (Qfloor (x * s + (1 # 2)))) in *.
  assert (E : (n / s - x == (n - x * s) / s)%Q) by (field; lra).
  rewrite E. apply Qabs_Qle_condition. split.
  - apply Qle_shift_div_l; [exact Hp |].
    assert (E2 : (- ((1 # 2) / s) * s == - (1 # 2))%Q) by (field; lra).
    rewrite E2. lra.
  - apply Qle_shift_div_r; [exact Hp |].
    assert (E2 : ((1 # 2) / s * s == 1 # 2)%Q) by (field; lra).
    rewrite E2. lra.
Qed.

Lemma toFixed_integer_nonneg (x : Q) (f : nat) :
  (0 <= x)%Q -> 0 <= toFixed_integer x f.
Proof.
  intros H. unfold toFixed_integer.
  assert (Hp : (0 < 10 ^ Z.of_nat f)%Q) by (apply Qpower_0_lt; reflexivity).
  assert (H0 : (0 <= x * 10 ^ Z.of_nat f + (1 # 2))%Q) by nra.
  apply Qfloor_resp_le in H0. exact H0.
Qed.

Lemma toFixed_integer_zero (x : Q) (f : nat) :
  (x == 0)%Q -> toFixed_integer x f = 0.
Proof.
  intros H. unfold toFixed_integer.
  assert (E : (x * 10 ^ Z.of_nat f + (1 # 2) == 1 # 2)%Q) by (rewrite H; ring).
  rewrite E. reflexivity.
Qed.

Lemma toFixed_nonneg (x : Q) (f : nat) :
  (0 <= x)%Q -> toFixed x f = fixed_text (toFixed_integer x f) f.
Proof.
  intros H. unfold toFixed. apply Qle_bool_iff in H. rewrite H. reflexivity.
Qed.

End Binary64.

Lemma percentage_no_present_day (t : Z) : percentage 0 t = 0%Q.
Proof.
  unfold percentage. destruct (0 <? t); [| reflexivity].
  assert (E : JsNumber.round64 (inject_Z 0 / inject_Z t) = 0%Q).
  { apply round64_zero. unfold Qdiv. change (inject_Z 0) with 0%Q. ring. }
  rewrite E. reflexivity.
Qed.

Lemma percentage_no_days (p : Z) : percentage p 0 = 0%Q.
Proof. reflexivity. Qed.

Lemma percentage_nonneg (p t : Z) : 0 <= p -> (0 <= percentage p t)%Q.
Proof.
  intros Hp. unfold percentage.
  destruct (Z.ltb_spec 0 t) as [Ht | _]; [| lra].
  apply round64_nonneg.
  apply Qmult_le_0_compat; [| lra].
  apply round64_nonneg.
  apply Qle_shift_div_l;
    [change 0%Q with (inject_Z 0); rewrite <- Zlt_Qlt; exact Ht |].
  rewrite Qmult_0_l. change 0%Q with (inject_Z 0). rewrite <- Zle_Qle. exact Hp.
Qed.

(** The two roundings of binary64 move the rate by less than 10^-13. *)
Lemma percentage_close (p t : Z) :
  0 <= p <= t -> 0 < t ->
  (Qabs (percentage p t - 100 * inject_Z p / inject_Z t)
   <= 1 # 10000000000000)%Q.
Proof.
  intros Hpt Ht. unfold percentage.
  destruct (Z.ltb_spec 0 t) as [_ | H]; [| lia].
  set (y := (inject_Z p / inject_Z t)%Q).
  assert (Ht' : (0 < inject_Z t)%Q)
    by (change 0%Q with (inject_Z 0); rewrite <- Zlt_Qlt; exact Ht).
  assert (Hy : (0 <= y /\ y <= 1)%Q).
  { unfold y. split.
    - apply Qle_shift_div_l; [exact Ht' |]. rewrite Qmult_0_l.
      change 0%Q with (inject_Z 0). rewrite <- Zle_Qle. lia.
    - apply Qle_shift_div_r; [exact Ht' |]. rewrite Qmult_1_l.
      rewrite <- Zle_Qle. lia. }
  assert (H1 : (Qabs (JsNumber.round64 y - y) <= 2 ^ (0 - 53))%Q).
  { apply round64_close_below; [| lia].
    change (2 ^ 0)%Q with 1%Q. apply Qabs_case; intros _; lra. }
  set (a := JsNumber.round64 y) in *.
  change (2 ^ (0 - 53))%Q with (1 # 9007199254740992)%Q in H1.
  apply Qabs_Qle_condition in H1.
  assert (H2 : (Qabs (JsNumber.round64 (a * 100) - a * 100) <= 2 ^ (7 - 53))%Q).
  { apply round64_close_below; [| lia].
    change (2 ^ 7)%Q with 128%Q. apply Qabs_case; intros _; lra. }
  set (d := JsNumber.round64 (a * 100)) in *.
  change (2 ^ (7 - 53))%Q with (1 # 70368744177664)%Q in H2.
  apply Qabs_Qle_condition in H2.
  assert (E : (100 * inject_Z p / inject_Z t == 100 * y)%Q)
    by (unfold y; field; lra).
  rewrite E. apply Qabs_Qle_condition. lra.
Qed.

(** The binary64 rate and the exact quotient [rate] differ by less than
    10^-13. *)
Lemma percentage_near_rate (p t : Z) :
  0 <= p <= t ->
  (Qabs (percentage p t - rate p t) <= 1 # 10000000000000)%Q.
Proof.
  intros Hpt. destruct (Z.ltb_spec 0 t) as [Ht | Ht].
  - rewrite (rate_formula p t Ht). apply percentage_close; assumption.
  - unfold percentage, rate.
    destruct (Z.ltb_spec 0 t) as [H | _]; [lia |]. discriminate.
Qed.

Lemma percent_text_no_present_day (t : Z) (f : nat) :
  percent_text (percentage 0 t) f = JsNumber.fixed_text 0 f ++ "%".
Proof.
  rewrite percentage_no_present_day. unfold percent_text.
  rewrite toFixed_nonneg by discriminate.
  rewrite toFixed_integer_zero by reflexivity. reflexivity.
Qed.

Lemma percent_text_within_rounding (p t : Z) (f : nat) :
  0 <= p <= t -> 0 < t ->
  within_rounding (percent_text (percentage p t) f) f p t.
Proof.
  intros Hpt Ht. unfold within_rounding, percent_text.
  pose proof (percentage_nonneg p t (proj1 Hpt)) as H0.
  exists (JsNumber.toFixed_integer (percentage p t) f).
  split; [apply toFixed_integer_nonneg, H0 |].
  split; [rewrite (toFixed_nonneg _ _ H0); reflexivity |].
  pose proof (toFixed_integer_close (percentage p t) f) as H1.
  pose proof (percentage_close p t Hpt Ht) as H2.
  apply Qabs_Qle_condition in H1. apply Qabs_Qle_condition in H2.
  apply Qabs_Qle_condition. lra.
Qed.

Section OverallRate.
Context {rt : JsRuntime}.

Import StudentAttendanceRoutes.

(** A summary that the staff query answers carries the counts of
    [summarise], of a table that is not empty, and asks for two decimals,
    or for none with [expand=staff]. *)
Lemma staff_summary_body_counts (db : Db) (staffId : string)
  (expand : option string) (now : Z) (s : StaffAttendanceRoutes.Summary) :
  StaffAttendanceRoutes.getStaffAttendance db staffId expand now = Body 200 s ->
  0 <= StaffAttendanceRoutes.daysPresent s <= StaffAttendanceRoutes.totalDays s
  /\ 0 < StaffAttendanceRoutes.totalDays s
  /\ StaffAttendanceRoutes.decimals s
     = (if strict_eq_str (option_map JStr expand) "staff" then 0 else 2).
Proof.
  unfold StaffAttendanceRoutes.getStaffAttendance.
  destruct (StaffAttendances db) as [| r rows]; [discriminate |].
  destruct (StaffAttendanceRoutes.summarise (r :: rows) staffId now)
    as [e | s0] eqn:Hs; [discriminate |].
  assert (Hread : forallb readable (r :: rows) = true)
    by (apply (summarise_returns_iff (r :: rows) staffId now); eauto).
  rewrite (summarise_readable _ staffId now Hread) in Hs.
  injection Hs as <-.
  pose proof (count_nonneg (marked_present staffId) (r :: rows)) as H0.
  pose proof (count_le_length (marked_present staffId) (r :: rows)) as H1.
  assert (H2 : 0 < Z.of_nat (List.length (r :: rows))) by (cbn [List.length]; lia).
  destruct (strict_eq_str (option_map JStr expand) "staff").
  - destruct (single _); [| discriminate].
    intros H. injection H as <-.
    split; [split; assumption | split; [exact H2 | reflexivity]].
  - intros H. injection H as <-.
    split; [split; assumption | split; [exact H2 | reflexivity]].
Qed.

(** C8 (amended).  In both aggregators the overallAttendanceRate of the
    response is 0 ("0%", and "0.00%" where the staff summary prints two
    decimals) whenever no day is counted present, which includes
    totalDays = 0; and when totalDays is positive it is
    100 * presentDays / totalDays within rounding: the number printed
    differs from the exact quotient by at most half a unit of its last
    decimal and the 10^-13 of the binary64 roundings.  A staff summary is
    answered for a table that is not empty only, so its totalDays is
    positive. *)
Theorem overall_rate_text_within_rounding :
  forall (records : list StudentAttendance.Row) (now : Z)
         (db : Db) (staffId : string) (expand : option string)
         (s : StaffAttendanceRoutes.Summary),
    StaffAttendanceRoutes.getStaffAttendance db staffId expand now = Body 200 s ->
    let r := calculateRates records now in
    let decimals_s := Z.to_nat (StaffAttendanceRoutes.decimals s) in
    (totalDays r = 0 -> student_overall_text r = "0%")
    /\ (presentDays r = 0 -> student_overall_text r = "0%")
    /\ (0 < totalDays r ->
        within_rounding (student_overall_text r) 0 (presentDays r) (totalDays r))
    /\ (decimals_s = if strict_eq_str (option_map JStr expand) "staff"
                     then 0%nat else 2%nat)
    /\ 0 < StaffAttendanceRoutes.totalDays s
    /\ (StaffAttendanceRoutes.daysPresent s = 0 ->
        staff_overall_text s = if Nat.eqb decimals_s 0 then "0%" else "0.00%")
    /\ within_rounding (staff_overall_text s) decimals_s
         (StaffAttendanceRoutes.daysPresent s) (StaffAttendanceRoutes.totalDays s).
Proof.
  intros records now db staffId expand s Hs r decimals_s.
  destruct (staff_summary_body_counts db staffId expand now s Hs) as (Hb & Hpos & Hd).
  assert (Hr : 0 <= presentDays r <= totalDays r).
  { subst r. cbn [calculateRates presentDays totalDays].
    split; [apply count_nonneg | apply count_le_length]. }
  assert (Hzero_r : presentDays r = 0 -> student_overall_text r = "0%").
  { intros H. unfold student_overall_text. rewrite H.
    rewrite percent_text_no_present_day. reflexivity. }
  assert (Hdec : decimals_s = if strict_eq_str (option_map JStr expand) "staff"
                              then 0%nat else 2%nat).
  { subst decimals_s. rewrite Hd.
    destruct (strict_eq_str (option_map JStr expand) "staff"); reflexivity. }
  assert (Hzero_s : StaffAttendanceRoutes.daysPresent s = 0 ->
            staff_overall_text s = if Nat.eqb decimals_s 0 then "0%" else "0.00%").
  { intros H. unfold staff_overall_text. rewrite H.
    rewrite percent_text_no_present_day. fold decimals_s. rewrite Hdec.
    destruct (strict_eq_str (option_map JStr expand) "staff"); reflexivity. }
  split; [intros H; apply Hzero_r; lia |].
  split; [exact Hzero_r |].
  split; [intros H; apply percent_text_within_rounding; assumption |].
  split; [exact Hdec |].
  split; [exact Hpos |].
  split; [exact Hzero_s |].
  apply percent_text_within_rounding; assumption.
Qed.

End OverallRate.

(** C8 (amended) at the table of two days: S1 is present on one day of two,
    and the summary shows "50.00%". *)
Lemma overall_rate_text_within_rounding_witness :
  exists s,
    StaffAttendanceRoutes.getStaffAttendance db_two_days "S1" None now_sun_10
    = Body 200 s
    /\ staff_overall_text s = "50.00%"
    /\ within_rounding (staff_overall_text s) 2
         (StaffAttendanceRoutes.daysPresent s) (StaffAttendanceRoutes.totalDays s).
Proof.
  assert (H : exists s,
             StaffAttendanceRoutes.getStaffAttendance db_two_days "S1" None
               now_sun_10 = Body 200 s)
    by (eexists; vm_compute; reflexivity).
  destruct H as (s & Hs). exists s. split; [exact Hs |].
  pose proof (overall_rate_text_within_rounding
                [student_row mon_04 "present"] now_sun_10
                db_two_days "S1" None s Hs) as H.
  cbv zeta in H. destruct H as (_ & _ & _ & Hd & _ & _ & H).
  change (if strict_eq_str (option_map JStr None) "staff" then 0%nat else 2%nat)
    with 2%nat in Hd.
  rewrite Hd in H.
  vm_compute in Hs. injection Hs as <-.
  split; [vm_compute; reflexivity | exact H].
Defined.

(** C8 (counterexample).  One student record, marked absent: totalDays is
    1 and the overallAttendanceRate of the response is "0%", so the rate is
    not 0 exactly when totalDays is 0.  The same holds of the exact
    quotient. *)
Lemma overall_rate_text_zero_with_recorded_days :
  let r := StudentAttendanceRoutes.calculateRates
             [student_row mon_04 "absent"] now_sun_10 in
  StudentAttendanceRoutes.totalDays r = 1
  /\ student_overall_text r = "0%"
  /\ percentage (StudentAttendanceRoutes.presentDays r)
                (StudentAttendanceRoutes.totalDays r) = 0%Q
  /\ StudentAttendanceRoutes.overallAttendanceRate r = 0%Q.
Proof.
  cbv zeta. repeat split; vm_compute; reflexivity.
Qed.

(** The text can be "0%" although a day is counted present: one present
    day of 201 is 0.4975..., which [toFixed(0)] prints as 0. *)
Lemma overall_rate_text_zero_with_present_day :
  let r := StudentAttendanceRoutes.calculateRates one_present_of_201 now_sun_10 in
  StudentAttendanceRoutes.presentDays r = 1
  /\ StudentAttendanceRoutes.totalDays r = 201
  /\ student_overall_text r = "0%".
Proof.
  cbv zeta. repeat split; vm_compute; reflexivity.
Qed.

(** The rounding of binary64 shows: 23 present days of 40 are 57.5 exactly,
    the binary64 product is 57.49999999999999, printed as "57%". *)
Lemma overall_rate_text_of_rounded_product :
  let r := StudentAttendanceRoutes.calculateRates present_23_of_40 now_sun_10 in
  StudentAttendanceRoutes.presentDays r = 23
  /\ StudentAttendanceRoutes.totalDays r = 40
  /\ (StudentAttendanceRoutes.overallAttendanceRate r == 115 # 2)%Q
  /\ (percentage 23 40 == 8092405580431359 # 140737488355328)%Q
  /\ student_overall_text r = "57%".
Proof.
  cbv zeta. repeat split; vm_compute; reflexivity.
Qed.

(** ** The weekly rate *)

Section WeeklyRate.
Context {rt : JsRuntime}.

Import StudentAttendanceRoutes.

Lemma since_in_student_week (now : Z) (r : StudentAttendance.Row) :
  since (JsDate.minus_7_days now) r = in_student_week now r.
Proof. reflexivity. Qed.

Lemma filter_skip {A : Type} (p : A -> bool) (l1 l2 : list A) (x : A) :
  p x = false -> filter p (l1 ++ x :: l2) = filter p (l1 ++ l2).
Proof.
  intros Hx. rewrite !filter_app. simpl. rewrite Hx. reflexivity.
Qed.

Lemma filter_none {A : Type} (p : A -> bool) (l : list A) :
  (forall x, In x l -> p x = false) -> filter p l = [].
Proof.
  induction l as [| x l IH]; intros H; simpl; [reflexivity |].
  rewrite (H x (or_introl eq_refl)). apply IH.
  intros y Hy. apply H. right. exact Hy.
Qed.

Lemma count_filter {A : Type} (p q : A -> bool) (l : list A) :
  count p (filter q l) = count (fun x => q x && p x) l.
Proof.
  induction l as [| x l IH]; [reflexivity |].
  simpl filter. rewrite count_cons. destruct (q x); simpl.
  - rewrite count_cons, IH. reflexivity.
  - rewrite IH. lia.
Qed.

(** The student rate, as computed: over the records with a valid date not
    earlier than [now - 7 days]. *)
Lemma student_weekly_rate_formula (recs : list StudentAttendance.Row) (now : Z) :
  weeklyAttendanceRate (calculateRates recs now)
  = rate (count (fun r => in_student_week now r && status_is "present" r) recs)
         (count (in_student_week now) recs).
Proof.
  unfold calculateRates. cbn [weeklyAttendanceRate].
  rewrite count_filter. reflexivity.
Qed.

(** C2 (amended).  The weekly window has a lower bound only: no record is
    compared with now.  The staff rate counts only the day records with a
    valid date not earlier than now - 7 days that fall on Monday to Friday
    (and hold an entry for the staff member); the student rate counts only
    the records with a valid date not earlier than now - 7 days.  A record
    earlier than now - 7 days, or for staff dated on a weekend, wherever it
    stands in the record set, does not change the rate, and the rate is 0
    when no record qualifies. *)
Theorem weekly_rate_counts_records_since_a_week_ago :
  forall (now : Z) (staffId : string),
    (forall rows1 r rows2,
        in_staff_week now r = false ->
        StaffAttendanceRoutes.calculateWeeklyAttendanceRate
          (rows1 ++ r :: rows2) staffId now
        = StaffAttendanceRoutes.calculateWeeklyAttendanceRate
            (rows1 ++ rows2) staffId now)
    /\ (forall rows,
           (forall r, In r rows -> in_staff_week now r = false) ->
           StaffAttendanceRoutes.calculateWeeklyAttendanceRate rows staffId now
           = ret 0%Q)
    /\ (forall rows,
           forallb readable rows = true ->
           StaffAttendanceRoutes.calculateWeeklyAttendanceRate rows staffId now
           = ret (rate (count (week_present now staffId) rows)
                       (count (week_recorded now staffId) rows)))
    /\ (forall recs1 r recs2,
           in_student_week now r = false ->
           weeklyAttendanceRate (calculateRates (recs1 ++ r :: recs2) now)
           = weeklyAttendanceRate (calculateRates (recs1 ++ recs2) now))
    /\ (forall recs,
           (forall r, In r recs -> in_student_week now r = false) ->
           weeklyAttendanceRate (calculateRates recs now) = 0%Q).
Proof.
  intros now staffId.
  split; [| split; [| split; [| split]]].
  - intros rows1 r rows2 Hr.
    unfold StaffAttendanceRoutes.calculateWeeklyAttendanceRate.
    rewrite !forEach_app. cbn [StaffAttendanceRoutes.forEach].
    destruct (StaffAttendanceRoutes.forEach _ (0, 0) rows1) as [e | acc];
      cbn [bind]; [reflexivity |].
    rewrite (weekly_step_outside _ _ _ _ Hr). reflexivity.
  - intros rows H.
    unfold StaffAttendanceRoutes.calculateWeeklyAttendanceRate.
    rewrite (forEach_weekly_outside _ _ _ _ H). reflexivity.
  - intros rows H. apply weekly_rate_readable. exact H.
  - intros recs1 r recs2 Hr. unfold calculateRates. cbn [weeklyAttendanceRate].
    rewrite (filter_skip (since (JsDate.minus_7_days now)) recs1 recs2 r Hr).
    reflexivity.
  - intros recs H. unfold calculateRates. cbn [weeklyAttendanceRate].
    rewrite (filter_none (since (JsDate.minus_7_days now)) recs H). reflexivity.
Qed.

End WeeklyRate.

(** C2 (amended): a Saturday record for staff, a record of 2024-03-01 for
    a student, seen from Sunday 2024-03-10. *)
Lemma weekly_rate_counts_records_since_a_week_ago_witness :
  StaffAttendanceRoutes.calculateWeeklyAttendanceRate
    ([staff_row mon_04 "S1" "absent"] ++ staff_row sat_09 "S1" "present" :: [])
    "S1" now_sun_10
  = StaffAttendanceRoutes.calculateWeeklyAttendanceRate
      ([staff_row mon_04 "S1" "absent"] ++ []) "S1" now_sun_10
  /\ StaffAttendanceRoutes.calculateWeeklyAttendanceRate
       [staff_row sat_09 "S1" "present"] "S1" now_sun_10 = ret 0%Q
  /\ StudentAttendanceRoutes.weeklyAttendanceRate
       (StudentAttendanceRoutes.calculateRates
          ([student_row mon_04 "absent"] ++ student_row "2024-03-01" "present" :: [])
          now_sun_10)
     = StudentAttendanceRoutes.weeklyAttendanceRate
         (StudentAttendanceRoutes.calculateRates
            ([student_row mon_04 "absent"] ++ []) now_sun_10)
  /\ StudentAttendanceRoutes.weeklyAttendanceRate
       (StudentAttendanceRoutes.calculateRates
          [student_row "2024-03-01" "present"] now_sun_10) = 0%Q.
Proof.
  pose proof (weekly_rate_counts_records_since_a_week_ago now_sun_10 "S1")
    as (H1 & H2 & _ & H4 & H5).
  split; [apply H1; vm_compute; reflexivity |].
  split.
  { apply H2. intros r [<- | []]. vm_compute. reflexivity. }
  split; [apply H4; vm_compute; reflexivity |].
  apply H5. intros r [<- | []]. vm_compute. reflexivity.
Defined.

(** C2 (counterexample).  With now = Sunday 2024-03-10, a record dated
    Wednesday 2024-03-13, later than now and so outside [now - 7 days, now],
    raises the weekly rate from 0 to 100, in the staff and in the student
    aggregator. *)
Lemma weekly_rate_counts_record_later_than_now :
  (exists t, JsDate.parse_iso_date wed_13 = Some t /\ now_sun_10 < t)
  /\ StaffAttendanceRoutes.calculateWeeklyAttendanceRate [] "S1" now_sun_10 = ret 0%Q
  /\ StaffAttendanceRoutes.calculateWeeklyAttendanceRate
       [staff_row wed_13 "S1" "present"] "S1" now_sun_10 = ret 100%Q
  /\ StudentAttendanceRoutes.weeklyAttendanceRate
       (StudentAttendanceRoutes.calculateRates [] now_sun_10) = 0%Q
  /\ StudentAttendanceRoutes.weeklyAttendanceRate
       (StudentAttendanceRoutes.calculateRates
          [student_row wed_13 "present"] now_sun_10) = 100%Q.
Proof.
  split.
  { exists 1710288000000. split; vm_compute; reflexivity. }
  do 3 (split; [vm_compute; reflexivity |]).
  vm_compute. reflexivity.
Qed.

(** The student aggregator has no week day test: a record dated Saturday
    2024-03-09, inside the seven days before now, raises its rate from 0 to
    100. *)
Lemma student_weekly_rate_counts_saturday :
  (exists t, JsDate.parse_iso_date sat_09 = Some t
             /\ now_sun_10 - 7 * JsDate.msPerDay <= t <= now_sun_10
             /\ JsDate.getDay 0 t = 6)
  /\ StudentAttendanceRoutes.weeklyAttendanceRate
       (StudentAttendanceRoutes.calculateRates
          [student_row sat_09 "present"] now_sun_10) = 100%Q.
Proof.
  split.
  { exists 1709942400000. split; [vm_compute; reflexivity |].
    split; [split; vm_compute; discriminate | vm_compute; reflexivity]. }
  vm_compute. reflexivity.
Qed.

(** ** Marking a student *)

Section StudentMark.
Context {rt : JsRuntime}.

Import StudentAttendanceRoutes.

Lemma single_at_most_one {A : Type} (l : list A) (x : A) :
  (List.length l <= 1)%nat -> In x l -> single l = Some x.
Proof.
  destruct l as [| y [| z l]]; simpl; intros Hl Hx.
  - contradiction.
  - destruct Hx as [-> | []]. reflexivity.
  - lia.
Qed.

Lemma single_none_at_most_one {A : Type} (l : list A) :
  (List.length l <= 1)%nat -> single l = None -> l = [].
Proof.
  destruct l as [| y [| z l]]; simpl; intros Hl H;
    [reflexivity | discriminate | lia].
Qed.

Lemma same_pair_refl (i : Z) (a d st : string) :
  same_pair a d (StudentAttendance.mk i a d st) = true.
Proof. unfold same_pair. simpl. rewrite !String.eqb_refl. reflexivity. Qed.

Lemma same_pair_eq (a d : string) (r : StudentAttendance.Row) :
  same_pair a d r = true ->
  StudentAttendance.admissionNumber r = a /\ StudentAttendance.date r = d.
Proof.
  unfold same_pair. intros H. apply andb_true_iff in H as (Ha & Hd).
  apply String.eqb_eq in Ha, Hd. auto.
Qed.

(** C7. For a student of the directory and non-empty fields, on a table
    with at most one row for the pair (admissionNumber, date): if a row for
    the pair exists, the call answers 400, attendance already marked, and
    the tables are left as they were; if no row exists, the call inserts one
    row and a second call for the pair, with any status, answers 400 and
    changes nothing, so that the table holds exactly one row for the pair
    and has gained exactly one row. *)
Theorem student_mark_rejects_existing_pair :
  forall (db : Db) (a d st st' : string),
    a <> "" -> d <> "" -> st <> "" -> st' <> "" ->
    (exists s,
        single (filter (fun s => String.eqb (Student.admissionNumber s) a) (Students db))
        = Some s) ->
    (List.length (filter (same_pair a d) (StudentAttendances db)) <= 1)%nat ->
    ((exists r, In r (StudentAttendances db) /\ same_pair a d r = true) ->
     postStudentAttendance db (Some a) (Some d) (Some st)
     = (Message 400 "Attendance already marked for this student on this date", db))
    /\ ((forall r, In r (StudentAttendances db) -> same_pair a d r = false) ->
        exists row db1,
          postStudentAttendance db (Some a) (Some d) (Some st)
          = (Body 201 ("Attendance recorded successfully", [row]), db1)
          /\ StudentAttendances db1 = (StudentAttendances db ++ [row])%list
          /\ StudentAttendance.admissionNumber row = a
          /\ StudentAttendance.date row = d
          /\ StudentAttendance.status row = st
          /\ postStudentAttendance db1 (Some a) (Some d) (Some st')
             = (Message 400 "Attendance already marked for this student on this date",
                db1)
          /\ filter (same_pair a d) (StudentAttendances db1) = [row]
          /\ List.length (StudentAttendances db1)
             = S (List.length (StudentAttendances db))).
Proof.
  intros db a d st st' Ha Hd Hst Hst' (s & Hs) Hle.
  split.
  - intros (r & Hin & Hr). unfold postStudentAttendance.
    rewrite !field_truthy_some by assumption. simpl andb. cbv iota.
    rewrite Hs.
    assert (Hf : In r (filter (same_pair a d) (StudentAttendances db)))
      by (apply filter_In; auto).
    rewrite (single_at_most_one _ r Hle Hf). reflexivity.
  - intros Hnone.
    assert (Hf : filter (same_pair a d) (StudentAttendances db) = [])
      by (apply filter_none; exact Hnone).
    set (row := StudentAttendance.mk
                  (fresh_id (map StudentAttendance.id (StudentAttendances db))) a d st).
    exists row, (with_StudentAttendances db (StudentAttendances db ++ [row])%list).
    split.
    { unfold postStudentAttendance.
      rewrite !field_truthy_some by assumption. simpl andb. cbv iota.
      rewrite Hs, Hf. reflexivity. }
    assert (Hf1 : filter (same_pair a d) (StudentAttendances db ++ [row]) = [row]).
    { rewrite filter_app, Hf. simpl. unfold row. rewrite same_pair_refl. reflexivity. }
    repeat (split; [reflexivity |]).
    split.
    { unfold postStudentAttendance.
      rewrite !field_truthy_some by assumption. simpl andb. cbv iota.
      cbn [Students StudentAttendances with_StudentAttendances].
      rewrite Hs, Hf1. reflexivity. }
    split; [exact Hf1 |].
    cbn [StudentAttendances with_StudentAttendances].
    rewrite length_app. simpl. lia.
Qed.

(** Marking keeps the pairs of the table unique. *)
Lemma student_mark_keeps_pairs_unique :
  forall (db : Db) (a d st : option string),
    pairs_unique (StudentAttendances db) ->
    pairs_unique (StudentAttendances (snd (postStudentAttendance db a d st))).
Proof.
  intros db a d st Hu. unfold postStudentAttendance.
  destruct a as [a |], d as [d |], st as [st |]; try exact Hu.
  destruct (field_truthy (Some a) && field_truthy (Some d) && field_truthy (Some st));
    [| exact Hu].
  destruct (single (filter _ (Students db))); [| exact Hu].
  destruct (single (filter (same_pair a d) (StudentAttendances db))) eqn:E;
    [exact Hu |].
  cbn [snd StudentAttendances with_StudentAttendances].
  intros a' d'. rewrite filter_app, length_app. simpl.
  destruct (same_pair a' d' _) eqn:Ep; simpl; [| pose proof (Hu a' d'); lia].
  apply same_pair_eq in Ep as (<- & <-). simpl.
  rewrite (single_none_at_most_one _ (Hu a d) E). simpl. lia.
Qed.

End StudentMark.

(** C7 for the student ADM1, marked twice for 2024-03-04. *)
Lemma student_mark_rejects_existing_pair_witness :
  exists row db1,
    StudentAttendanceRoutes.postStudentAttendance db_one_student
      (Some "ADM1") (Some mon_04) (Some "present")
    = (Body 201 ("Attendance recorded successfully", [row]), db1)
    /\ StudentAttendanceRoutes.postStudentAttendance db1
         (Some "ADM1") (Some mon_04) (Some "absent")
       = (Message 400 "Attendance already marked for this student on this date", db1)
    /\ List.length (StudentAttendances db1) = 1%nat.
Proof.
  destruct (proj2 (student_mark_rejects_existing_pair
                     db_one_student "ADM1" mon_04 "present" "absent"
                     ltac:(discriminate) ltac:(discriminate)
                     ltac:(discriminate) ltac:(discriminate)
                     (ex_intro _ (Student.mk "ADM1" "Ada") eq_refl)
                     ltac:(simpl; lia))
              ltac:(intros r []))
    as (row & db1 & H1 & _ & _ & _ & _ & H2 & _ & H3).
  exists row, db1. split; [exact H1 |]. split; [exact H2 | exact H3].
Defined.

(** ** Marking a staff member *)

Section StaffMark.
Context {rt : JsRuntime}.

Import StaffAttendanceRoutes.

Lemma lookup_set_field_other (k k' : string) (v : JsVal) (fields : list (string * JsVal)) :
  k <> k' -> lookup_field k' (set_field k v fields) = lookup_field k' fields.
Proof.
  intros Hk. induction fields as [| [k0 v0] fields IH]; simpl.
  - destruct (String.eqb k k') eqn:E; [| reflexivity].
    apply String.eqb_eq in E. contradiction.
  - destruct (String.eqb k0 k) eqn:E0; simpl.
    + apply String.eqb_eq in E0. subst k0.
      destruct (String.eqb k k') eqn:E; [| reflexivity].
      apply String.eqb_eq in E. contradiction.
    + destruct (String.eqb k0 k'); [reflexivity | exact IH].
Qed.

Lemma lookup_set_field_same (k : string) (v : JsVal) (fields : list (string * JsVal)) :
  lookup_field k (set_field k v fields) = Some v.
Proof.
  induction fields as [| [k0 v0] fields IH]; simpl.
  - rewrite String.eqb_refl. reflexivity.
  - destruct (String.eqb k0 k) eqn:E0; simpl.
    + rewrite String.eqb_refl. reflexivity.
    + rewrite E0. exact IH.
Qed.

Lemma entry_id_is_set_status (staffId : string) (v e : JsVal) :
  entry_id_is staffId (set_status v e) = entry_id_is staffId e.
Proof.
  destruct e; simpl; try reflexivity.
  rewrite lookup_set_field_other by discriminate. reflexivity.
Qed.

Lemma entry_status_is_set_status (staffId status : string) (e : JsVal) :
  entry_id_is staffId e = true ->
  entry_status_is status (set_status (JStr status) e) = true.
Proof.
  intros He. apply entry_id_is_object in He as (fields & ->). simpl.
  rewrite lookup_set_field_same. simpl. apply String.eqb_refl.
Qed.

Lemma js_findIndex_non_null (staffId status : string) (l : list JsVal) :
  forallb non_null l = true ->
  (i <- js_findIndex (id_is staffId) l ;;
   match i with
   | Some n => ret (update_nth n (set_status (JStr status)) l)
   | None => ret (l ++ [mk_entry staffId status])%list
   end) = ret (merged staffId status l).
Proof.
  induction l as [| e l IH]; [reflexivity |].
  cbn [forallb]. intros H. apply andb_true_iff in H as (He & Hl).
  cbn [js_findIndex merged]. rewrite (id_is_non_null _ _ He). cbn [bind ret].
  destruct (entry_id_is staffId e); [reflexivity |].
  specialize (IH Hl).
  destruct (js_findIndex (id_is staffId) l) as [ex | [n |]];
    cbn [bind ret option_map update_nth] in *;
    [discriminate | |]; injection IH as <-; reflexivity.
Qed.

(** On an array the merge is [merged]. *)
Lemma merge_status_array (staffId status : string) (l : list JsVal) :
  forallb non_null l = true ->
  merge_status (JArr l) staffId status = ret (merged staffId status l).
Proof.
  intros H. unfold merge_status. cbn [truthy as_array bind ret].
  apply js_findIndex_non_null. exact H.
Qed.

(** On a string that is not empty the merge throws: a string has no
    [findIndex]. *)
Lemma merge_status_string (staffId status s : string) :
  s <> "" ->
  merge_status (JStr s) staffId status
  = throw (TypeError "updatedStatuses.findIndex is not a function").
Proof.
  intros Hs. unfold merge_status. simpl truthy.
  destruct (String.eqb s "") eqn:E; [apply String.eqb_eq in E; contradiction |].
  reflexivity.
Qed.

Lemma entry_id_is_functional (a b : string) (e : JsVal) :
  entry_id_is a e = true -> entry_id_is b e = true -> a = b.
Proof.
  destruct e as [| | | | | fields]; simpl; try discriminate.
  destruct (lookup_field "id" fields) as [[| | | t | |] |]; simpl; try discriminate.
  intros Ha Hb. apply String.eqb_eq in Ha, Hb. congruence.
Qed.

(** The entries of the other staff members are left as they were. *)
Lemma merged_frame (staffId other status : string) (l : list JsVal) :
  other <> staffId ->
  filter (entry_id_is other) (merged staffId status l) = filter (entry_id_is other) l.
Proof.
  intros Hne. induction l as [| e l IH]; simpl.
  - destruct (String.eqb staffId other) eqn:E; [| reflexivity].
    apply String.eqb_eq in E. congruence.
  - destruct (entry_id_is staffId e) eqn:He; simpl.
    + rewrite entry_id_is_set_status.
      destruct (entry_id_is other e) eqn:Ho; [| reflexivity].
      exfalso. apply Hne. exact (entry_id_is_functional _ _ _ Ho He).
    + rewrite IH. reflexivity.
Qed.

(** After the merge the first entry of the staff member carries the new
    status, and the staff member has as many entries as before, or one if
    there was none. *)
Lemma merged_entry (staffId status : string) (l : list JsVal) :
  (exists e, find (entry_id_is staffId) (merged staffId status l) = Some e
             /\ entry_status_is status e = true)
  /\ List.length (filter (entry_id_is staffId) (merged staffId status l))
     = Nat.max 1 (List.length (filter (entry_id_is staffId) l)).
Proof.
  induction l as [| e l (IHe & IHn)]; simpl.
  - rewrite String.eqb_refl. simpl. split; [| reflexivity].
    eexists. split; [reflexivity |]. simpl. apply String.eqb_refl.
  - destruct (entry_id_is staffId e) eqn:He; simpl.
    + rewrite entry_id_is_set_status, He. simpl. split; [| lia].
      eexists. split; [reflexivity |].
      apply (entry_status_is_set_status staffId). exact He.
    + rewrite He. split; [exact IHe | exact IHn].
Qed.

(** The merge keeps at most one entry per staff member. *)
Lemma merged_keeps_one_entry_per_staff (staffId status : string) (l : list JsVal) :
  (forall x, (List.length (filter (entry_id_is x) l) <= 1)%nat) ->
  forall x, (List.length (filter (entry_id_is x) (merged staffId status l)) <= 1)%nat.
Proof.
  intros H x. destruct (string_dec x staffId) as [-> | Hne].
  - rewrite (proj2 (merged_entry staffId status l)).
    pose proof (H staffId). lia.
  - rewrite (merged_frame staffId x status l Hne). apply H.
Qed.

(** No day record for the date: one is inserted, holding the JSON text of
    the one-entry array, and the answer is 201. *)
Lemma staff_mark_creates (db : Db) (staffId d st : string) :
  d <> "" -> st <> "" ->
  (forall r, In r (StaffAttendances db) -> String.eqb (StaffAttendance.date r) d = false) ->
  postStaffAttendance db staffId (Some d) (Some st)
  = (Message 201 "New attendance record created successfully.",
     with_StaffAttendances db
       (StaffAttendances db
        ++ [StaffAttendance.mk
              (fresh_id (map StaffAttendance.id (StaffAttendances db))) d
              (JStr (JSON_stringify (JArr [mk_entry staffId st])))])%list).
Proof.
  intros Hd Hst Hnone. unfold postStaffAttendance.
  rewrite !field_truthy_some by assumption. simpl andb. cbv iota.
  rewrite (filter_none _ _ Hnone). reflexivity.
Qed.

(** The day record of the date holds a non-empty string, as every record
    written by this route does: the answer is 500 and nothing is stored. *)
Lemma staff_mark_fails_on_stored_text (db : Db) (staffId d st s : string)
  (existing : StaffAttendance.Row) :
  d <> "" -> st <> "" -> s <> "" ->
  single (filter (fun r => String.eqb (StaffAttendance.date r) d) (StaffAttendances db))
  = Some existing ->
  StaffAttendance.staffStatus existing = JStr s ->
  postStaffAttendance db staffId (Some d) (Some st)
  = (Failure 500 "Error updating attendance status"
       (TypeError "updatedStatuses.findIndex is not a function"), db).
Proof.
  intros Hd Hst Hs He Hv. unfold postStaffAttendance.
  rewrite !field_truthy_some by assumption. simpl andb. cbv iota.
  rewrite He, Hv, (merge_status_string _ _ _ Hs). reflexivity.
Qed.

(** The day record of the date holds an array without [null]: the answer
    is 200 and the record receives the JSON text of the merged array. *)
Lemma staff_mark_merges_into_array (db : Db) (staffId d st : string)
  (existing : StaffAttendance.Row) (l : list JsVal) :
  d <> "" -> st <> "" ->
  single (filter (fun r => String.eqb (StaffAttendance.date r) d) (StaffAttendances db))
  = Some existing ->
  StaffAttendance.staffStatus existing = JArr l ->
  forallb non_null l = true ->
  postStaffAttendance db staffId (Some d) (Some st)
  = (Message 200 "Attendance status updated successfully.",
     with_StaffAttendances db
       (update_day (StaffAttendance.id existing)
          (JStr (JSON_stringify (JArr (merged staffId st l))))
          (StaffAttendances db))).
Proof.
  intros Hd Hst He Hv Hl. unfold postStaffAttendance.
  rewrite !field_truthy_some by assumption. simpl andb. cbv iota.
  rewrite He, Hv, (merge_status_array _ _ _ Hl). reflexivity.
Qed.

Lemma update_day_dates (d : string) (i : Z) (v : JsVal) (rows : list StaffAttendance.Row) :
  List.length (filter (fun r => String.eqb (StaffAttendance.date r) d) (update_day i v rows))
  = List.length (filter (fun r => String.eqb (StaffAttendance.date r) d) rows).
Proof.
  induction rows as [| r rows IH]; [reflexivity |].
  cbn [update_day map filter].
  destruct (StaffAttendance.id r =? i); cbn [StaffAttendance.date];
    destruct (String.eqb (StaffAttendance.date r) d); cbn [List.length];
    fold (update_day i v rows); rewrite ?IH; reflexivity.
Qed.

(** Marking keeps the dates of the table unique. *)
Lemma staff_mark_keeps_dates_unique :
  forall (db : Db) (staffId : string) (date status : option string),
    dates_unique (StaffAttendances db) ->
    dates_unique (StaffAttendances (snd (postStaffAttendance db staffId date status))).
Proof.
  intros db staffId date status Hu. unfold postStaffAttendance.
  destruct date as [d |], status as [st |]; try exact Hu.
  destruct (field_truthy (Some d) && field_truthy (Some st)); [| exact Hu].
  destruct (single (filter _ (StaffAttendances db))) as [existing |] eqn:E.
  - destruct (merge_status _ staffId st); [exact Hu |].
    cbn [snd StaffAttendances with_StaffAttendances].
    intros d'. rewrite update_day_dates. apply Hu.
  - cbn [snd StaffAttendances with_StaffAttendances].
    intros d'. unfold insert_day. rewrite filter_app, length_app.
    cbn [filter StaffAttendance.date].
    destruct (String.eqb d d') eqn:Ed; cbn [List.length];
      [| pose proof (Hu d'); lia].
    apply String.eqb_eq in Ed. subst d'.
    assert (H0 : filter (fun r => String.eqb (StaffAttendance.date r) d)
                   (StaffAttendances db) = []).
    { pose proof (Hu d) as Hd.
      destruct (filter (fun r => String.eqb (StaffAttendance.date r) d)
                  (StaffAttendances db)) as [| y [| z l]];
        [reflexivity | discriminate | simpl in Hd; lia]. }
    rewrite H0. simpl. lia.
Qed.

(** A day record created by this route cannot be updated by it: once the
    record of a date is created, every later mark for that date, for any
    staff member, answers 500 and stores nothing. *)
Lemma staff_mark_after_create_fails (db : Db) (staffId other d st st' : string) :
  d <> "" -> st <> "" -> st' <> "" ->
  JSON_stringify (JArr [mk_entry staffId st]) <> "" ->
  (forall r, In r (StaffAttendances db) -> String.eqb (StaffAttendance.date r) d = false) ->
  let db1 := snd (postStaffAttendance db staffId (Some d) (Some st)) in
  postStaffAttendance db1 other (Some d) (Some st')
  = (Failure 500 "Error updating attendance status"
       (TypeError "updatedStatuses.findIndex is not a function"), db1).
Proof.
  intros Hd Hst Hst' Htext Hnone db1. subst db1.
  rewrite (staff_mark_creates db staffId d st Hd Hst Hnone). cbn [snd].
  eapply staff_mark_fails_on_stored_text; try eassumption.
  - cbn [StaffAttendances with_StaffAttendances].
    rewrite filter_app, (filter_none _ _ Hnone).
    cbn [filter StaffAttendance.date]. rewrite String.eqb_refl. reflexivity.
  - reflexivity.
Qed.

End StaffMark.

(** C4. On the empty table, marking S1 present on 2024-03-04 answers 201
    and stores one day record whose statuses are the one entry of S1.  The
    next mark for that date, S2 absent, finds the day record, yet it is not
    merged and the answer is not the 200 of an update: the stored statuses
    are a string, the merge calls [findIndex] on it, and the route answers
    500 and leaves the record as it was. *)
Theorem staff_mark_on_created_day_answers_500 :
  let first := mark_again "S1" mon_04 "present" emptyDb in
  let second := mark_again "S2" mon_04 "absent" (snd first) in
  fst first = Message 201 "New attendance record created successfully."
  /\ map statuses (StaffAttendances (snd first)) = [[mk_entry "S1" "present"]]
  /\ map StaffAttendance.date (StaffAttendances (snd first)) = [mon_04]
  /\ fst second
     = Failure 500 "Error updating attendance status"
         (TypeError "updatedStatuses.findIndex is not a function")
  /\ snd second = snd first.
Proof.
  repeat split; vm_compute; reflexivity.
Qed.

(** C5. The day record of 2024-03-04 exists, created by marking S2.
    Marking S1 present twice in a row answers 500 both times and leaves the
    day record without any entry for S1, where one entry with value present
    is due. *)
Theorem staff_mark_twice_leaves_no_entry :
  let db1 := mark_staff "S2" mon_04 "absent" emptyDb in
  let first := mark_again "S1" mon_04 "present" db1 in
  let second := mark_again "S1" mon_04 "present" (snd first) in
  fst first
  = Failure 500 "Error updating attendance status"
      (TypeError "updatedStatuses.findIndex is not a function")
  /\ fst second = fst first
  /\ snd second = db1
  /\ map (entries_for "S1") (StaffAttendances (snd second)) = [[]]
  /\ map statuses (StaffAttendances (snd second)) = [[mk_entry "S2" "absent"]].
Proof.
  repeat split; vm_compute; reflexivity.
Qed.

(** C6. The day record of 2024-03-04 holds the entry of S1, stored by the
    route.  Marking S2 absent for that date leaves the entry of S1 as it
    was, but adds no entry for S2: the answer is 500.  The same request on
    a day record whose statuses are stored as an array is merged: S1 is kept
    and S2 is added. *)
Theorem staff_mark_for_second_staff_adds_no_entry :
  let db1 := mark_staff "S1" mon_04 "present" emptyDb in
  let second := mark_again "S2" mon_04 "absent" db1 in
  let stored_as_array := db_with_status (JArr [mk_entry "S1" "present"]) in
  map (entries_for "S1") (StaffAttendances (snd second)) = [[mk_entry "S1" "present"]]
  /\ map (entries_for "S2") (StaffAttendances (snd second)) = [[]]
  /\ (exists e, fst second = Failure 500 "Error updating attendance status" e)
  /\ fst (mark_again "S2" mon_04 "absent" stored_as_array)
     = Message 200 "Attendance status updated successfully."
  /\ map statuses
       (StaffAttendances (snd (mark_again "S2" mon_04 "absent" stored_as_array)))
     = [[mk_entry "S1" "present"; mk_entry "S2" "absent"]].
Proof.
  split; [vm_compute; reflexivity |].
  split; [vm_compute; reflexivity |].
  split; [eexists; vm_compute; reflexivity |].
  split; vm_compute; reflexivity.
Qed.

(** ** The list of all staff attendance days *)

Section AllStaffAttendanceFacts.
Context {rt : JsRuntime}.

Import StaffAttendanceRoutes.

Lemma js_map_returns {A B : Type} (f : A -> Throws B) (l : list A) (l' : list B) :
  js_map f l = inr l' <-> Forall2 (fun x y => f x = inr y) l l'.
Proof.
  revert l'. induction l as [| x l IH]; intros l'; simpl.
  - split.
    + intros H. injection H as <-. constructor.
    + intros H. inversion H. reflexivity.
  - rewrite bind_inr. split.
    + intros (y & Hy & H). apply bind_inr in H as (ys & Hys & H).
      injection H as <-. constructor; [exact Hy | apply IH; exact Hys].
    + intros H. inversion H as [| x0 y l0 ys Hy Hys]; subst.
      exists y. split; [exact Hy |]. apply bind_inr.
      exists ys. split; [apply IH; exact Hys | reflexivity].
Qed.

Lemma js_map_throws {A B : Type} (f : A -> Throws B) (l : list A) :
  (exists e, js_map f l = inl e) <-> exists x, In x l /\ exists e, f x = inl e.
Proof.
  induction l as [| x l IH]; simpl.
  - split; [intros (e & H); discriminate | intros (x & [] & _)].
  - destruct (f x) as [e | y] eqn:Hx; simpl.
    + split; [intros _; exists x; eauto | intros _; eauto].
    + destruct (js_map f l) as [e | ys]; simpl.
      * split; [| intros _; eauto].
        intros _. destruct (proj1 IH (ex_intro _ e eq_refl)) as (x' & Hin & He).
        exists x'. auto.
      * split; [intros (e & H); discriminate |].
        intros (x' & [<- | Hin] & (e & He)); [congruence |].
        destruct (proj2 IH (ex_intro _ x' (conj Hin (ex_intro _ e He)))) as (e' & H).
        discriminate.
Qed.

Lemma find_staff_ok (allStaff : list Staff.Row) (e : JsVal) :
  entry_ok allStaff e = true ->
  find_staff allStaff e = ret (staff_of_entry allStaff e).
Proof.
  destruct allStaff as [| s0 rest]; [reflexivity |].
  cbn [entry_ok]. intros He. unfold staff_of_entry.
  generalize (s0 :: rest) as l. intros l.
  induction l as [| s l IH]; [reflexivity |].
  cbn [find_staff find].
  destruct e; try discriminate; cbn [get_prop bind ret entry_id_is strict_eq_str];
    try exact IH.
  destruct (strict_eq_str (lookup_field "id" fields) (Staff.staffId s));
    [reflexivity | exact IH].
Qed.

Lemma find_staff_null (s : Staff.Row) (rest : list Staff.Row) :
  find_staff (s :: rest) JNull = throw (TypeError "Cannot read properties of null").
Proof. reflexivity. Qed.

Lemma detail_entry_returns (allStaff : list Staff.Row) (e e' : JsVal) :
  detail_entry allStaff e = inr e' <->
  entry_ok allStaff e = true
  /\ e' = JObj (set_field "staffDetails"
                  (details_or_null (staff_of_entry allStaff e)) (spread e)).
Proof.
  unfold detail_entry. destruct (entry_ok allStaff e) eqn:Hok.
  - rewrite (find_staff_ok _ _ Hok). cbn [bind ret]. split.
    + intros H. injection H as <-. auto.
    + intros (_ & ->). reflexivity.
  - destruct allStaff as [| s rest]; [discriminate |].
    destruct e; try discriminate. rewrite find_staff_null. cbn [bind throw].
    split; [discriminate | intros (H & _); discriminate].
Qed.

Lemma detail_entry_detailed (allStaff : list Staff.Row) (e e' : JsVal) :
  detail_entry allStaff e = inr e' -> detailed allStaff e e'.
Proof.
  intros H. apply detail_entry_returns in H as (_ & ->).
  eexists. split; [reflexivity |]. split.
  - apply lookup_set_field_same.
  - intros k Hk. apply lookup_set_field_other. congruence.
Qed.

Lemma Forall2_forallb_l {A B : Type} (p : A -> bool) (R : A -> B -> Prop)
  (l : list A) (l' : list B) :
  (forall x y, R x y -> p x = true) -> Forall2 R l l' -> forallb p l = true.
Proof.
  intros H. induction 1 as [| x y l l' Hxy _ IH]; [reflexivity |].
  simpl. rewrite (H x y Hxy), IH. reflexivity.
Qed.

Lemma detail_record_returns (allStaff : list Staff.Row)
  (record record' : StaffAttendance.Row) :
  detail_record allStaff record = inr record' ->
  expandable allStaff record = true
  /\ StaffAttendance.id record' = StaffAttendance.id record
  /\ StaffAttendance.date record' = StaffAttendance.date record
  /\ exists l', StaffAttendance.staffStatus record' = JArr l'
                /\ Forall2 (detailed allStaff) (statuses record) l'.
Proof.
  unfold detail_record, expandable, statuses.
  destruct (parse_if_string (StaffAttendance.staffStatus record)) as [| | | | l |];
    cbn [as_array bind throw ret]; try discriminate.
  intros H. apply bind_inr in H as (l' & Hl' & H). injection H as <-.
  apply js_map_returns in Hl'. cbn.
  split.
  { apply (Forall2_forallb_l _ _ _ _ (fun x y Hxy =>
             proj1 (proj1 (detail_entry_returns allStaff x y) Hxy)) Hl'). }
  split; [reflexivity |]. split; [reflexivity |].
  exists l'. split; [reflexivity |].
  eapply Forall2_impl; [| exact Hl'].
  intros a b. apply detail_entry_detailed.
Qed.

Lemma detail_record_expandable (allStaff : list Staff.Row) (record : StaffAttendance.Row) :
  expandable allStaff record = true ->
  exists record', detail_record allStaff record = inr record'.
Proof.
  unfold detail_record, expandable.
  destruct (parse_if_string (StaffAttendance.staffStatus record)) as [| | | | l |];
    try discriminate.
  intros Hl. cbn [as_array bind ret].
  assert (H : exists l', js_map (detail_entry allStaff) l = inr l').
  { induction l as [| e l IH]; [eexists; reflexivity |].
    cbn [forallb] in Hl. apply andb_true_iff in Hl as (He & Hl).
    destruct (IH Hl) as (l' & Hl'). cbn [js_map].
    rewrite (proj2 (detail_entry_returns allStaff e _) (conj He eq_refl)).
    cbn [bind ret]. rewrite Hl'. eexists. reflexivity. }
  destruct H as (l' & ->). eexists. reflexivity.
Qed.

Lemma js_map_detail_records (allStaff : list Staff.Row) (rows : list StaffAttendance.Row) :
  (exists result, js_map (detail_record allStaff) rows = inr result)
  <-> forallb (expandable allStaff) rows = true.
Proof.
  split.
  - intros (result & H). apply js_map_returns in H.
    apply (Forall2_forallb_l _ _ _ _ (fun x y Hxy =>
             proj1 (detail_record_returns allStaff x y Hxy)) H).
  - induction rows as [| r rows IH]; [intros _; eexists; reflexivity |].
    cbn [forallb]. intros H. apply andb_true_iff in H as (Hr & Hrows).
    destruct (detail_record_expandable _ _ Hr) as (r' & Hr').
    destruct (IH Hrows) as (rs & Hrs).
    cbn [js_map]. rewrite Hr'. cbn [bind]. rewrite Hrs. eexists. reflexivity.
Qed.

(** X1. The list of all staff attendance days answers 404 exactly when
    the table is empty.  Without expand=staff a table that is not empty is
    returned as it is stored, whatever the statuses hold.  With expand=staff
    the answer is 500 exactly when the table is not empty and some day
    record cannot be expanded: its statuses are not an array (nor a string
    that reads as one), or Staffs is not empty and an entry is [null]. *)
Theorem all_staff_attendance_outcomes :
  forall (db : Db) (expand : option string),
    ((exists m, getAllStaffAttendance db expand = Message 404 m)
     <-> StaffAttendances db = [])
    /\ (expand <> Some "staff" -> StaffAttendances db <> [] ->
        getAllStaffAttendance db expand = Body 200 (StaffAttendances db))
    /\ ((exists m e, getAllStaffAttendance db (Some "staff") = Failure 500 m e)
        <-> StaffAttendances db <> []
            /\ forallb (expandable (Staffs db)) (StaffAttendances db) = false).
Proof.
  intros db expand. unfold getAllStaffAttendance.
  destruct (StaffAttendances db) as [| r rows] eqn:E.
  - split; [split; [reflexivity | intros _; eexists; reflexivity] |].
    split; [congruence |].
    split; [intros (m & e & H); discriminate | intros (H & _); congruence].
  - split.
    { split; [| discriminate]. intros (m & H).
      destruct (strict_eq_str (option_map JStr expand) "staff"); [| discriminate].
      destruct (js_map _ _); discriminate. }
    split.
    { intros Hexp _.
      destruct (strict_eq_str (option_map JStr expand) "staff") eqn:Hs; [| reflexivity].
      exfalso. apply Hexp. destruct expand as [x |]; [| discriminate].
      simpl in Hs. apply String.eqb_eq in Hs. congruence. }
    cbn [option_map strict_eq_str]. rewrite String.eqb_refl.
    pose proof (js_map_detail_records (Staffs db) (r :: rows)) as Hiff.
    destruct (js_map (detail_record (Staffs db)) (r :: rows)) as [e | result].
    + split; [| intros _; eauto].
      intros _. split; [discriminate |].
      destruct (forallb (expandable (Staffs db)) (r :: rows)); [| reflexivity].
      destruct (proj2 Hiff eq_refl) as (x & Hx). discriminate.
    + split; [intros (m & e & H); discriminate |].
      intros (_ & H). rewrite (proj1 Hiff (ex_intro _ result eq_refl)) in H.
      discriminate.
Qed.

(** X2. With expand=staff, on a table that is not empty and whose day
    records can all be expanded, the answer is 200 with one record per day
    record, in the order of the table, with the same id and date; its
    statuses hold one entry per original entry, in order, and each of them
    has every property of the original entry other than staffDetails, and as
    staffDetails the first row of Staffs whose staffId is the id of the
    entry, or [null] when there is none. *)
Theorem all_staff_attendance_expanded :
  forall (db : Db),
    StaffAttendances db <> [] ->
    forallb (expandable (Staffs db)) (StaffAttendances db) = true ->
    exists result,
      getAllStaffAttendance db (Some "staff") = Body 200 result
      /\ Forall2
           (fun r r' =>
              StaffAttendance.id r' = StaffAttendance.id r
              /\ StaffAttendance.date r' = StaffAttendance.date r
              /\ exists l', StaffAttendance.staffStatus r' = JArr l'
                            /\ Forall2 (detailed (Staffs db)) (statuses r) l')
           (StaffAttendances db) result.
Proof.
  intros db Hne Hexp. unfold getAllStaffAttendance.
  destruct (StaffAttendances db) as [| r rows] eqn:E; [congruence |].
  cbn [option_map strict_eq_str]. rewrite String.eqb_refl.
  destruct (proj2 (js_map_detail_records (Staffs db) (r :: rows)) Hexp)
    as (result & Hres).
  rewrite Hres. exists result. split; [reflexivity |].
  apply js_map_returns in Hres.
  eapply Forall2_impl; [| exact Hres].
  intros a b Hab. apply detail_record_returns in Hab as (_ & H). exact H.
Qed.

End AllStaffAttendanceFacts.

(** ** More on the staff summary *)

Lemma rate_bounds (p t : Z) :
  0 <= p <= t -> (0 <= rate p t)%Q /\ (rate p t <= 100)%Q.
Proof.
  intros Hpt. unfold rate. destruct (0 <? t) eqn:E.
  - destruct t as [| t' | t']; try discriminate.
    unfold Qle, Qdiv, Qmult, Qinv, inject_Z; simpl. split; nia.
  - split; unfold Qle; simpl; lia.
Qed.

Lemma count_le_impl {A : Type} (p q : A -> bool) (l : list A) :
  (forall x, In x l -> p x = true -> q x = true) -> count p l <= count q l.
Proof.
  induction l as [| x l IH]; intros H; [unfold count; simpl; lia |].
  rewrite !count_cons.
  assert (IH' : count p l <= count q l)
    by (apply IH; intros y Hy; apply H; right; exact Hy).
  destruct (p x) eqn:Hp.
  - rewrite (H x (or_introl eq_refl) Hp). lia.
  - destruct (q x); lia.
Qed.

Lemma count_Permutation {A : Type} (p : A -> bool) (l l' : list A) :
  Permutation l l' -> count p l = count p l'.
Proof.
  induction 1 as [| x l l' _ IH | x y l | l l' l'' _ IH1 _ IH2].
  - reflexivity.
  - rewrite !count_cons, IH. reflexivity.
  - rewrite !count_cons. lia.
  - congruence.
Qed.

Section StaffSummaryFacts.
Context {rt : JsRuntime}.

Import StaffAttendanceRoutes.

Lemma week_present_recorded (now : Z) (staffId : string) (r : StaffAttendance.Row) :
  week_present now staffId r = true -> week_recorded now staffId r = true.
Proof.
  unfold week_present, week_recorded. intros H.
  apply andb_true_iff in H as (Hw & Hp). rewrite Hw. simpl.
  destruct (has_entry staffId r) eqn:He; [reflexivity |].
  rewrite (marked_present_needs_entry _ _ He) in Hp. discriminate.
Qed.

(** X3. The staff summary query answers 500 exactly when the table is
    not empty and either some day record is not readable (then for every
    staffId and with or without expand), or expand=staff is asked and Staffs
    does not hold exactly one row with the staffId.  It answers 200 exactly
    when the table is not empty, every day record is readable and, if
    expand=staff is asked, Staffs holds exactly one such row. *)
Theorem staff_summary_outcomes :
  forall (db : Db) (staffId : string) (expand : option string) (now : Z),
    let member := fun r => String.eqb (Staff.staffId r) staffId in
    ((exists m e, getStaffAttendance db staffId expand now = Failure 500 m e)
     <-> StaffAttendances db <> []
         /\ (forallb readable (StaffAttendances db) = false
             \/ (expand = Some "staff"
                 /\ single (filter member (Staffs db)) = None)))
    /\ ((exists s, getStaffAttendance db staffId expand now = Body 200 s)
        <-> StaffAttendances db <> []
            /\ forallb readable (StaffAttendances db) = true
            /\ (expand = Some "staff" ->
                exists d, single (filter member (Staffs db)) = Some d)).
Proof.
  intros db staffId expand now member. unfold getStaffAttendance.
  destruct (StaffAttendances db) as [| r rows] eqn:E.
  { split; split; try (intros (H & _); congruence).
    - intros (m & e & H). discriminate.
    - intros (s & H). discriminate. }
  pose proof (summarise_returns_iff (r :: rows) staffId now) as Hiff.
  assert (Hexp : strict_eq_str (option_map JStr expand) "staff" = true
                 <-> expand = Some "staff").
  { destruct expand as [x |]; simpl; [| split; discriminate].
    rewrite String.eqb_eq. split; congruence. }
  destruct (summarise (r :: rows) staffId now) as [e | s].
  - assert (Hr : forallb readable (r :: rows) = false).
    { destruct (forallb readable (r :: rows)); [| reflexivity].
      destruct (proj2 Hiff eq_refl) as (s & Hs). discriminate. }
    split; split.
    + intros _. split; [discriminate | left; exact Hr].
    + intros _. eauto.
    + intros (s & H). discriminate.
    + intros (_ & H & _). congruence.
  - assert (Hr : forallb readable (r :: rows) = true)
      by (apply Hiff; eauto).
    destruct (strict_eq_str (option_map JStr expand) "staff") eqn:Hs.
    + assert (He : expand = Some "staff") by (apply Hexp; reflexivity).
      fold member.
      destruct (single (filter member (Staffs db))) as [d |] eqn:Hd.
      * split; split.
        -- intros (m & e & H). discriminate.
        -- intros (_ & [H | (_ & H)]); congruence.
        -- intros _. split; [discriminate |]. split; [exact Hr | eauto].
        -- intros _. eauto.
      * split; split.
        -- intros _. split; [discriminate | right; auto].
        -- intros _. eauto.
        -- intros (s' & H). discriminate.
        -- intros (_ & _ & H). destruct (H He) as (d & Hd'). discriminate.
    + assert (He : expand <> Some "staff").
      { intros H. apply Hexp in H. congruence. }
      split; split.
      * intros (m & e & H). discriminate.
      * intros (_ & [H | (H & _)]); congruence.
      * intros _. split; [discriminate |]. split; [exact Hr |].
        intros H. contradiction.
      * intros _. eauto.
Qed.

(** X4. Whenever the figures of the staff summary are computed,
    0 <= daysPresent <= totalDays, daysAbsent is not negative and
    daysPresent + daysAbsent = totalDays, both rates lie between 0 and 100,
    and the attendance list has one day per day record, with the dates of
    the table in the order of the table, each day holding only entries of
    the staff member asked for. *)
Theorem staff_summary_figures_bounded :
  forall (rows : list StaffAttendance.Row) (staffId : string) (now : Z) (s : Summary),
    summarise rows staffId now = inr s ->
    0 <= daysPresent s <= totalDays s
    /\ 0 <= daysAbsent s
    /\ daysPresent s + daysAbsent s = totalDays s
    /\ (0 <= weeklyAttendanceRate s)%Q /\ (weeklyAttendanceRate s <= 100)%Q
    /\ (0 <= overallAttendanceRate s)%Q /\ (overallAttendanceRate s <= 100)%Q
    /\ map date (attendance s) = map StaffAttendance.date rows
    /\ Forall (fun day => forallb (entry_id_is staffId) (staffStatus day) = true)
         (attendance s).
Proof.
  intros rows staffId now s Hs.
  assert (Hread : forallb readable rows = true)
    by (apply (summarise_returns_iff rows staffId now); eauto).
  rewrite (summarise_readable _ staffId now Hread) in Hs.
  injection Hs as <-. cbn.
  pose proof (count_nonneg (marked_present staffId) rows) as H0.
  pose proof (count_le_length (marked_present staffId) rows) as H1.
  pose proof (count_nonneg (week_present now staffId) rows) as H2.
  assert (H3 : count (week_present now staffId) rows
               <= count (week_recorded now staffId) rows).
  { apply count_le_impl. intros x _. apply week_present_recorded. }
  destruct (rate_bounds _ _ (conj H2 H3)) as (Hw0 & Hw1).
  destruct (rate_bounds _ _ (conj H0 H1)) as (Ho0 & Ho1).
  repeat (split; [first [assumption | lia] |]).
  split.
  - rewrite map_map. reflexivity.
  - apply Forall_forall. intros day Hday. apply in_map_iff in Hday as (r & <- & _).
    cbn. unfold entries_for. apply forallb_forall. intros e He.
    apply filter_In in He as (_ & He). exact He.
Qed.

(** X5. When the staff summary query answers 200 with expand=staff, it
    also answers 200 without expand, and the two summaries carry the same
    figures and the same attendance list; the expanded one has the staff row
    of the staffId as staffDetails and rates to be shown without decimals,
    the plain one no staffDetails and rates with two decimals. *)
Theorem staff_summary_expand_keeps_figures :
  forall (db : Db) (staffId : string) (now : Z) (s : Summary),
    getStaffAttendance db staffId (Some "staff") now = Body 200 s ->
    exists s0 d,
      getStaffAttendance db staffId None now = Body 200 s0
      /\ staffDetails s0 = None /\ decimals s0 = 2
      /\ staffDetails s = Some d /\ Staff.staffId d = staffId /\ decimals s = 0
      /\ totalDays s = totalDays s0
      /\ daysPresent s = daysPresent s0
      /\ daysAbsent s = daysAbsent s0
      /\ weeklyAttendanceRate s = weeklyAttendanceRate s0
      /\ overallAttendanceRate s = overallAttendanceRate s0
      /\ attendance s = attendance s0.
Proof.
  intros db staffId now s. unfold getStaffAttendance.
  destruct (StaffAttendances db) as [| r rows] eqn:E; [discriminate |].
  pose proof (summarise_returns_iff (r :: rows) staffId now) as Hiff.
  destruct (summarise (r :: rows) staffId now) as [e | s0] eqn:Hs0; [discriminate |].
  cbn [option_map strict_eq_str]. rewrite String.eqb_refl.
  destruct (single _) as [d |] eqn:Hd; [| discriminate].
  intros H. injection H as <-.
  exists s0, d.
  assert (Hread : forallb readable (r :: rows) = true) by (apply Hiff; eauto).
  clear Hiff.
  rewrite (summarise_readable _ staffId now Hread) in Hs0. injection Hs0 as <-.
  cbn [staffDetails decimals totalDays daysPresent daysAbsent
       weeklyAttendanceRate overallAttendanceRate attendance].
  do 4 (split; [reflexivity |]). split.
  - destruct (filter _ (Staffs db)) as [| x [| y l]] eqn:Hf; try discriminate.
    injection Hd as <-.
    assert (Hin : In x (filter (fun r0 => String.eqb (Staff.staffId r0) staffId)
                          (Staffs db))) by (rewrite Hf; left; reflexivity).
    apply filter_In in Hin as (_ & Hx). apply String.eqb_eq in Hx. exact Hx.
  - repeat (split; [reflexivity |]). reflexivity.
Qed.

(** X6. The figures of the staff summary do not depend on the order in
    which the store returns the day records: on a permutation of a record
    set for which the summary is computed, it is computed too, with the same
    totalDays, daysPresent, daysAbsent and rates. *)
Theorem staff_summary_ignores_record_order :
  forall (rows rows' : list StaffAttendance.Row) (staffId : string) (now : Z)
         (s : Summary),
    Permutation rows rows' ->
    summarise rows staffId now = inr s ->
    exists s',
      summarise rows' staffId now = inr s'
      /\ totalDays s' = totalDays s
      /\ daysPresent s' = daysPresent s
      /\ daysAbsent s' = daysAbsent s
      /\ weeklyAttendanceRate s' = weeklyAttendanceRate s
      /\ overallAttendanceRate s' = overallAttendanceRate s.
Proof.
  intros rows rows' staffId now s Hp Hs.
  assert (Hread : forallb readable rows = true)
    by (apply (summarise_returns_iff rows staffId now); eauto).
  assert (Hread' : forallb readable rows' = true).
  { apply forallb_forall. intros x Hx.
    apply (proj1 (forallb_forall _ _) Hread).
    apply (Permutation_in _ (Permutation_sym Hp) Hx). }
  rewrite (summarise_readable _ staffId now Hread) in Hs. injection Hs as <-.
  rewrite (summarise_readable _ staffId now Hread').
  eexists. split; [reflexivity |]. cbn.
  rewrite <- (Permutation_length Hp).
  rewrite <- (count_Permutation (marked_present staffId) _ _ Hp).
  rewrite <- (count_Permutation (week_present now staffId) _ _ Hp).
  rewrite <- (count_Permutation (week_recorded now staffId) _ _ Hp).
  repeat split; reflexivity.
Qed.

End StaffSummaryFacts.

(** ** More on marking a staff member *)

Section StaffMarkFacts.
Context {rt : JsRuntime}.

Import StaffAttendanceRoutes.

Lemma update_day_ids (i : Z) (v : JsVal) (rows : list StaffAttendance.Row) :
  map StaffAttendance.id (update_day i v rows) = map StaffAttendance.id rows.
Proof.
  unfold update_day. rewrite map_map. apply map_ext.
  intros r. destruct (StaffAttendance.id r =? i); reflexivity.
Qed.

Lemma update_day_date_list (i : Z) (v : JsVal) (rows : list StaffAttendance.Row) :
  map StaffAttendance.date (update_day i v rows) = map StaffAttendance.date rows.
Proof.
  unfold update_day. rewrite map_map. apply map_ext.
  intros r. destruct (StaffAttendance.id r =? i); reflexivity.
Qed.

Lemma single_in {A : Type} (l : list A) (x : A) : single l = Some x -> l = [x].
Proof.
  destruct l as [| y [| z l]]; simpl; intros H; try discriminate.
  injection H as ->. reflexivity.
Qed.

(** X7. Marking a staff member never writes Staffs, Students or
    StudentAttendances and never removes a day record.  Either the answer
    is 400 or 500 and the store is unchanged; or it is 201 and one day
    record, with the date of the request, is added after the others; or it
    is 200 and the table keeps its ids and dates, record by record. *)
Theorem staff_mark_frame :
  forall (db : Db) (staffId : string) (date status : option string),
    let out := postStaffAttendance db staffId date status in
    same_other_tables db (snd out)
    /\ (((exists m, fst out = Message 400 m) \/ (exists m e, fst out = Failure 500 m e))
        /\ snd out = db
        \/ (exists m row,
               fst out = Message 201 m
               /\ StaffAttendances (snd out) = (StaffAttendances db ++ [row])%list
               /\ Some (StaffAttendance.date row) = date)
        \/ (exists m,
               fst out = Message 200 m
               /\ map StaffAttendance.id (StaffAttendances (snd out))
                  = map StaffAttendance.id (StaffAttendances db)
               /\ map StaffAttendance.date (StaffAttendances (snd out))
                  = map StaffAttendance.date (StaffAttendances db))).
Proof.
  intros db staffId date status out. subst out. unfold postStaffAttendance.
  assert (Hsame : same_other_tables db db) by (repeat split).
  destruct date as [d |], status as [st |];
    try (split; [exact Hsame | left; split; [left; eexists; reflexivity | reflexivity]]).
  destruct (field_truthy (Some d) && field_truthy (Some st));
    [| split; [exact Hsame | left; split; [left; eexists; reflexivity | reflexivity]]].
  destruct (single _) as [existing |].
  - destruct (merge_status _ staffId st) as [e | l'].
    + split; [exact Hsame |]. left.
      split; [right; eexists; eexists; reflexivity | reflexivity].
    + split; [repeat split |]. right. right. eexists.
      split; [reflexivity |].
      cbn [snd StaffAttendances with_StaffAttendances].
      rewrite update_day_ids, update_day_date_list. auto.
  - split; [repeat split |]. right. left. eexists. eexists.
    split; [reflexivity |]. split; reflexivity.
Qed.

Lemma unique_id_row (rows : list StaffAttendance.Row) (x r : StaffAttendance.Row) :
  NoDup (map StaffAttendance.id rows) -> In x rows -> In r rows ->
  StaffAttendance.id r = StaffAttendance.id x -> r = x.
Proof.
  induction rows as [| y rows IH]; intros Hnd Hx Hr Hid; [contradiction |].
  cbn [map] in Hnd. inversion Hnd as [| i l Hnotin Hnd']; subst.
  destruct Hx as [-> | Hx], Hr as [-> | Hr].
  - reflexivity.
  - exfalso. apply Hnotin. rewrite <- Hid. apply in_map. exact Hr.
  - exfalso. apply Hnotin. rewrite Hid. apply in_map. exact Hx.
  - apply IH; assumption.
Qed.

(** X8. On a table whose ids are distinct, a mark for a date leaves every
    day record of another date as it was, in its place: the records whose
    date is not the date of the request are the same list before and
    after. *)
Theorem staff_mark_leaves_other_days :
  forall (db : Db) (staffId d : string) (status : option string),
    NoDup (map StaffAttendance.id (StaffAttendances db)) ->
    let other := fun r => negb (String.eqb (StaffAttendance.date r) d) in
    filter other
      (StaffAttendances (snd (postStaffAttendance db staffId (Some d) status)))
    = filter other (StaffAttendances db).
Proof.
  intros db staffId d status Hnd other. unfold postStaffAttendance.
  destruct status as [st |]; [| reflexivity].
  destruct (field_truthy (Some d) && field_truthy (Some st)); [| reflexivity].
  destruct (single _) as [existing |] eqn:Hs.
  - destruct (merge_status _ staffId st) as [e | l']; [reflexivity |].
    cbn [snd StaffAttendances with_StaffAttendances].
    apply single_in in Hs.
    assert (Hin : In existing (filter (fun r => String.eqb (StaffAttendance.date r) d)
                                 (StaffAttendances db)))
      by (rewrite Hs; left; reflexivity).
    apply filter_In in Hin as (Hin & Hdate).
    assert (Hsame : forall r, In r (StaffAttendances db) ->
              other r = true ->
              (StaffAttendance.id r =? StaffAttendance.id existing) = false).
    { intros r Hr Ho. destruct (StaffAttendance.id r =? StaffAttendance.id existing) eqn:E;
        [| reflexivity].
      apply Z.eqb_eq in E. rewrite (unique_id_row _ _ _ Hnd Hin Hr E) in Ho.
      unfold other in Ho. rewrite Hdate in Ho. discriminate. }
    revert Hsame. generalize (StaffAttendances db) as rows.
    induction rows as [| r rows IH]; intros Hsame; [reflexivity |].
    cbn [update_day map filter]. fold (update_day (StaffAttendance.id existing)
      (JStr (JSON_stringify (JArr l'))) rows).
    assert (IH' := IH (fun x Hx => Hsame x (or_intror Hx))).
    destruct (other r) eqn:Ho.
    + rewrite (Hsame r (or_introl eq_refl) Ho), Ho, IH'. reflexivity.
    + destruct (StaffAttendance.id r =? StaffAttendance.id existing).
      * unfold other in *. cbn [StaffAttendance.date]. rewrite Ho. exact IH'.
      * rewrite Ho. exact IH'.
  - cbn [snd StaffAttendances with_StaffAttendances]. unfold insert_day.
    rewrite filter_app. cbn [filter]. unfold other. cbn [StaffAttendance.date].
    rewrite String.eqb_refl. cbn [negb]. apply app_nil_r.
Qed.

(** X9. The dates of the day records stay unique under any sequence of
    marks: from a table with at most one day record per date, and so from
    the empty table, no sequence of requests to the mark route leads to a
    table with two day records of one date. *)
Theorem staff_marks_keep_dates_unique :
  forall (requests : list StaffMark) (db : Db),
    dates_unique (StaffAttendances db) ->
    dates_unique (StaffAttendances (serve_staff_marks db requests)).
Proof.
  unfold serve_staff_marks.
  induction requests as [| q requests IH]; intros db Hu; [exact Hu |].
  cbn [fold_left]. apply IH. apply staff_mark_keeps_dates_unique. exact Hu.
Qed.

(** X10. A mark for a date whose one day record holds its statuses as an
    array without [null] answers 200 and stores, as JSON text, an array in
    which the entries of every other staff member are what they were, in
    the same order, the first entry of the staff member carries the status
    of the request, the staff member has as many entries as before, or one
    if there was none, and no entry is lost. *)
Theorem staff_mark_merges_array_record :
  forall (db : Db) (staffId d st : string) (existing : StaffAttendance.Row)
         (l : list JsVal),
    d <> "" -> st <> "" ->
    single (filter (fun r => String.eqb (StaffAttendance.date r) d) (StaffAttendances db))
    = Some existing ->
    StaffAttendance.staffStatus existing = JArr l ->
    forallb non_null l = true ->
    exists l',
      postStaffAttendance db staffId (Some d) (Some st)
      = (Message 200 "Attendance status updated successfully.",
         with_StaffAttendances db
           (update_day (StaffAttendance.id existing)
              (JStr (JSON_stringify (JArr l'))) (StaffAttendances db)))
      /\ (forall other, other <> staffId ->
            filter (entry_id_is other) l' = filter (entry_id_is other) l)
      /\ (exists e, find (entry_id_is staffId) l' = Some e
                    /\ entry_status_is st e = true)
      /\ List.length (filter (entry_id_is staffId) l')
         = Nat.max 1 (List.length (filter (entry_id_is staffId) l))
      /\ (List.length l <= List.length l' <= S (List.length l))%nat.
Proof.
  intros db staffId d st existing l Hd Hst Hs Hv Hl.
  exists (merged staffId st l).
  split; [apply staff_mark_merges_into_array; assumption |].
  split; [intros other Ho; apply merged_frame; exact Ho |].
  split; [apply merged_entry |].
  split; [apply merged_entry |].
  clear. induction l as [| e l IH]; simpl; [lia |].
  destruct (entry_id_is staffId e); simpl; lia.
Qed.

Lemma filter_update_day (d : string) (i : Z) (v : JsVal) (rows : list StaffAttendance.Row) :
  filter (fun r => String.eqb (StaffAttendance.date r) d) (update_day i v rows)
  = update_day i v (filter (fun r => String.eqb (StaffAttendance.date r) d) rows).
Proof.
  induction rows as [| r rows IH]; [reflexivity |].
  cbn [update_day map filter]. fold (update_day i v rows).
  destruct (StaffAttendance.id r =? i) eqn:Ei; cbn [StaffAttendance.date];
    destruct (String.eqb (StaffAttendance.date r) d);
    cbn [update_day map]; rewrite ?Ei, IH; reflexivity.
Qed.

(** X11. A day record written by the mark route cannot be marked again:
    on a table with at most one day record per date, when a mark answers
    201 or 200, every later mark for the same date, for any staff member and
    any non-empty status, answers 500 and leaves the store as it is.  (The
    JSON text of an array is never the empty string.) *)
Theorem staff_mark_written_day_rejects_marks :
  forall (db : Db) (staffId other d st' : string) (status : option string),
    (forall l, JSON_stringify (JArr l) <> "") ->
    st' <> "" ->
    dates_unique (StaffAttendances db) ->
    let out := postStaffAttendance db staffId (Some d) status in
    (exists m, fst out = Message 201 m \/ fst out = Message 200 m) ->
    postStaffAttendance (snd out) other (Some d) (Some st')
    = (Failure 500 "Error updating attendance status"
         (TypeError "updatedStatuses.findIndex is not a function"), snd out).
Proof.
  intros db staffId other d st' status Htext Hst' Hu out (m & Hm). subst out.
  unfold postStaffAttendance in Hm |- * at 2 3.
  destruct status as [st |]; [| destruct Hm; discriminate].
  destruct (field_truthy (Some d) && field_truthy (Some st)) eqn:Hf;
    [| destruct Hm; discriminate].
  assert (Hd : d <> "").
  { apply andb_true_iff in Hf as (Hf & _). simpl in Hf.
    intros ->. discriminate. }
  destruct (single _) as [existing |] eqn:Hs.
  - destruct (merge_status _ staffId st) as [e | l'];
      [destruct Hm; discriminate |].
    cbn [snd].
    eapply staff_mark_fails_on_stored_text with
      (existing := StaffAttendance.mk (StaffAttendance.id existing)
                     (StaffAttendance.date existing) (JStr (JSON_stringify (JArr l'))));
      [exact Hd | exact Hst' | apply Htext | | reflexivity].
    cbn [StaffAttendances with_StaffAttendances].
    rewrite filter_update_day. apply single_in in Hs. rewrite Hs.
    cbn [update_day map]. rewrite Z.eqb_refl. reflexivity.
  - cbn [snd].
    eapply staff_mark_fails_on_stored_text with
      (existing := StaffAttendance.mk
                     (fresh_id (map StaffAttendance.id (StaffAttendances db))) d
                     (JStr (JSON_stringify (JArr [mk_entry staffId st]))));
      [exact Hd | exact Hst' | apply Htext | | reflexivity].
    cbn [StaffAttendances with_StaffAttendances]. unfold insert_day.
    assert (H0 : filter (fun r => String.eqb (StaffAttendance.date r) d)
                   (StaffAttendances db) = []).
    { pose proof (Hu d) as Hle.
      destruct (filter _ (StaffAttendances db)) as [| x [| y l]];
        [reflexivity | discriminate | simpl in Hle; lia]. }
    rewrite filter_app, H0. cbn [filter StaffAttendance.date app].
    rewrite String.eqb_refl. reflexivity.
Qed.

End StaffMarkFacts.

(** ** The student readers and the student mark *)

Lemma count_or_disjoint {A : Type} (p q : A -> bool) (l : list A) :
  (forall x, In x l -> p x = true -> q x = false) ->
  count (fun x => p x || q x) l = count p l + count q l.
Proof.
  induction l as [| x l IH]; intros H; [reflexivity |].
  rewrite !count_cons, IH by (intros y Hy; apply H; right; exact Hy).
  destruct (p x) eqn:Hp; cbn [orb].
  - rewrite (H x (or_introl eq_refl) Hp). lia.
  - destruct (q x); lia.
Qed.

Section StudentFacts.
Context {rt : JsRuntime}.

Import StudentAttendanceRoutes.

Lemma listed_in (students : list Student.Row) (r : StudentAttendance.Row) :
  listed students r = true <->
  In (StudentAttendance.admissionNumber r) (map Student.admissionNumber students).
Proof.
  unfold listed. rewrite existsb_exists, in_map_iff. split.
  - intros (s & Hs & He). apply String.eqb_eq in He. exists s. auto.
  - intros (s & He & Hs). exists s. split; [exact Hs |].
    apply String.eqb_eq. auto.
Qed.

Lemma sum_over_cons (f : Rates -> Z) (x : Student.Row * Rates)
  (body : list (Student.Row * Rates)) :
  sum_over f (x :: body) = f (snd x) + sum_over f body.
Proof. reflexivity. Qed.

Lemma sum_over_students (f : Rates -> Z) (g : StudentAttendance.Row -> bool)
  (students : list Student.Row) (rows : list StudentAttendance.Row) (now : Z) :
  (forall records, f (calculateRates records now) = count g records) ->
  NoDup (map Student.admissionNumber students) ->
  sum_over f
    (map (fun student =>
            (student,
             calculateRates (records_of (Student.admissionNumber student) rows) now))
       students)
  = count (fun r => listed students r && g r) rows.
Proof.
  intros Hf. induction students as [| s students IH]; intros Hnd.
  - cbn. symmetry. apply count_zero_iff. reflexivity.
  - cbn [map] in Hnd. inversion Hnd as [| a l Hnotin Hnd']; subst.
    cbn [map]. rewrite sum_over_cons. cbn [snd].
    rewrite (IH Hnd'), Hf. unfold records_of. rewrite count_filter.
    rewrite <- count_or_disjoint.
    + apply count_ext. intros r _. unfold listed. cbn [existsb].
      destruct (String.eqb _ _), (existsb _ students), (g r); reflexivity.
    + intros r _ Hr. apply andb_true_iff in Hr as (Hr & _).
      apply String.eqb_eq in Hr.
      destruct (listed students r) eqn:Hl; [| reflexivity].
      exfalso. apply Hnotin. rewrite <- Hr. apply listed_in. exact Hl.
Qed.

(** X12. The summary of all students answers 200 with one entry per
    student of the directory, in its order, each computed from the rows of
    that student's admission number.  When the admission numbers of the
    directory are distinct, the totalDays of all entries add up to the
    number of attendance rows whose student is in the directory, and the
    presentDays and absentDays to the numbers of such rows marked present
    and absent: a row of a student who is not in the directory is counted
    nowhere, and no row is counted twice. *)
Theorem all_students_summary_totals :
  forall (db : Db) (now : Z),
    exists body,
      getAllStudentAttendance db now = Body 200 body
      /\ map fst body = Students db
      /\ Forall (fun x =>
                   snd x = calculateRates
                             (records_of (Student.admissionNumber (fst x))
                                (StudentAttendances db)) now) body
      /\ (NoDup (map Student.admissionNumber (Students db)) ->
          sum_over totalDays body
          = count (listed (Students db)) (StudentAttendances db)
          /\ sum_over presentDays body
             = count (fun r => listed (Students db) r && status_is "present" r)
                 (StudentAttendances db)
          /\ sum_over absentDays body
             = count (fun r => listed (Students db) r && status_is "absent" r)
                 (StudentAttendances db)).
Proof.
  intros db now. eexists. split; [reflexivity |].
  split; [rewrite map_map; cbn; apply map_id |].
  split.
  { apply Forall_forall. intros x Hx. apply in_map_iff in Hx as (s & <- & _).
    reflexivity. }
  intros Hnd. split; [| split].
  - rewrite (sum_over_students totalDays (fun _ => true)); [| | exact Hnd].
    + apply count_ext. intros r _. apply andb_true_r.
    + intros records. cbn [calculateRates totalDays]. unfold count. f_equal. f_equal.
      clear. induction records as [| r records IH]; [reflexivity |].
      cbn [filter]. f_equal. exact IH.
  - apply sum_over_students; [reflexivity | exact Hnd].
  - apply sum_over_students; [reflexivity | exact Hnd].
Qed.

(** X13. The summary of one student answers 404 exactly when the table
    holds no row with the admission number, whether or not the student is in
    the directory; it answers 500 exactly when such rows exist and the
    directory does not hold exactly one student with the admission number.
    A 200 answer carries that student, the rows of the admission number in
    the order of the table, and figures over these rows, with totalDays
    their number, at least 1. *)
Theorem student_attendance_outcomes :
  forall (db : Db) (admissionNumber : string) (now : Z),
    let records := records_of admissionNumber (StudentAttendances db) in
    let members :=
      filter (fun s => String.eqb (Student.admissionNumber s) admissionNumber)
        (Students db) in
    ((exists m, getStudentAttendance db admissionNumber now = Message 404 m)
     <-> records = [])
    /\ ((exists m e, getStudentAttendance db admissionNumber now = Failure 500 m e)
        <-> records <> [] /\ single members = None)
    /\ (forall student rates attendanceRecords,
           getStudentAttendance db admissionNumber now
           = Body 200 (student, rates, attendanceRecords) ->
           members = [student]
           /\ Student.admissionNumber student = admissionNumber
           /\ attendanceRecords = records
           /\ rates = calculateRates records now
           /\ totalDays rates = Z.of_nat (List.length records)
           /\ 1 <= totalDays rates).
Proof.
  intros db admissionNumber now records members. subst records members.
  unfold getStudentAttendance.
  destruct (records_of admissionNumber (StudentAttendances db)) as [| r rs] eqn:E.
  - split; [split; [reflexivity | intros _; eexists; reflexivity] |].
    split; [split; [intros (m & e & H); discriminate | intros (H & _); congruence] |].
    intros student rates recs H. discriminate.
  - destruct (single _) as [student |] eqn:Hs.
    + split; [split; [intros (m & H); discriminate | discriminate] |].
      split; [split; [intros (m & e & H); discriminate
                     | intros (_ & H); discriminate] |].
      intros student' rates recs H. injection H as <- <- <-.
      apply single_in in Hs. split; [exact Hs |]. split.
      { assert (Hin : In student
                        (filter (fun s => String.eqb (Student.admissionNumber s)
                                            admissionNumber) (Students db)))
          by (rewrite Hs; left; reflexivity).
        apply filter_In in Hin as (_ & Hin). apply String.eqb_eq. exact Hin. }
      split; [reflexivity |]. split; [reflexivity |].
      split; [reflexivity |]. cbn [calculateRates totalDays List.length]. lia.
    + split; [split; [intros (m & H); discriminate | discriminate] |].
      split; [split; [intros _; split; [discriminate | reflexivity]
                     | intros _; eauto] |].
      intros student rates recs H. discriminate.
Qed.

(** X14. What a successful mark inserts can be read back: when marking a
    student answers 201 with the inserted row, the summary of that student
    on the new store answers 200, its attendance records are the ones the
    student had before followed by the inserted row, and totalDays is one
    more than the number of rows the student had. *)
Theorem student_mark_then_read :
  forall (db db1 : Db) (a d st m : string) (row : StudentAttendance.Row) (now : Z),
    postStudentAttendance db (Some a) (Some d) (Some st) = (Body 201 (m, [row]), db1) ->
    exists student rates,
      getStudentAttendance db1 a now
      = Body 200 (student, rates,
                  (records_of a (StudentAttendances db) ++ [row])%list)
      /\ totalDays rates
         = Z.of_nat (List.length (records_of a (StudentAttendances db))) + 1
      /\ StudentAttendance.admissionNumber row = a
      /\ StudentAttendance.date row = d
      /\ StudentAttendance.status row = st.
Proof.
  intros db db1 a d st m row now. unfold postStudentAttendance.
  destruct (field_truthy (Some a) && field_truthy (Some d) && field_truthy (Some st));
    [| discriminate].
  destruct (single (filter _ (Students db))) as [student |] eqn:Hs; [| discriminate].
  destruct (single (filter (same_pair a d) _)); [discriminate |].
  intros H. injection H as <- <- <-.
  unfold getStudentAttendance.
  cbn [StudentAttendances Students with_StudentAttendances].
  set (row := StudentAttendance.mk
                (fresh_id (map StudentAttendance.id (StudentAttendances db))) a d st).
  assert (Happ : records_of a (StudentAttendances db ++ [row])
                 = (records_of a (StudentAttendances db) ++ [row])%list).
  { unfold records_of. rewrite filter_app.
    cbn [filter row StudentAttendance.admissionNumber].
    rewrite String.eqb_refl. reflexivity. }
  rewrite Happ, Hs.
  destruct (records_of a (StudentAttendances db)) as [| r rs]; cbn [app].
  - eexists. eexists. split; [reflexivity |]. repeat split.
  - eexists. eexists. split; [reflexivity |].
    split; [| repeat split].
    cbn [calculateRates totalDays].
    change (r :: (rs ++ [row])%list) with ((r :: rs) ++ [row])%list.
    rewrite length_app. cbn [List.length]. lia.
Qed.

(** X15. Marking a student never writes the staff tables or the
    directory and never changes or removes a row.  Either the answer is 201
    and the table is the old one followed by the one row that the answer
    carries; or the answer is 400 or 404 and the store is unchanged. *)
Theorem student_mark_frame :
  forall (db : Db) (a d st : option string),
    let out := postStudentAttendance db a d st in
    same_tables_but_student_attendance db (snd out)
    /\ ((exists m row,
            fst out = Body 201 (m, [row])
            /\ StudentAttendances (snd out) = (StudentAttendances db ++ [row])%list
            /\ Some (StudentAttendance.admissionNumber row) = a
            /\ Some (StudentAttendance.date row) = d
            /\ Some (StudentAttendance.status row) = st)
        \/ ((exists m, fst out = Message 400 m \/ fst out = Message 404 m)
            /\ snd out = db)).
Proof.
  intros db a d st out. subst out. unfold postStudentAttendance.
  assert (Hsame : same_tables_but_student_attendance db db) by (repeat split).
  destruct a as [a |], d as [d |], st as [st |];
    try (split; [exact Hsame | right; split; [eexists; left; reflexivity | reflexivity]]).
  destruct (field_truthy (Some a) && field_truthy (Some d) && field_truthy (Some st));
    [| split; [exact Hsame | right; split; [eexists; left; reflexivity | reflexivity]]].
  destruct (single (filter _ (Students db)));
    [| split; [exact Hsame | right; split; [eexists; right; reflexivity | reflexivity]]].
  destruct (single (filter (same_pair a d) _));
    [split; [exact Hsame | right; split; [eexists; left; reflexivity | reflexivity]] |].
  split; [repeat split |]. left. eexists. eexists.
  split; [reflexivity |]. repeat split.
Qed.

Lemma student_mark_keeps_directory (db : Db) (a d st : option string) :
  Students (snd (postStudentAttendance db a d st)) = Students db.
Proof.
  unfold postStudentAttendance.
  destruct a as [a |], d as [d |], st as [st |]; try reflexivity.
  destruct (field_truthy (Some a) && field_truthy (Some d) && field_truthy (Some st));
    [| reflexivity].
  destruct (single (filter _ (Students db))); [| reflexivity].
  destruct (single (filter (same_pair a d) _)); reflexivity.
Qed.

Lemma student_mark_keeps_rows_listed (db : Db) (a d st : option string) :
  Forall (fun r => listed (Students db) r = true) (StudentAttendances db) ->
  Forall (fun r => listed (Students db) r = true)
    (StudentAttendances (snd (postStudentAttendance db a d st))).
Proof.
  intros H. unfold postStudentAttendance.
  destruct a as [a |], d as [d |], st as [st |]; try exact H.
  destruct (field_truthy (Some a) && field_truthy (Some d) && field_truthy (Some st));
    [| exact H].
  destruct (single (filter _ (Students db))) as [student |] eqn:Hs; [| exact H].
  destruct (single (filter (same_pair a d) _)); [exact H |].
  cbn [snd StudentAttendances with_StudentAttendances].
  apply Forall_app. split; [exact H |]. constructor; [| constructor].
  apply single_in in Hs.
  assert (Hin : In student (filter (fun s => String.eqb (Student.admissionNumber s) a)
                              (Students db))) by (rewrite Hs; left; reflexivity).
  apply filter_In in Hin as (Hin & Ha). apply String.eqb_eq in Ha.
  apply listed_in. cbn [StudentAttendance.admissionNumber]. rewrite <- Ha.
  apply in_map. exact Hin.
Qed.

(** X16. Two invariants of the student attendance table hold under any
    sequence of marks: if the table has at most one row per pair
    (admissionNumber, date) and every row belongs to a student of the
    directory, the same is true after the requests, and the directory is the
    same. *)
Theorem student_marks_keep_table_invariants :
  forall (requests : list StudentMark) (db : Db),
    pairs_unique (StudentAttendances db) ->
    Forall (fun r => listed (Students db) r = true) (StudentAttendances db) ->
    let db' := serve_student_marks db requests in
    pairs_unique (StudentAttendances db')
    /\ Forall (fun r => listed (Students db') r = true) (StudentAttendances db')
    /\ Students db' = Students db.
Proof.
  unfold serve_student_marks.
  induction requests as [| q requests IH]; intros db Hu Hl; [auto |].
  cbn [fold_left].
  set (out := postStudentAttendance db (mark_admissionNumber q) (mark_day q)
                (mark_value q)).
  assert (Hst : Students (snd out) = Students db)
    by (apply student_mark_keeps_directory).
  destruct (IH (snd out)) as (H1 & H2 & H3).
  - apply student_mark_keeps_pairs_unique. exact Hu.
  - rewrite Hst. apply student_mark_keeps_rows_listed. exact Hl.
  - split; [exact H1 |]. split; [exact H2 |]. congruence.
Qed.

(** X17. The figures of the student aggregator are bounded: presentDays
    and absentDays are not negative, presentDays is at most totalDays, and
    both rates lie between 0 and 100. *)
Theorem student_rates_bounded :
  forall (records : list StudentAttendance.Row) (now : Z),
    let r := calculateRates records now in
    0 <= presentDays r <= totalDays r
    /\ 0 <= absentDays r <= totalDays r
    /\ (0 <= weeklyAttendanceRate r)%Q /\ (weeklyAttendanceRate r <= 100)%Q
    /\ (0 <= overallAttendanceRate r)%Q /\ (overallAttendanceRate r <= 100)%Q.
Proof.
  intros records now r. subst r. cbn.
  pose proof (count_nonneg (status_is "present") records).
  pose proof (count_le_length (status_is "present") records).
  pose proof (count_nonneg (status_is "absent") records).
  pose proof (count_le_length (status_is "absent") records).
  set (week := filter (since (JsDate.minus_7_days now)) records).
  pose proof (count_nonneg (status_is "present") week) as Hw0.
  pose proof (count_le_length (status_is "present") week) as Hw1.
  destruct (rate_bounds _ _ (conj Hw0 Hw1)).
  destruct (rate_bounds (count (status_is "present") records)
                        (Z.of_nat (List.length records))) as (? & ?); [lia |].
  repeat split; assumption.
Qed.

(** X18. The figures of the student aggregator do not depend on the
    order of the records: a permutation of the records gives the same
    summary. *)
Theorem student_rates_ignore_record_order :
  forall (records records' : list StudentAttendance.Row) (now : Z),
    Permutation records records' ->
    calculateRates records' now = calculateRates records now.
Proof.
  intros records records' now Hp. unfold calculateRates.
  rewrite <- (Permutation_length Hp).
  rewrite <- !(count_Permutation _ _ _ Hp).
  rewrite !count_filter.
  rewrite <- (count_Permutation _ _ _ Hp).
  change (Z.of_nat (List.length (filter ?p ?l))) with (count p l).
  rewrite <- (count_Permutation _ _ _ Hp).
  reflexivity.
Qed.

End StudentFacts.

(** ** Deleting a staff member *)

Lemma keeps_entry_non_null (staffId : string) (e : JsVal) :
  non_null e = true ->
  keeps_entry staffId e = ret (negb (staffId_keyed staffId e)).
Proof. destruct e; simpl; try reflexivity; discriminate. Qed.

Lemma js_filter_keeps (staffId : string) (l : list JsVal) :
  forallb non_null l = true ->
  js_filter (keeps_entry staffId) l
  = ret (filter (fun e => negb (staffId_keyed staffId e)) l).
Proof.
  induction l as [| e l IH]; [reflexivity |].
  cbn [forallb]. intros H. apply andb_true_iff in H as (He & Hl).
  cbn [js_filter filter]. rewrite (keeps_entry_non_null _ _ He), (IH Hl).
  cbn [bind ret]. destruct (negb (staffId_keyed staffId e)); reflexivity.
Qed.

Lemma filter_same_length {A : Type} (p : A -> bool) (l : list A) :
  List.length (filter p l) = List.length l -> filter p l = l.
Proof.
  induction l as [| x l IH]; [reflexivity |].
  cbn [filter]. destruct (p x); cbn [List.length]; intros H.
  - f_equal. apply IH. lia.
  - pose proof (filter_length_le p l). lia.
Qed.

Lemma filter_split_length {A : Type} (p : A -> bool) (l : list A) :
  List.length l
  = (List.length (filter p l) + List.length (filter (fun x => negb (p x)) l))%nat.
Proof.
  induction l as [| x l IH]; [reflexivity |].
  cbn [filter]. destruct (p x); cbn [negb List.length]; lia.
Qed.

Lemma update_day_absent (i : Z) (v : JsVal) (rows : list StaffAttendance.Row) :
  ~ In i (map StaffAttendance.id rows) ->
  StaffAttendanceRoutes.update_day i v rows = rows.
Proof.
  induction rows as [| r rows IH]; intros H; [reflexivity |].
  cbn [StaffAttendanceRoutes.update_day map].
  fold (StaffAttendanceRoutes.update_day i v rows).
  destruct (StaffAttendance.id r =? i) eqn:E.
  - exfalso. apply H. left. apply Z.eqb_eq. exact E.
  - f_equal. apply IH. intros Hin. apply H. right. exact Hin.
Qed.

Lemma update_day_app (i : Z) (v : JsVal) (l1 l2 : list StaffAttendance.Row) :
  StaffAttendanceRoutes.update_day i v (l1 ++ l2)%list
  = (StaffAttendanceRoutes.update_day i v l1
     ++ StaffAttendanceRoutes.update_day i v l2)%list.
Proof. unfold StaffAttendanceRoutes.update_day. apply map_app. Qed.

Lemma pruned_id (staffId : string) (r : StaffAttendance.Row) :
  StaffAttendance.id (pruned staffId r) = StaffAttendance.id r.
Proof. unfold pruned. destruct (StaffAttendance.staffStatus r); reflexivity. Qed.

Lemma pruned_date (staffId : string) (r : StaffAttendance.Row) :
  StaffAttendance.date (pruned staffId r) = StaffAttendance.date r.
Proof. unfold pruned. destruct (StaffAttendance.staffStatus r); reflexivity. Qed.

(** One turn of the loop on a prunable record whose id occurs nowhere
    else in the table. *)
Lemma prune_step_at (staffId : string) (before after : list StaffAttendance.Row)
  (r : StaffAttendance.Row) :
  prunable r = true ->
  ~ In (StaffAttendance.id r) (map StaffAttendance.id before) ->
  ~ In (StaffAttendance.id r) (map StaffAttendance.id after) ->
  prune_step staffId (before ++ r :: after)%list r
  = ret (before ++ pruned staffId r :: after)%list.
Proof.
  intros Hp Hb Ha. unfold prune_step, pruned, prunable in *.
  destruct r as [i d v]. cbn [StaffAttendance.staffStatus StaffAttendance.id
                              StaffAttendance.date] in *.
  destruct v as [| | | | l |]; try reflexivity.
  rewrite (js_filter_keeps _ _ Hp). cbn [bind ret].
  destruct (Nat.eqb _ _) eqn:E.
  - apply Nat.eqb_eq in E. rewrite (filter_same_length _ _ E). reflexivity.
  - rewrite update_day_app, (update_day_absent _ _ _ Hb).
    cbn [StaffAttendanceRoutes.update_day map StaffAttendance.id].
    rewrite Z.eqb_refl.
    fold (StaffAttendanceRoutes.update_day i
            (JArr (filter (fun e => negb (staffId_keyed staffId e)) l)) after).
    rewrite (update_day_absent _ _ _ Ha). reflexivity.
Qed.

Lemma for_of_prune (staffId : string) (todo before : list StaffAttendance.Row) :
  forallb prunable todo = true ->
  NoDup (map StaffAttendance.id (before ++ todo)%list) ->
  for_of (prune_step staffId) (before ++ todo)%list todo
  = (None, (before ++ map (pruned staffId) todo)%list).
Proof.
  revert before. induction todo as [| r todo IH]; intros before Hp Hnd;
    [reflexivity |].
  cbn [forallb] in Hp. apply andb_true_iff in Hp as (Hr & Hp).
  rewrite map_app in Hnd. cbn [map] in Hnd.
  assert (Hb : ~ In (StaffAttendance.id r) (map StaffAttendance.id before)).
  { intros Hin. apply NoDup_remove_2 in Hnd. apply Hnd.
    apply in_or_app. left. exact Hin. }
  assert (Ha : ~ In (StaffAttendance.id r) (map StaffAttendance.id todo)).
  { intros Hin. apply NoDup_remove_2 in Hnd. apply Hnd.
    apply in_or_app. right. exact Hin. }
  cbn [for_of]. rewrite (prune_step_at _ _ _ _ Hr Hb Ha). cbn [ret].
  change (before ++ pruned staffId r :: todo)%list
    with (before ++ [pruned staffId r] ++ todo)%list.
  rewrite app_assoc. rewrite IH.
  - rewrite <- app_assoc. reflexivity.
  - exact Hp.
  - rewrite <- app_assoc. rewrite map_app. cbn [map app]. rewrite pruned_id.
    exact Hnd.
Qed.

Lemma for_of_prune_shape (staffId : string) (todo table : list StaffAttendance.Row) :
  let out := for_of (prune_step staffId) table todo in
  map StaffAttendance.id (snd out) = map StaffAttendance.id table
  /\ map StaffAttendance.date (snd out) = map StaffAttendance.date table.
Proof.
  revert table. induction todo as [| r todo IH]; intros table; [split; reflexivity |].
  cbn [for_of]. destruct (prune_step staffId table r) as [e | table'] eqn:E;
    [split; reflexivity |].
  assert (Hs : map StaffAttendance.id table' = map StaffAttendance.id table
               /\ map StaffAttendance.date table' = map StaffAttendance.date table).
  { unfold prune_step in E.
    destruct (StaffAttendance.staffStatus r); try (injection E as <-; auto).
    apply bind_inr in E as (u & _ & E).
    destruct (Nat.eqb _ _); injection E as <-; [auto |].
    split; [apply update_day_ids | apply update_day_date_list]. }
  destruct (IH table') as (H1 & H2). destruct Hs as (H3 & H4).
  split; congruence.
Qed.

(** X19. Deleting a staff member answers 404, and changes nothing, exactly
    when Staffs does not hold exactly one row with the staffId.  When the
    answer is 500 the staff member is still in Staffs.  When it is 200,
    Staffs has lost the rows with the staffId and kept the others in order,
    and totalStaff is their number.  In every case Students and
    StudentAttendances are untouched, and the staff attendance table keeps
    its day records, with their ids and dates. *)
Theorem delete_staff_outcomes :
  forall (db : Db) (staffId : string),
    let out := deleteStaff db staffId in
    let member := fun r => String.eqb (Staff.staffId r) staffId in
    ((exists m, fst out = Message 404 m) <-> single (filter member (Staffs db)) = None)
    /\ ((exists m, fst out = Message 404 m) -> snd out = db)
    /\ ((exists m e, fst out = Failure 500 m e) -> Staffs (snd out) = Staffs db)
    /\ (forall m n, fst out = Body 200 (m, n) ->
          Staffs (snd out) = filter (fun r => negb (member r)) (Staffs db)
          /\ n = Z.of_nat (List.length (Staffs db)) - 1
          /\ forall r, In r (Staffs (snd out)) -> Staff.staffId r <> staffId)
    /\ Students (snd out) = Students db
    /\ StudentAttendances (snd out) = StudentAttendances db
    /\ map StaffAttendance.id (StaffAttendances (snd out))
       = map StaffAttendance.id (StaffAttendances db)
    /\ map StaffAttendance.date (StaffAttendances (snd out))
       = map StaffAttendance.date (StaffAttendances db).
Proof.
  intros db staffId out member. subst out. unfold deleteStaff. fold member.
  destruct (single (filter member (Staffs db))) as [x |] eqn:Hs.
  - pose proof (for_of_prune_shape staffId (StaffAttendances db) (StaffAttendances db))
      as (Hid & Hdate).
    destruct (for_of (prune_step staffId) (StaffAttendances db) (StaffAttendances db))
      as [[e |] table]; cbn [fst snd] in *.
    + split; [split; [intros (m & H); discriminate | discriminate] |].
      split; [intros (m & H); discriminate |].
      split; [reflexivity |].
      split; [intros m n H; discriminate |].
      repeat split; assumption.
    + split; [split; [intros (m & H); discriminate | discriminate] |].
      split; [intros (m & H); discriminate |].
      split; [intros (m & e & H); discriminate |].
      split; [| repeat split; assumption].
      intros m n H. injection H as <- <-. cbn [Staffs].
      split; [reflexivity |]. split.
      * apply single_in in Hs.
        pose proof (filter_split_length member (Staffs db)) as Hlen.
        rewrite Hs in Hlen. cbn [List.length] in Hlen.
        unfold member in *. cbn beta in *. lia.
      * intros r Hr. apply filter_In in Hr as (_ & Hr).
        unfold member in Hr. intros Heq. rewrite Heq, String.eqb_refl in Hr.
        discriminate.
  - split; [split; [reflexivity | intros _; eexists; reflexivity] |].
    split; [reflexivity |].
    split; [intros (m & e & H); discriminate |].
    split; [intros m n H; discriminate |].
    repeat split.
Qed.

Lemma pruned_free (staffId : string) (r : StaffAttendance.Row) :
  free_of staffId r = true -> prunable r = true /\ pruned staffId r = r.
Proof.
  unfold free_of, prunable, pruned. destruct r as [i d v].
  cbn [StaffAttendance.staffStatus StaffAttendance.id StaffAttendance.date].
  destruct v as [| | | | l |]; auto.
  intros H. split.
  - apply forallb_forall. intros e He.
    apply (proj1 (forallb_forall _ _) H) in He. apply andb_true_iff in He. tauto.
  - f_equal. f_equal. induction l as [| e l IH]; [reflexivity |].
    cbn [forallb] in H. apply andb_true_iff in H as (He & Hl).
    apply andb_true_iff in He as (_ & He). cbn [filter]. rewrite He.
    f_equal. apply IH. exact Hl.
Qed.

Lemma for_of_free (staffId : string) (todo table : list StaffAttendance.Row) :
  forallb (free_of staffId) todo = true ->
  for_of (prune_step staffId) table todo = (None, table).
Proof.
  induction todo as [| r todo IH]; intros H; [reflexivity |].
  cbn [forallb] in H. apply andb_true_iff in H as (Hr & Htodo).
  cbn [for_of].
  assert (Hstep : prune_step staffId table r = ret table).
  { unfold prune_step. unfold free_of in Hr.
    destruct (StaffAttendance.staffStatus r) as [| | | | l |]; try reflexivity.
    assert (Hnn : forallb non_null l = true).
    { apply forallb_forall. intros e He.
      apply (proj1 (forallb_forall _ _) Hr) in He. apply andb_true_iff in He. tauto. }
    rewrite (js_filter_keeps _ _ Hnn). cbn [bind ret].
    assert (Hf : filter (fun e => negb (staffId_keyed staffId e)) l = l).
    { clear Hnn. induction l as [| e l IHl]; [reflexivity |].
      cbn [forallb] in Hr. apply andb_true_iff in Hr as (He & Hl).
      apply andb_true_iff in He as (_ & He). cbn [filter]. rewrite He.
      f_equal. apply IHl. exact Hl. }
    rewrite Hf, Nat.eqb_refl. reflexivity. }
  rewrite Hstep. apply IH. exact Htodo.
Qed.

Section DeleteStaffFacts.
Context {rt : JsRuntime}.

Lemma staff_mark_stores_text (db : Db) (staffId : string) (date status : option string) :
  forallb stored_as_text (StaffAttendances db) = true ->
  forallb stored_as_text
    (StaffAttendances (snd (StaffAttendanceRoutes.postStaffAttendance db staffId date status)))
  = true.
Proof.
  intros H. unfold StaffAttendanceRoutes.postStaffAttendance.
  destruct date as [d |], status as [st |]; try exact H.
  destruct (field_truthy (Some d) && field_truthy (Some st)); [| exact H].
  destruct (single _) as [existing |].
  - destruct (StaffAttendanceRoutes.merge_status _ staffId st); [exact H |].
    cbn [snd StaffAttendances StaffAttendanceRoutes.with_StaffAttendances].
    clear - H. induction (StaffAttendances db) as [| r rows IH]; [reflexivity |].
    cbn [forallb] in H. apply andb_true_iff in H as (Hr & Hrows).
    cbn [StaffAttendanceRoutes.update_day map forallb].
    fold (StaffAttendanceRoutes.update_day (StaffAttendance.id existing)
            (JStr (JSON_stringify (JArr l))) rows).
    rewrite (IH Hrows). destruct (StaffAttendance.id r =? _); [reflexivity |].
    rewrite Hr. reflexivity.
  - cbn [snd StaffAttendances StaffAttendanceRoutes.with_StaffAttendances].
    unfold StaffAttendanceRoutes.insert_day. rewrite forallb_app, H. reflexivity.
Qed.

Lemma staff_marks_store_text (requests : list StaffMark) (db : Db) :
  forallb stored_as_text (StaffAttendances db) = true ->
  forallb stored_as_text (StaffAttendances (serve_staff_marks db requests)) = true.
Proof.
  unfold serve_staff_marks. revert db.
  induction requests as [| q requests IH]; intros db H; [exact H |].
  cbn [fold_left]. apply IH. apply staff_mark_stores_text. exact H.
Qed.

(** X20. Deleting a staff member removes nothing from a day record in
    which no entry is keyed to the member by the property [staffId]: if no
    day record holds, in an array, a [null] or an entry whose [staffId] is
    the member's, and Staffs holds exactly one row of the member, the
    answer is 200 and the staff attendance table is exactly what it was.
    This is so for every table filled through the mark route, whose entries
    carry the member under [id] and are stored as text: after any sequence
    of marks on an empty table, deleting a member leaves every day record,
    and so every entry of the member, in place. *)
Theorem delete_staff_keeps_marked_attendance :
  forall (db : Db) (staffId : string) (member : Staff.Row),
    single (filter (fun r => String.eqb (Staff.staffId r) staffId) (Staffs db))
    = Some member ->
    (forallb (free_of staffId) (StaffAttendances db) = true ->
     (exists m n, fst (deleteStaff db staffId) = Body 200 (m, n))
     /\ StaffAttendances (snd (deleteStaff db staffId)) = StaffAttendances db)
    /\ (forall requests db0,
           StaffAttendances db0 = [] -> db = serve_staff_marks db0 requests ->
           (exists m n, fst (deleteStaff db staffId) = Body 200 (m, n))
           /\ StaffAttendances (snd (deleteStaff db staffId)) = StaffAttendances db).
Proof.
  intros db staffId member Hs.
  assert (Hfree : forallb (free_of staffId) (StaffAttendances db) = true ->
                  (exists m n, fst (deleteStaff db staffId) = Body 200 (m, n))
                  /\ StaffAttendances (snd (deleteStaff db staffId))
                     = StaffAttendances db).
  { intros H. unfold deleteStaff. rewrite Hs, (for_of_free _ _ _ H).
    cbn [fst snd StaffAttendances]. split; [eauto | reflexivity]. }
  split; [exact Hfree |].
  intros requests db0 H0 ->. apply Hfree.
  assert (Ht : forallb stored_as_text
                 (StaffAttendances (serve_staff_marks db0 requests)) = true)
    by (apply staff_marks_store_text; rewrite H0; reflexivity).
  apply forallb_forall. intros r Hr.
  apply (proj1 (forallb_forall _ _) Ht) in Hr.
  unfold stored_as_text in Hr. unfold free_of.
  destruct (StaffAttendance.staffStatus r); try discriminate. reflexivity.
Qed.

End DeleteStaffFacts.

(** X21. On a table with distinct ids whose arrays hold no [null],
    deleting a staff member found in Staffs answers 200 and prunes every day
    record: a day record whose statuses are an array keeps, in order, the
    entries whose [staffId] is not the member's and loses the others; a day
    record whose statuses are not an array, such as one stored as text, is
    left as it is. *)
Theorem delete_staff_prunes_keyed_entries :
  forall (db : Db) (staffId : string) (member : Staff.Row),
    single (filter (fun r => String.eqb (Staff.staffId r) staffId) (Staffs db))
    = Some member ->
    NoDup (map StaffAttendance.id (StaffAttendances db)) ->
    forallb prunable (StaffAttendances db) = true ->
    (exists m n, fst (deleteStaff db staffId) = Body 200 (m, n))
    /\ StaffAttendances (snd (deleteStaff db staffId))
       = map (pruned staffId) (StaffAttendances db)
    /\ forall r l,
         In r (StaffAttendances (snd (deleteStaff db staffId))) ->
         StaffAttendance.staffStatus r = JArr l ->
         forallb (fun e => negb (staffId_keyed staffId e)) l = true.
Proof.
  intros db staffId member Hs Hnd Hp. unfold deleteStaff. rewrite Hs.
  pose proof (for_of_prune staffId (StaffAttendances db) [] Hp Hnd) as H.
  cbn [app] in H. rewrite H. cbn [fst snd StaffAttendances].
  split; [eauto |]. split; [reflexivity |].
  intros r l Hr Hl. apply in_map_iff in Hr as (r0 & <- & _).
  unfold pruned in Hl. destruct (StaffAttendance.staffStatus r0) eqn:E;
    cbn [StaffAttendance.staffStatus] in Hl; try congruence.
  injection Hl as <-. apply forallb_forall. intros e He.
  apply filter_In in He as (_ & He). exact He.
Qed.

(** ** Deleting a student *)

Section DeleteStudentFacts.
Context {rt : JsRuntime}.
Variable ResultRow : Type.
Variable result_admissionNumber : ResultRow -> string.

(** X22. Deleting a student does not delete the student's attendance: the
    rows of StudentAttendances are all kept, while the rows of Results and
    of Students with the admission number are gone, the Results rows even
    when the answer is 404.  If the student had attendance rows, then after
    the deletion they belong to no student of the directory, the summary of
    that admission number answers 500 and not 404, and marking the
    admission number answers 404, student not found. *)
Theorem delete_student_orphans_attendance :
  forall (db : Db) (results : list ResultRow) (admissionNumber : string) (now : Z),
    let out := deleteStudent ResultRow result_admissionNumber db results admissionNumber in
    let db' := snd (fst out) in
    StudentAttendances db' = StudentAttendances db
    /\ (forall r, In r (snd out) -> result_admissionNumber r <> admissionNumber)
    /\ (forall s, In s (Students db') -> Student.admissionNumber s <> admissionNumber)
    /\ (records_of admissionNumber (StudentAttendances db) <> [] ->
        Forall (fun r => listed (Students db') r = false)
          (records_of admissionNumber (StudentAttendances db'))
        /\ getStudentAttendance db' admissionNumber now
           = Failure 500 "Error fetching attendance data" (PostgrestError "PGRST116")
        /\ forall d st,
             admissionNumber <> "" -> d <> "" -> st <> "" ->
             StudentAttendanceRoutes.postStudentAttendance db'
               (Some admissionNumber) (Some d) (Some st)
             = (Message 404 "Student not found", db')).
Proof.
  intros db results admissionNumber now out db'. subst db' out.
  unfold deleteStudent.
  set (is_student := fun s => String.eqb (Student.admissionNumber s) admissionNumber).
  set (db' := mkDb (StaffAttendances db) (Staffs db)
                (filter (fun s => negb (is_student s)) (Students db))
                (StudentAttendances db)).
  assert (Hout : forall (resp : Response unit),
             snd (fst (resp, db', filter (fun r => negb (String.eqb
                    (result_admissionNumber r) admissionNumber)) results)) = db')
    by reflexivity.
  assert (Hgone : forall s, In s (Students db') ->
                            Student.admissionNumber s <> admissionNumber).
  { intros s Hs. cbn [db' Students] in Hs. apply filter_In in Hs as (_ & Hs).
    unfold is_student in Hs. intros Heq. rewrite Heq, String.eqb_refl in Hs.
    discriminate. }
  assert (Hnone : filter (fun s => String.eqb (Student.admissionNumber s)
                                     admissionNumber) (Students db') = []).
  { apply filter_none. intros s Hs.
    destruct (String.eqb _ _) eqn:E; [| reflexivity].
    apply String.eqb_eq in E. exfalso. exact (Hgone s Hs E). }
  assert (Hres : forall r,
             In r (filter (fun r => negb (String.eqb (result_admissionNumber r)
                                            admissionNumber)) results) ->
             result_admissionNumber r <> admissionNumber).
  { intros r Hr. apply filter_In in Hr as (_ & Hr). intros Heq.
    rewrite Heq, String.eqb_refl in Hr. discriminate. }
  assert (Hrest :
            records_of admissionNumber (StudentAttendances db) <> [] ->
            Forall (fun r => listed (Students db') r = false)
              (records_of admissionNumber (StudentAttendances db'))
            /\ getStudentAttendance db' admissionNumber now
               = Failure 500 "Error fetching attendance data" (PostgrestError "PGRST116")
            /\ forall d st,
                 admissionNumber <> "" -> d <> "" -> st <> "" ->
                 StudentAttendanceRoutes.postStudentAttendance db'
                   (Some admissionNumber) (Some d) (Some st)
                 = (Message 404 "Student not found", db')).
  { intros Hrows. split; [| split].
    - apply Forall_forall. intros r Hr. unfold records_of in Hr.
      apply filter_In in Hr as (_ & Hr). apply String.eqb_eq in Hr.
      destruct (listed (Students db') r) eqn:El; [| reflexivity].
      apply listed_in in El. apply in_map_iff in El as (s & Hs & Hin).
      exfalso. apply (Hgone s Hin). congruence.
    - unfold getStudentAttendance.
      change (StudentAttendances db') with (StudentAttendances db).
      destruct (records_of admissionNumber (StudentAttendances db)); [congruence |].
      rewrite Hnone. reflexivity.
    - intros d st Ha Hd Hst. unfold StudentAttendanceRoutes.postStudentAttendance.
      rewrite !field_truthy_some by assumption. cbn [andb].
      rewrite Hnone. reflexivity. }
  destruct (filter is_student (Students db)); cbn [fst snd];
    (split; [reflexivity |]); (split; [exact Hres |]);
    (split; [exact Hgone | exact Hrest]).
Qed.

End DeleteStudentFacts.

(** ** The authentication middleware *)

Lemma startsWith_iff (p s : string) :
  startsWith p s = true <-> exists r, s = p ++ r.
Proof.
  revert s. induction p as [| a p IH]; intros s.
  - split; [intros _; exists s; reflexivity | reflexivity].
  - destruct s as [| b s]; cbn [startsWith].
    + split; [discriminate | intros (r & H); discriminate].
    + rewrite andb_true_iff, IH. split.
      * intros (Hab & (r & ->)). apply Ascii.eqb_eq in Hab. subst b.
        exists r. reflexivity.
      * intros (r & H). injection H as -> ->. split; [apply Ascii.eqb_refl | eauto].
Qed.

Lemma split_space_cons (s : string) : exists seg segs, split_space s = seg :: segs.
Proof.
  induction s as [| c s (seg & segs & IH)]; cbn [split_space]; [eauto |].
  destruct (Ascii.eqb c " "%char); [eauto |]. rewrite IH. eauto.
Qed.

(** The first piece of [token ++ rest] is [token] when [token] has no
    space and [rest] is empty or begins with one. *)
Lemma split_space_app (token rest : string) :
  no_space token = true ->
  (rest = "" \/ exists r, rest = String " "%char r) ->
  exists segs, split_space (token ++ rest) = token :: segs.
Proof.
  intros Ht Hr. induction token as [| c token IH]; cbn [append].
  - destruct Hr as [-> | (r & ->)]; cbn [split_space]; [eauto |].
    change (Ascii.eqb " " " ") with true. cbn iota. eauto.
  - cbn [no_space] in Ht. apply andb_true_iff in Ht as (Hc & Ht).
    destruct (IH Ht) as (segs & Hs). cbn [split_space].
    apply negb_true_iff in Hc. rewrite Hc, Hs. eauto.
Qed.

(** Every string is a piece without space followed by nothing or by a
    space and more. *)
Lemma first_piece (s : string) :
  exists token rest,
    s = token ++ rest /\ no_space token = true
    /\ (rest = "" \/ exists r, rest = String " "%char r).
Proof.
  induction s as [| c s (token & rest & -> & Ht & Hr)].
  - exists "", "". auto.
  - destruct (Ascii.eqb c " "%char) eqn:E.
    + apply Ascii.eqb_eq in E. subst c.
      exists "", (String " "%char (token ++ rest)). split; [reflexivity |].
      split; [reflexivity | right; eauto].
    + exists (String c token), rest. split; [reflexivity |].
      split; [cbn [no_space]; rewrite E, Ht; reflexivity | exact Hr].
Qed.

Lemma second_piece (token rest : string) :
  no_space token = true ->
  (rest = "" \/ exists r, rest = String " "%char r) ->
  nth_error (split_space ("Bearer " ++ token ++ rest)) 1 = Some token.
Proof.
  intros Ht Hr.
  destruct (split_space_app token rest Ht Hr) as (segs & Hs).
  change ("Bearer " ++ token ++ rest) with
    (String "B" (String "e" (String "a" (String "r" (String "e" (String "r"
       (String " " (token ++ rest)))))))).
  cbn [split_space]. 
  change (Ascii.eqb "B" " ") with false. change (Ascii.eqb "e" " ") with false.
  change (Ascii.eqb "a" " ") with false. change (Ascii.eqb "r" " ") with false.
  change (Ascii.eqb " " " ") with true. cbn iota.
  rewrite Hs. reflexivity.
Qed.

Section AuthFacts.
Variable jwt_verify : string -> option JsVal.

(** X23. The middleware lets a request through, with the decoded payload,
    exactly when the Authorization header is [Bearer], one space, a token
    without space that verifies, and then nothing or a space followed by
    anything: what follows a second space plays no part.  A request without
    the header, or with any other header, is answered 401. *)
Theorem auth_accepts_exactly_verified_bearer_tokens :
  forall (authHeader : option string) (decoded : JsVal),
    (authMiddleware jwt_verify authHeader = inr decoded
     <-> exists token rest,
           authHeader = Some ("Bearer " ++ token ++ rest)
           /\ no_space token = true
           /\ (rest = "" \/ exists r, rest = String " "%char r)
           /\ jwt_verify token = Some decoded)
    /\ (forall resp, authMiddleware jwt_verify authHeader = inl resp ->
          exists m, resp = Message 401 m).
Proof.
  intros authHeader decoded. split.
  - split.
    + unfold authMiddleware. destruct authHeader as [h |]; [| discriminate].
      destruct (negb (field_truthy (Some h)) || negb (startsWith "Bearer " h)) eqn:E;
        [discriminate |].
      apply orb_false_iff in E as (_ & E). apply negb_false_iff in E.
      apply startsWith_iff in E as (x & ->).
      destruct (first_piece x) as (token & rest & -> & Ht & Hr).
      rewrite (second_piece token rest Ht Hr).
      destruct (jwt_verify token) as [u |] eqn:Hv; [| discriminate].
      intros H. injection H as <-. exists token, rest. auto.
    + intros (token & rest & -> & Ht & Hr & Hv). unfold authMiddleware.
      assert (Hs : startsWith "Bearer " ("Bearer " ++ token ++ rest) = true)
        by (apply startsWith_iff; eauto).
      rewrite Hs. cbn [negb orb field_truthy append String.eqb].
      change (negb (negb false)) with false. cbn iota.
      fold (append "Bearer " (token ++ rest)).
      rewrite (second_piece token rest Ht Hr), Hv. reflexivity.
  - intros resp. unfold authMiddleware.
    destruct authHeader as [h |]; [| intros H; injection H as <-; eauto].
    destruct (_ || _); [intros H; injection H as <-; eauto |].
    destruct (nth_error _ 1) as [token |]; [| intros H; injection H as <-; eauto].
    destruct (jwt_verify token); [discriminate | intros H; injection H as <-; eauto].
Qed.

End AuthFacts.

(** ** The properties above at concrete stores *)

(** X1 at the table of two days, asked without expand. *)
Lemma all_staff_attendance_outcomes_witness :
  getAllStaffAttendance db_two_days None = Body 200 (StaffAttendances db_two_days).
Proof.
  apply (proj1 (proj2 (all_staff_attendance_outcomes db_two_days None)));
    discriminate.
Defined.

(** X2 at the table of two days with S1 and S2 in Staffs. *)
Lemma all_staff_attendance_expanded_witness :
  exists result,
    getAllStaffAttendance db_two_days_staffed (Some "staff") = Body 200 result
    /\ List.length result = 2%nat.
Proof.
  destruct (all_staff_attendance_expanded db_two_days_staffed
              ltac:(discriminate) ltac:(vm_compute; reflexivity))
    as (result & Hr & HF).
  exists result. split; [exact Hr |].
  apply Forall2_length in HF. rewrite <- HF. reflexivity.
Defined.

(** X3 at the table of two days, expanded for S1. *)
Lemma staff_summary_outcomes_witness :
  exists s,
    StaffAttendanceRoutes.getStaffAttendance db_two_days_staffed "S1" (Some "staff")
      now_sun_10 = Body 200 s.
Proof.
  apply (proj2 (proj2 (staff_summary_outcomes db_two_days_staffed "S1" (Some "staff")
                         now_sun_10))).
  split; [discriminate |]. split; [vm_compute; reflexivity |].
  intros _. eexists. vm_compute. reflexivity.
Defined.

(** X4 at the table of two days, for S1. *)
Lemma staff_summary_figures_bounded_witness :
  exists s,
    StaffAttendanceRoutes.summarise (StaffAttendances db_two_days) "S1" now_sun_10
    = inr s
    /\ 0 <= StaffAttendanceRoutes.daysPresent s <= StaffAttendanceRoutes.totalDays s
    /\ (StaffAttendanceRoutes.overallAttendanceRate s <= 100)%Q.
Proof.
  eexists. split; [vm_compute; reflexivity |].
  pose proof (staff_summary_figures_bounded
                (StaffAttendances db_two_days) "S1" now_sun_10 _ eq_refl) as H.
  destruct H as (H1 & _ & _ & _ & _ & _ & H2 & _).
  split; [exact H1 | exact H2].
Defined.

(** X5 at the table of two days, for S1. *)
Lemma staff_summary_expand_keeps_figures_witness :
  exists s s0,
    StaffAttendanceRoutes.getStaffAttendance db_two_days_staffed "S1" (Some "staff")
      now_sun_10 = Body 200 s
    /\ StaffAttendanceRoutes.getStaffAttendance db_two_days_staffed "S1" None
         now_sun_10 = Body 200 s0
    /\ StaffAttendanceRoutes.totalDays s = StaffAttendanceRoutes.totalDays s0.
Proof.
  assert (H : exists s,
             StaffAttendanceRoutes.getStaffAttendance db_two_days_staffed "S1"
               (Some "staff") now_sun_10 = Body 200 s)
    by (eexists; vm_compute; reflexivity).
  destruct H as (s & Hs). exists s.
  destruct (staff_summary_expand_keeps_figures db_two_days_staffed "S1" now_sun_10
              s Hs) as (s0 & d & H0 & _ & _ & _ & _ & _ & Ht & _).
  exists s0. split; [exact Hs |]. split; [exact H0 | exact Ht].
Defined.

(** X6 at the table of two days and its reverse. *)
Lemma staff_summary_ignores_record_order_witness :
  exists s',
    StaffAttendanceRoutes.summarise (rev (StaffAttendances db_two_days)) "S1" now_sun_10
    = inr s'
    /\ StaffAttendanceRoutes.totalDays s' = 2.
Proof.
  assert (H : exists s,
             StaffAttendanceRoutes.summarise (StaffAttendances db_two_days) "S1"
               now_sun_10 = inr s
             /\ StaffAttendanceRoutes.totalDays s = 2)
    by (eexists; split; vm_compute; reflexivity).
  destruct H as (s & Hsum & H2).
  destruct (staff_summary_ignores_record_order
              (StaffAttendances db_two_days) (rev (StaffAttendances db_two_days))
              "S1" now_sun_10 s (Permutation_rev _) Hsum)
    as (s' & Hs & Ht & _).
  exists s'. split; [exact Hs | congruence].
Defined.

(** X8 at the table of two days: a mark for Tuesday leaves Monday. *)
Lemma staff_mark_leaves_other_days_witness :
  filter (fun r => negb (String.eqb (StaffAttendance.date r) tue_05))
    (StaffAttendances
       (snd (StaffAttendanceRoutes.postStaffAttendance db_two_days "S1"
               (Some tue_05) (Some "present"))))
  = filter (fun r => negb (String.eqb (StaffAttendance.date r) tue_05))
      (StaffAttendances db_two_days).
Proof.
  apply (staff_mark_leaves_other_days db_two_days "S1" tue_05 (Some "present")).
  vm_compute. repeat constructor; simpl; intuition discriminate.
Defined.

(** X9 from the empty table. *)
Lemma staff_marks_keep_dates_unique_witness :
  dates_unique (StaffAttendances (serve_staff_marks emptyDb two_staff_marks)).
Proof.
  apply staff_marks_keep_dates_unique. intros d. simpl. lia.
Defined.

(** X10 at a Monday record stored as an array: S2 is added beside S1. *)
Lemma staff_mark_merges_array_record_witness :
  exists l',
    StaffAttendanceRoutes.postStaffAttendance db_array_day "S2" (Some mon_04)
      (Some "absent")
    = (Message 200 "Attendance status updated successfully.",
       StaffAttendanceRoutes.with_StaffAttendances db_array_day
         (StaffAttendanceRoutes.update_day 1 (JStr (JSON_stringify (JArr l')))
            (StaffAttendances db_array_day)))
    /\ filter (entry_id_is "S1") l' = [mk_entry "S1" "present"].
Proof.
  destruct (staff_mark_merges_array_record db_array_day "S2" mon_04 "absent"
              (StaffAttendance.mk 1 mon_04 (JArr [mk_entry "S1" "present"]))
              [mk_entry "S1" "present"]
              ltac:(discriminate) ltac:(discriminate) eq_refl eq_refl eq_refl)
    as (l' & H & Hframe & _).
  exists l'. split; [exact H |].
  rewrite (Hframe "S1" ltac:(discriminate)). reflexivity.
Defined.

(** X11 from the empty table: after S1 is marked, S2 cannot be. *)
Lemma staff_mark_written_day_rejects_marks_witness :
  StaffAttendanceRoutes.postStaffAttendance
    (snd (StaffAttendanceRoutes.postStaffAttendance emptyDb "S1" (Some mon_04)
            (Some "present")))
    "S2" (Some mon_04) (Some "absent")
  = (Failure 500 "Error updating attendance status"
       (TypeError "updatedStatuses.findIndex is not a function"),
     snd (StaffAttendanceRoutes.postStaffAttendance emptyDb "S1" (Some mon_04)
            (Some "present"))).
Proof.
  apply (staff_mark_written_day_rejects_marks emptyDb "S1" "S2" mon_04 "absent"
           (Some "present")).
  - intros l. simpl. discriminate.
  - discriminate.
  - intros d. simpl. lia.
  - eexists. left. reflexivity.
Defined.

(** X12 at a school of two students, one of them with two rows. *)
Lemma all_students_summary_totals_witness :
  exists body,
    getAllStudentAttendance db_school now_sun_10 = Body 200 body
    /\ sum_over StudentAttendanceRoutes.totalDays body = 2.
Proof.
  destruct (all_students_summary_totals db_school now_sun_10)
    as (body & Hb & _ & _ & Hsum).
  exists body. split; [exact Hb |].
  destruct Hsum as (Ht & _).
  - simpl. repeat constructor; simpl; intuition discriminate.
  - rewrite Ht. vm_compute. reflexivity.
Defined.

(** X13 at the same school, for the student with rows. *)
Lemma student_attendance_outcomes_witness :
  exists student rates records,
    getStudentAttendance db_school "ADM1" now_sun_10 = Body 200 (student, rates, records)
    /\ StudentAttendanceRoutes.totalDays rates = 2.
Proof.
  eexists. eexists. eexists. split; [vm_compute; reflexivity |].
  destruct (proj2 (proj2 (student_attendance_outcomes db_school "ADM1" now_sun_10))
              _ _ _ eq_refl) as (_ & _ & _ & _ & Ht & _).
  exact Ht.
Defined.

(** X14 for the student ADM1, marked once. *)
Lemma student_mark_then_read_witness :
  exists student rates row,
    getStudentAttendance
      (snd (StudentAttendanceRoutes.postStudentAttendance db_one_student
              (Some "ADM1") (Some mon_04) (Some "present")))
      "ADM1" now_sun_10
    = Body 200 (student, rates, [row])
    /\ StudentAttendanceRoutes.totalDays rates = 1.
Proof.
  destruct (student_mark_then_read db_one_student _ "ADM1" mon_04 "present" _ _
              now_sun_10 eq_refl) as (student & rates & H & Ht & _).
  eexists. eexists. eexists. split; [exact H | exact Ht].
Defined.

(** X16 for the student ADM1, marked twice for one day. *)
Lemma student_marks_keep_table_invariants_witness :
  pairs_unique (StudentAttendances (serve_student_marks db_one_student two_student_marks)).
Proof.
  apply (student_marks_keep_table_invariants two_student_marks db_one_student).
  - intros a d. simpl. lia.
  - constructor.
Defined.

(** X18 at two records and their reverse. *)
Lemma student_rates_ignore_record_order_witness :
  StudentAttendanceRoutes.calculateRates (rev (StudentAttendances db_school)) now_sun_10
  = StudentAttendanceRoutes.calculateRates (StudentAttendances db_school) now_sun_10.
Proof.
  apply student_rates_ignore_record_order. apply Permutation_rev.
Defined.

(** X19 at a store with the one member S1. *)
Lemma delete_staff_outcomes_witness :
  Staffs (snd (deleteStaff db_array_day "S1")) = []
  /\ exists m, fst (deleteStaff db_array_day "S1") = Body 200 (m, 0).
Proof.
  destruct (proj1 (proj2 (proj2 (proj2 (delete_staff_outcomes db_array_day "S1"))))
              _ _ eq_refl) as (Hs & _ & _).
  split; [rewrite Hs; reflexivity | eexists; reflexivity].
Defined.

(** X20 at the table of two days, filled through the mark route. *)
Lemma delete_staff_keeps_marked_attendance_witness :
  StaffAttendances (snd (deleteStaff db_marked_staffed "S1"))
  = StaffAttendances db_marked_staffed.
Proof.
  apply (proj1 (delete_staff_keeps_marked_attendance db_marked_staffed "S1"
                  (Staff.mk "S1" "Sam") eq_refl)).
  vm_compute. reflexivity.
Defined.

(** X21 at a day record keyed by [staffId]: the entry of S1 goes, the
    entry of S2 stays. *)
Lemma delete_staff_prunes_keyed_entries_witness :
  map StaffAttendance.staffStatus (StaffAttendances (snd (deleteStaff db_keyed_day "S1")))
  = [JArr [JObj [("staffId", JStr "S2"); ("status", JStr "absent")]]].
Proof.
  destruct (delete_staff_prunes_keyed_entries db_keyed_day "S1" (Staff.mk "S1" "Sam")
              eq_refl
              ltac:(simpl; repeat constructor; simpl; intuition discriminate)
              eq_refl) as (_ & H & _).
  rewrite H. reflexivity.
Defined.

(** X22 at the school: ADM1 is deleted, the two rows stay and cannot be
    read. *)
Lemma delete_student_orphans_attendance_witness :
  let db' := snd (fst (deleteStudent string (fun r => r) db_school ["ADM1"; "ADM2"] "ADM1")) in
  getStudentAttendance db' "ADM1" now_sun_10
  = Failure 500 "Error fetching attendance data" (PostgrestError "PGRST116")
  /\ List.length (StudentAttendances db') = 2%nat.
Proof.
  intros db'.
  destruct (delete_student_orphans_attendance string (fun r => r) db_school
              ["ADM1"; "ADM2"] "ADM1" now_sun_10) as (Hrows & _ & _ & H).
  destruct (H ltac:(discriminate)) as (_ & Hget & _).
  split; [exact Hget |]. subst db'. rewrite Hrows. reflexivity.
Defined.

(** X23 for a header with more after the token. *)
Lemma auth_accepts_exactly_verified_bearer_tokens_witness :
  authMiddleware verify_good (Some "Bearer good and more")
  = inr (JObj [("role", JStr "staff")]).
Proof.
  apply (proj1 (auth_accepts_exactly_verified_bearer_tokens verify_good
                  (Some "Bearer good and more") (JObj [("role", JStr "staff")]))).
  exists "good", " and more". split; [reflexivity |].
  split; [reflexivity |]. split; [right; eexists; reflexivity | reflexivity].
Defined.
